(** * Deep research pipeline: supervisor loop, sub-researcher quota,
      URL validation and objectivity scoring

    A shallow embedding of the control logic of
    - [src/multi_agent_supervisor.py] (supervisor decision / tool loop),
    - [src/research_agent.py] (search quota of a sub-researcher),
    - [src/red_team_evaluator.py] (URL validation, audits, scoring),
    - [src/report_productor.py] (removal of invalid sources),
    - [src/dataclasses.py] (the metric records and their defaults),
    followed by the properties of that code.

    Conventions of the embedding.
    - Python [int] is [Z]; Python [float] is idealised as an exact rational
      [Q], so rounding is not modelled.
    - Python [str] is [string], read as a sequence of 8-bit characters;
      case folding and character classes are the ASCII ones.
    - A raised exception is the [Raise] case of [result]; a function that
      cannot raise returns its value directly.
    - The language model, the search tool, the HTTP client and Python's
      standard library parsers are capabilities passed to the functions that
      call them; each may answer anything, and may raise where the real one
      can.
    - Usage tracking, logging and printing do not influence any value
      computed here and are left out. *)

From Stdlib Require Import ZArith QArith Qminmax Lqa Lia String Ascii List Bool.
From stdpp Require Import base option list sorting gmap strings pretty.

Set Warnings "-register-all".
Local Open Scope Z_scope.

(** ** Python values, exceptions and strings *)

Module Py.

(** The exception classes that the modelled code can meet. *)
Inductive exn :=
| TypeError
| ValueError
| KeyError (key : string)
| IndexError
| AttributeError (attr : string)
| RuntimeError (msg : string).

Inductive result (A : Type) :=
| Ok (a : A)
| Raise (e : exn).
Arguments Ok {A} a.
Arguments Raise {A} e.

Definition bind {A B} (x : result A) (f : A -> result B) : result B :=
  match x with
  | Ok a => f a
  | Raise e => Raise e
  end.

(** [try: x except Exception: h]. *)
Definition try_except {A} (x : result A) (h : exn -> result A) : result A :=
  match x with
  | Ok a => Ok a
  | Raise e => h e
  end.

(** A list comprehension whose element expression may raise: the first
    exception stops the evaluation. *)
Fixpoint mapM {A B} (f : A -> result B) (l : list A) : result (list B) :=
  match l with
  | [] => Ok []
  | a :: l' =>
      match f a with
      | Raise e => Raise e
      | Ok b =>
          match mapM f l' with
          | Raise e => Raise e
          | Ok bs => Ok (b :: bs)
          end
      end
  end.

(** Values produced by [json.loads]. *)
Inductive json :=
| JNull
| JBool (b : bool)
| JInt (z : Z)
| JFloat (q : Q)
| JStr (s : string)
| JArr (l : list json)
| JObj (m : gmap string json).

(** [len(v)]. *)
Definition len (v : json) : result nat :=
  match v with
  | JStr s => Ok (String.length s)
  | JArr l => Ok (length l)
  | JObj m => Ok (size m)
  | _ => Raise TypeError
  end.

(** Reading a field at its declared type [float]: JSON numbers (and the
    booleans, which are numbers in Python) are taken at their value.
    A dataclass does not check field types, so Python would store any
    other value and fail with [TypeError] at its first arithmetic use;
    the records here are typed, and the failure is placed at the read. *)
Definition as_float (v : json) : result Q :=
  match v with
  | JBool b => Ok (if b then 1%Q else 0%Q)
  | JInt z => Ok (inject_Z z)
  | JFloat q => Ok q
  | _ => Raise TypeError
  end.

(** Reading a field at its declared type [List[...]]. *)
Definition as_list (v : json) : result (list json) :=
  match v with
  | JArr l => Ok l
  | _ => Raise TypeError
  end.

(** [d.get(key, default)]. *)
Definition dict_get (d : gmap string json) (key : string) (default : json) : json :=
  match d !! key with
  | Some v => v
  | None => default
  end.

(** [min(a, b)] and [max(a, b)] of two floats: the first argument is
    returned unless the second is strictly smaller (larger). *)
Definition min (a b : Q) : Q := if Qle_bool a b then a else b.
Definition max (a b : Q) : Q := if Qle_bool b a then a else b.

(** *** Strings *)

Definition chars (s : string) : list ascii := list_ascii_of_string s.
Definition str (l : list ascii) : string := string_of_list_ascii l.

Definition code (a : ascii) : nat := nat_of_ascii a.

Definition is_upper (a : ascii) : bool := (65 <=? code a)%nat && (code a <=? 90)%nat.
Definition is_alpha (a : ascii) : bool :=
  is_upper a || ((97 <=? code a)%nat && (code a <=? 122)%nat).
Definition is_digit (a : ascii) : bool := (48 <=? code a)%nat && (code a <=? 57)%nat.

(** [\s] and [str.isspace]: tab, line feed, vertical tab, form feed,
    carriage return, the four separators 0x1c-0x1f and the space. *)
Definition is_space (a : ascii) : bool :=
  ((9 <=? code a)%nat && (code a <=? 13)%nat)
  || ((28 <=? code a)%nat && (code a <=? 32)%nat).

Definition lower_char (a : ascii) : ascii :=
  if is_upper a then ascii_of_nat (code a + 32) else a.

(** [s.lower()]. *)
Definition lower (s : string) : string := str (map lower_char (chars s)).

Definition newline : ascii := ascii_of_nat 10.
Definition nl : string := String newline EmptyString.

Fixpoint starts_with (p s : list ascii) : bool :=
  match p, s with
  | [], _ => true
  | a :: p', b :: s' => Ascii.eqb a b && starts_with p' s'
  | _ :: _, [] => false
  end.

Fixpoint find_sub (p s : list ascii) : bool :=
  starts_with p s ||
  match s with
  | [] => false
  | _ :: s' => find_sub p s'
  end.

(** [sub in s]. *)
Definition contains (sub s : string) : bool := find_sub (chars sub) (chars s).

Fixpoint drop_while {A} (p : A -> bool) (l : list A) : list A :=
  match l with
  | [] => []
  | a :: l' => if p a then drop_while p l' else l
  end.

(** [s.rstrip(set)]. *)
Definition rstrip (set : string) (s : string) : string :=
  str (rev (drop_while (fun a => existsb (Ascii.eqb a) (chars set)) (rev (chars s)))).

(** [s[:n]]. *)
Definition prefix (n : nat) (s : string) : string := str (take n (chars s)).

(** [s.split(sep)] for a one-character separator. *)
Fixpoint split_chars (sep : ascii) (s : list ascii) : list (list ascii) :=
  match s with
  | [] => [[]]
  | a :: s' =>
      if Ascii.eqb a sep then [] :: split_chars sep s'
      else match split_chars sep s' with
           | [] => [[a]]
           | w :: ws => (a :: w) :: ws
           end
  end.

(** [sep.join(parts)] for a one-character separator. *)
Fixpoint join_chars (sep : ascii) (parts : list (list ascii)) : list ascii :=
  match parts with
  | [] => []
  | [w] => w
  | w :: ws => w ++ sep :: join_chars sep ws
  end.

Definition split_lines (s : string) : list string := map str (split_chars newline (chars s)).
Definition join_lines (l : list string) : string := str (join_chars newline (map chars l)).

(** [int(digits)] for a run of decimal digits. *)
Definition int_of_digits (l : list ascii) : Z :=
  fold_left (fun acc a => 10 * acc + (Z.of_nat (code a) - 48)) l 0.

End Py.

Notation "'let*' x ':=' c1 'in' c2" := (Py.bind c1 (fun x => c2))
  (at level 10, x name, c1 at level 100, c2 at level 200).

(** ** Regular expressions

    A backtracking matcher with the semantics of Python's [re] for the
    constructs that the modelled patterns use: character classes,
    sequence, alternation, greedy and lazy repetition, numbered groups,
    positive lookahead and the end anchor [\Z]. *)

Module Re.
Import Py.

Inductive regex :=
| Empty
| Chr (p : ascii -> bool)
| Seq (r1 r2 : regex)
| Alt (r1 r2 : regex)
| Star (greedy : bool) (r : regex)
| Group (n : nat) (r : regex)
| Lookahead (r : regex)
| EndZ.

(** The text of the groups matched so far, most recent first. *)
Definition captures := list (nat * list ascii).

(** [rmatch r s c k] matches [r] at the head of [s] and hands the rest of
    the input to the continuation [k]; alternatives are tried in Python's
    order and the first overall success is returned. *)
Fixpoint rmatch (r : regex) (s : list ascii) (c : captures)
    (k : list ascii -> captures -> option (list ascii * captures))
    {struct r} : option (list ascii * captures) :=
  match r with
  | Empty => k s c
  | Chr p =>
      match s with
      | a :: s' => if p a then k s' c else None
      | [] => None
      end
  | Seq r1 r2 => rmatch r1 s c (fun s1 c1 => rmatch r2 s1 c1 k)
  | Alt r1 r2 =>
      match rmatch r1 s c k with
      | Some x => Some x
      | None => rmatch r2 s c k
      end
  | Star greedy r1 =>
      (fix loop (n : nat) (s : list ascii) (c : captures) {struct n} :=
         match n with
         | O => k s c
         | S n' =>
             let again s' c' :=
               if (length s' <? length s)%nat then loop n' s' c' else None in
             if greedy then
               match rmatch r1 s c again with
               | Some x => Some x
               | None => k s c
               end
             else
               match k s c with
               | Some x => Some x
               | None => rmatch r1 s c again
               end
         end) (S (length s)) s c
  | Group n r1 =>
      rmatch r1 s c (fun s' c' => k s' ((n, take (length s - length s') s) :: c'))
  | Lookahead r1 =>
      match rmatch r1 s c (fun s' c' => Some (s', c')) with
      | Some (_, c') => k s c'
      | None => None
      end
  | EndZ =>
      match s with
      | [] => k s c
      | _ :: _ => None
      end
  end.

(** A match anchored at the head of [s]: the matched text, the rest of
    the input and the groups. *)
Definition match_here (r : regex) (s : list ascii)
    : option (list ascii * list ascii * captures) :=
  match rmatch r s [] (fun s' c' => Some (s', c')) with
  | Some (rest, c) => Some (take (length s - length rest) s, rest, c)
  | None => None
  end.

(** [re.search]: the leftmost match. *)
Fixpoint search_from (r : regex) (s : list ascii)
    : option (list ascii * list ascii * captures) :=
  match match_here r s with
  | Some m => Some m
  | None =>
      match s with
      | [] => None
      | _ :: s' => search_from r s'
      end
  end.

Definition search (r : regex) (s : string) : option (string * captures) :=
  match search_from r (chars s) with
  | Some (m, _, c) => Some (str m, c)
  | None => None
  end.

(** [match.group(n)]. *)
Fixpoint group (n : nat) (c : captures) : list ascii :=
  match c with
  | [] => []
  | (m, t) :: c' => if (m =? n)%nat then t else group n c'
  end.

(** [re.sub(r, lambda _: repl, s)]: every non-overlapping match, scanning
    left to right, is replaced by [repl].  The patterns used with it
    never match the empty string. *)
Fixpoint sub_from (r : regex) (repl : list ascii) (fuel : nat) (s : list ascii)
    : list ascii :=
  match fuel with
  | O => s
  | S fuel' =>
      match match_here r s with
      | Some (_ :: _, rest, _) => repl ++ sub_from r repl fuel' rest
      | _ =>
          match s with
          | [] => []
          | a :: s' => a :: sub_from r repl fuel' s'
          end
      end
  end.

Definition sub (r : regex) (repl : string) (s : string) : string :=
  str (sub_from r (chars repl) (S (String.length s)) (chars s)).

(** [re.findall(r, s)] for a pattern without groups. *)
Fixpoint findall_from (r : regex) (fuel : nat) (s : list ascii) : list (list ascii) :=
match fuel with
| O => []
| S fuel' =>
    match match_here r s with
    | Some ((_ :: _) as m, rest, _) => m :: findall_from r fuel' rest
    | _ =>
        match s with
        | [] => []
        | _ :: s' => findall_from r fuel' s'
        end
    end
end.

Definition findall (r : regex) (s : string) : list string :=
map str (findall_from r (S (String.length s)) (chars s)).

(** Pattern combinators. *)
Definition lit1 (a : ascii) : regex := Chr (Ascii.eqb a).
Definition lit1_nocase (a : ascii) : regex :=
  Chr (fun b => Ascii.eqb (lower_char b) (lower_char a)).
Definition lit (s : string) : regex := fold_right (fun a r => Seq (lit1 a) r) Empty (chars s).
Definition lit_nocase (s : string) : regex :=
  fold_right (fun a r => Seq (lit1_nocase a) r) Empty (chars s).
Definition opt (r : regex) : regex := Alt r Empty.
Definition plus (r : regex) : regex := Seq r (Star true r).
Definition space : regex := Chr is_space.
Definition digit : regex := Chr is_digit.
Definition any_dotall : regex := Chr (fun _ => true).
Definition any : regex := Chr (fun a => negb (Ascii.eqb a newline)).

End Re.

(** ** The metric records of [src/dataclasses.py] *)

Module Dataclasses.
Import Py.

(** [@dataclass class BiasMetrics].  The list fields hold whatever the
    model listed, so their items are JSON values. *)
Record BiasMetrics := {
  one_sided_score : Q;
  missing_counter_evidence : list json;
  confirmation_bias_indicators : list json;
  source_diversity_score : Q;
  quantitative_ratio : Q
}.

(** [BiasMetrics()]. *)
Definition BiasMetrics_default : BiasMetrics := {|
  one_sided_score := 0.0;
  missing_counter_evidence := [];
  confirmation_bias_indicators := [];
  source_diversity_score := 0.0;
  quantitative_ratio := 0.0
|}.

(** [@dataclass class SourceQualityMetrics]. *)
Record SourceQualityMetrics := {
  total_sources : Z;
  valid_sources : Z;
  primary_sources : Z;
  secondary_sources : Z;
  academic_sources : Z;
  source_credibility_score : Q;
  missing_citations : list string;
  invalid_sources : list string
}.

(** [SourceQualityMetrics()]. *)
Definition SourceQualityMetrics_default : SourceQualityMetrics := {|
  total_sources := 0;
  valid_sources := 0;
  primary_sources := 0;
  secondary_sources := 0;
  academic_sources := 0;
  source_credibility_score := 0.0;
  missing_citations := [];
  invalid_sources := []
|}.

(** [@dataclass class ClaimSourceConsistency].  [verified_claims_count]
    is declared [int] and stores the number that the model reported; it
    is kept as that number. *)
Record ClaimSourceConsistency := {
  numerical_inconsistencies : list json;
  contextual_mismatches : list json;
  unverifiable_claims : list json;
  verified_claims_count : Q;
  consistency_score : Q
}.

(** [ClaimSourceConsistency()]. *)
Definition ClaimSourceConsistency_default : ClaimSourceConsistency := {|
  numerical_inconsistencies := [];
  contextual_mismatches := [];
  unverifiable_claims := [];
  verified_claims_count := 0;
  consistency_score := 0.0
|}.

End Dataclasses.

(** ** [src/red_team_evaluator.py] *)

Module Evaluator.
Import Py Dataclasses.

(** *** Capabilities *)

(** What one HTTP GET can come to: a response with its status and its
    body text (reading the body can itself raise), or one of the
    failures that [_make_url_request] distinguishes. *)
Inductive http_outcome :=
| HttpResponse (status : Z) (text : result string)
| HttpTimeout
| HttpClientError
| HttpOtherError.

(** The two components of [urlparse(url)] that the code reads. *)
Record ParseResult := { scheme : string; netloc : string }.

(** The formatted prompt of each audit, by its arguments. *)
Inductive prompt :=
| BiasPrompt (query report : string)
| SourcePrompt (report sources_text : string)
| ClaimPrompt (query report : string)
| ConsistencyPrompt (report source_content_map : string).

Record World := {
  (** [aiohttp] GET of a URL; the number is the attempt, so that
      successive attempts may differ. *)
  http_get : string -> Z -> http_outcome;
  (** [urllib.parse.urlparse]; it raises [ValueError] on some inputs. *)
  urlparse : string -> result ParseResult;
  (** [self.evaluator_model.invoke([...]).content]. *)
  evaluator_model : prompt -> result string;
  (** [json.loads] on a text that starts with an opening brace: a
      [dict], or an exception. *)
  json_loads : string -> result (gmap string json);
  (** The builtins [str], [int] and [float] on decoded JSON values. *)
  py_str : json -> string;
  py_int : json -> result Z;
  py_float : json -> result Q
}.

(** What a validation did, in order. *)
Inductive event :=
| EvGet (url : string) (attempt : Z)
| EvSleep (seconds : Z).

(** *** URL validation *)

Definition error_markers : list string :=
  [ "<h1>error"; "<h2>error"; "error</h1>"; "error</h2>"; "page not found";
    "not found</h1>"; "not found</h2>"; "<title>404"; "<h1>404"; "<h2>404";
    "bad request"; "invalid request" ].

Definition _check_error_page (text_sample : string) : bool :=
  let text_lower := lower text_sample in
  existsb (fun marker => contains marker text_lower) error_markers.

Definition _is_valid_status_code (status_code : Z) : bool :=
  if (200 <=? status_code) && (status_code <? 300) then true
  else if status_code <? 400 then true
  else if (status_code =? 401) || (status_code =? 403) || (status_code =? 429) then true
  else false.

Definition _check_response_status (status_code : Z) (text : result string) : bool * Z :=
  if (200 <=? status_code) && (status_code <? 300) then
    match text with
    | Ok t =>
        let text_sample := prefix 4096 t in
        if _check_error_page text_sample then (false, status_code)
        else (true, status_code)
    | Raise _ => (true, status_code)
    end
  else if _is_valid_status_code status_code then (true, status_code)
  else (false, status_code).

Definition _make_url_request (w : World) (clean_url : string) (attempt : Z) : bool * Z :=
  match http_get w clean_url attempt with
  | HttpResponse status_code text => _check_response_status status_code text
  | HttpTimeout => (false, 0)
  | HttpClientError => (false, 0)
  | HttpOtherError => (false, 0)
  end.

(** [range(n)]. *)
Definition range (n : Z) : list Z := map Z.of_nat (seq 0 (Z.to_nat n)).

(** The [for attempt in range(max_retries + 1)] loop; [log] collects the
    requests and pauses made so far. *)
Fixpoint retry_loop (w : World) (url : string) (max_retries : Z)
    (attempts : list Z) (log : list event) : (bool * Z) * list event :=
  match attempts with
  | [] => ((false, 0), log)
  | attempt :: rest =>
      let '(is_valid, status_code) := _make_url_request w url attempt in
      let log := log ++ [EvGet url attempt] in
      if is_valid || (max_retries <=? attempt) then ((is_valid, status_code), log)
      else retry_loop w url max_retries rest (log ++ [EvSleep 1])
  end.

Definition _validate_url_with_retry (w : World) (url : string) (max_retries : Z)
    : (bool * Z) * list event :=
  retry_loop w url max_retries (range (max_retries + 1)) [].

(** The [timeout] argument is only passed on to the HTTP client; a request
    that exceeds it is the [HttpTimeout] outcome of [http_get]. *)
Definition validate_url (w : World) (url : string) (max_retries : Z)
    : result ((bool * Z) * list event) :=
  let clean_url := rstrip ".,;:!?)" url in
  let* parsed := urlparse w clean_url in
  if String.eqb (scheme parsed) "" || String.eqb (netloc parsed) "" then
    Ok ((false, 0), [])
  else Ok (_validate_url_with_retry w clean_url max_retries).

(** [results[url] = value] on a [dict] kept in insertion order. *)
Fixpoint dict_set {V} (d : list (string * V)) (k : string) (v : V) : list (string * V) :=
  match d with
  | [] => [(k, v)]
  | (k', v') :: d' => if String.eqb k' k then (k', v) :: d' else (k', v') :: dict_set d' k v
  end.

(** [validate_urls]: the checks run concurrently and each stores its own
    entry; a check that raises leaves no entry
    ([gather(..., return_exceptions=True)]).  The entries are taken in
    the order of [urls]. *)
Definition validate_urls (w : World) (urls : list string) : list (string * (bool * Z)) :=
  fold_left
    (fun results url =>
       match validate_url w url 2 with
       | Ok (r, _) => dict_set results url r
       | Raise _ => results
       end)
    urls [].

(** *** Reading the model's reply *)

(** The pattern [\{.*\}] with [re.DOTALL]. *)
Definition json_object_re : Re.regex :=
  Re.Seq (Re.lit "{") (Re.Seq (Re.Star true Re.any_dotall) (Re.lit "}")).

Definition _parse_json_response (w : World) (content : string) : option (gmap string json) :=
  match Re.search json_object_re content with
  | Some (text, _) =>
      match json_loads w text with
      | Ok d => Some d
      | Raise _ => None
      end
  | None => None
  end.

(** [if analysis:] for an [Optional[dict]]. *)
Definition nonempty_dict (analysis : option (gmap string json)) : option (gmap string json) :=
  match analysis with
  | Some d => if bool_decide (d = ∅) then None else Some d
  | None => None
  end.

(** [for item in v]. *)
Definition iter (v : json) : result (list json) :=
  match v with
  | JArr l => Ok l
  | JStr s => Ok (map (fun a => JStr (String a EmptyString)) (chars s))
  | JObj m => Ok (map (fun kv => JStr kv.1) (map_to_list m))
  | _ => Raise TypeError
  end.

Definition _normalize_claim_items (w : World) (items : json) (key : string)
    : result (list string) :=
  let* l := iter items in
  Ok (map (fun item =>
             match item with
             | JStr s => s
             | JObj d =>
                 py_str w (dict_get d key (dict_get d "text" (JStr (py_str w item))))
             | _ => py_str w item
             end) l).

(** *** The audits *)

Definition _analyze_bias (w : World) (report query : string) : result BiasMetrics :=
  let* content := evaluator_model w (BiasPrompt query report) in
  match nonempty_dict (_parse_json_response w content) with
  | Some analysis =>
      let* one_sided := as_float (dict_get analysis "one_sided_score" (JFloat 0.5)) in
      let* missing := as_list (dict_get analysis "missing_counter_evidence" (JArr [])) in
      let* indicators := as_list (dict_get analysis "confirmation_bias_indicators" (JArr [])) in
      let* diversity := as_float (dict_get analysis "source_diversity_score" (JFloat 0.5)) in
      let* quantitative := as_float (dict_get analysis "quantitative_ratio" (JFloat 0.5)) in
      Ok {| one_sided_score := one_sided;
            missing_counter_evidence := missing;
            confirmation_bias_indicators := indicators;
            source_diversity_score := diversity;
            quantitative_ratio := quantitative |}
  | None => Ok BiasMetrics_default
  end.

Definition _format_sources_text (valid_sources : list string) : string :=
  match valid_sources with
  | [] => "No sources provided"
  | _ => join_lines (map (fun s => "- " +:+ s) valid_sources)
  end.

Definition len_Z {A} (l : list A) : Z := Z.of_nat (length l).

Definition _parse_source_analysis_response (w : World) (analysis : gmap string json)
    (sources valid_sources invalid_sources : list string) : result SourceQualityMetrics :=
  let* items := iter (dict_get analysis "missing_citations" (JArr [])) in
  let missing_citations :=
    map (fun item => match item with JStr s => s | _ => py_str w item end) items in
  let* total := py_int w (dict_get analysis "total_sources" (JInt (len_Z sources))) in
  let* primary := py_int w (dict_get analysis "primary_sources" (JInt 0)) in
  let* secondary := py_int w (dict_get analysis "secondary_sources" (JInt 0)) in
  let* academic := py_int w (dict_get analysis "academic_sources" (JInt 0)) in
  let* credibility := py_float w (dict_get analysis "source_credibility_score" (JFloat 0.5)) in
  Ok {| total_sources := total;
        valid_sources := len_Z valid_sources;
        primary_sources := primary;
        secondary_sources := secondary;
        academic_sources := academic;
        source_credibility_score := credibility;
        missing_citations := missing_citations;
        invalid_sources := invalid_sources |}.

Definition _analyze_sources (w : World) (report : string) (sources : list string)
    : result SourceQualityMetrics :=
  let url_validation := validate_urls w sources in
  let valid_sources :=
    map fst (filter (fun entry => entry.2.1 = true) url_validation) in
  let invalid_sources :=
    filter (fun url => negb (existsb (String.eqb url) valid_sources) = true) sources in
  let sources_text := _format_sources_text valid_sources in
  let* content := evaluator_model w (SourcePrompt report sources_text) in
  match nonempty_dict (_parse_json_response w content) with
  | Some analysis =>
      _parse_source_analysis_response w analysis sources valid_sources invalid_sources
  | None =>
      Ok {| total_sources := len_Z sources;
            valid_sources := Dataclasses.valid_sources SourceQualityMetrics_default;
            primary_sources := Dataclasses.primary_sources SourceQualityMetrics_default;
            secondary_sources := Dataclasses.secondary_sources SourceQualityMetrics_default;
            academic_sources := Dataclasses.academic_sources SourceQualityMetrics_default;
            source_credibility_score := 0.5;
            missing_citations := Dataclasses.missing_citations SourceQualityMetrics_default;
            invalid_sources := Dataclasses.invalid_sources SourceQualityMetrics_default |}
  end.

(** [_verify_claims] returns a [dict] with the two keys ["unsupported"]
    and ["missing_counter_evidence"]. *)
Definition _verify_claims (w : World) (report query : string)
    : result (gmap string (list string)) :=
  let* content := evaluator_model w (ClaimPrompt query report) in
  match nonempty_dict (_parse_json_response w content) with
  | Some parsed =>
      let* unsupported :=
        _normalize_claim_items w (dict_get parsed "unsupported" (JArr [])) "claim" in
      let* gaps :=
        _normalize_claim_items w (dict_get parsed "missing_counter_evidence" (JArr [])) "gap" in
      Ok (<["unsupported" := unsupported]> (<["missing_counter_evidence" := gaps]> ∅))
  | None =>
      Ok (<["unsupported" := []]> (<["missing_counter_evidence" := []]> ∅))
  end.

(** One line of the source list in the consistency prompt. *)
Definition source_map_line (entry : Z * string) : string :=
  let '(citation_num, content) := entry in
  if (2000 <? String.length content)%nat
  then "[" +:+ pretty citation_num +:+ "]: " +:+ prefix 2000 content +:+ "..."
  else "[" +:+ pretty citation_num +:+ "]: " +:+ content.

(** [sorted(source_content_map.items())]: the keys are distinct, so the
    order is that of the citation numbers. *)
Definition key_le (a b : Z * string) : Prop := a.1 <= b.1.

#[local] Instance key_le_dec : RelDecision key_le :=
  fun a b => decide (a.1 <= b.1).

Definition sorted_items (m : gmap Z string) : list (Z * string) :=
  merge_sort key_le (map_to_list m).

Definition _verify_claim_source_consistency (w : World) (report : string)
    (source_content_map : gmap Z string) : result ClaimSourceConsistency :=
  if bool_decide (source_content_map = ∅) then Ok ClaimSourceConsistency_default
  else
    let source_map_text := join_lines (map source_map_line (sorted_items source_content_map)) in
    let* content := evaluator_model w (ConsistencyPrompt report source_map_text) in
    match nonempty_dict (_parse_json_response w content) with
    | Some analysis =>
        let* n_numerical := len (dict_get analysis "numerical_inconsistencies" (JArr [])) in
        let* n_contextual := len (dict_get analysis "contextual_mismatches" (JArr [])) in
        let total_issues := inject_Z (Z.of_nat (n_numerical + n_contextual)) in
        let* verified_count := as_float (dict_get analysis "verified_claims_count" (JInt 0)) in
        let total_claims := (verified_count + total_issues)%Q in
        let consistency_score :=
          if Qlt_le_dec 0 total_claims then (verified_count / total_claims)%Q else 1.0%Q in
        let* numerical := as_list (dict_get analysis "numerical_inconsistencies" (JArr [])) in
        let* contextual := as_list (dict_get analysis "contextual_mismatches" (JArr [])) in
        let* unverifiable := as_list (dict_get analysis "unverifiable_claims" (JArr [])) in
        Ok {| numerical_inconsistencies := numerical;
              contextual_mismatches := contextual;
              unverifiable_claims := unverifiable;
              verified_claims_count := verified_count;
              consistency_score := consistency_score |}
    | None => Ok ClaimSourceConsistency_default
    end.

(** The prompt that [_analyze_sources] sends for a report and its sources. *)
Definition source_audit_prompt (w : World) (report : string) (sources : list string) : prompt :=
let url_validation := validate_urls w sources in
let valid_sources :=
  map fst (filter (fun entry => entry.2.1 = true) url_validation) in
SourcePrompt report (_format_sources_text valid_sources).



(** *** Scoring *)

(** [claims.get("unsupported", [])]. *)
Definition claims_get (claims : gmap string (list string)) (key : string) : list string :=
  match claims !! key with
  | Some l => l
  | None => []
  end.

Definition _calculate_objectivity_score (bias : BiasMetrics) (sources : SourceQualityMetrics)
    (claims : gmap string (list string)) (claim_consistency : ClaimSourceConsistency) : Q :=
  let bias_component := ((1.0 - one_sided_score bias) * 0.35)%Q in
  let source_component := (source_credibility_score sources * 0.25)%Q in
  let diversity_component := (source_diversity_score bias * 0.15)%Q in
  let quantitative_component := (quantitative_ratio bias * 0.1)%Q in
  let consistency_component := (consistency_score claim_consistency * 0.15)%Q in
  let unsupported_penalty :=
    min (inject_Z (len_Z (claims_get claims "unsupported")) * 0.05)%Q 0.15%Q in
  let consistency_penalty :=
    min (inject_Z (len_Z (numerical_inconsistencies claim_consistency)
                   + len_Z (contextual_mismatches claim_consistency)) * 0.03)%Q
        0.15%Q in
  let score :=
    ((bias_component + source_component + diversity_component
      + quantitative_component + consistency_component)
     * (1.0 - unsupported_penalty - consistency_penalty))%Q in
  max 0.0%Q (min 1.0%Q score).

(** The score as the specification words it: the weighted sum times the
    penalty factor, clamped to the unit interval. *)
Definition clamp01 (x : Q) : Q := Qmax 0 (Qmin 1 x).

Definition objectivity_score_spec (one_sided credibility diversity quantitative consistency : Q)
    (unsupported_claim_count numerical_inconsistency_count contextual_mismatch_count : nat) : Q :=
  clamp01
    ((0.35 * (1 - one_sided) + 0.25 * credibility + 0.15 * diversity
      + 0.10 * quantitative + 0.15 * consistency)
     * (1 - Qmin (0.05 * inject_Z (Z.of_nat unsupported_claim_count)) 0.15
          - Qmin (0.03 * inject_Z (Z.of_nat (numerical_inconsistency_count
                                              + contextual_mismatch_count))) 0.15))%Q.

(** The body of a response shows an error page: it could be read and its
    first 4096 characters match the heuristic. *)
Definition error_page (text : result string) : bool :=
match text with
| Ok t => _check_error_page (prefix 4096 t)
| Raise _ => false
end.

(** The classification of a response as the specification words it:
    2xx is valid unless the body is an error page, 3xx is valid, 401, 403
    and 429 are valid, every other status is invalid. *)
Definition response_valid_spec (status : Z) (text : result string) : bool :=
if (200 <=? status) && (status <? 300) then negb (error_page text)
else if (300 <=? status) && (status <? 400) then true
else if (status =? 401) || (status =? 403) || (status =? 429) then true
else false.

(** The requests among the events of a validation. *)
Definition requests (log : list event) : list event :=
List.filter (fun e => match e with EvGet _ _ => true | EvSleep _ => false end) log.


End Evaluator.

(** ** [src/report_productor.py] and the source list of a report *)

Module Report.
Import Py.

(** [###\s*Sources?\s*\n] with [re.IGNORECASE]. *)
Definition sources_header_re : Re.regex :=
Re.Seq (Re.lit "###")
  (Re.Seq (Re.Star true Re.space)
     (Re.Seq (Re.lit_nocase "source")
        (Re.Seq (Re.opt (Re.lit_nocase "s"))
           (Re.Seq (Re.Star true Re.space) (Re.lit nl))))).

(** [(?=\n###|\Z)]. *)
Definition section_end_re : Re.regex :=
Re.Lookahead (Re.Alt (Re.lit (nl +:+ "###")) Re.EndZ).

(** [(###\s*Sources?\s*\n)(.*?)(?=\n###|\Z)] with [re.IGNORECASE | re.DOTALL]. *)
Definition sources_section_re : Re.regex :=
Re.Seq (Re.Group 1 sources_header_re)
  (Re.Seq (Re.Group 2 (Re.Star false Re.any_dotall)) section_end_re).

(** The same pattern without its groups, as [re.sub] is given it. *)
Definition sources_section_nogroup_re : Re.regex :=
Re.Seq sources_header_re (Re.Seq (Re.Star false Re.any_dotall) section_end_re).

(** [not any(invalid_url in line for invalid_url in invalid_urls)]. *)
Definition keeps (invalid_urls : gset string) (line : string) : bool :=
negb (existsb (fun invalid_url => contains invalid_url line) (elements invalid_urls)).

(** The loop that fills [filtered_lines]. *)
Definition filter_lines (invalid_urls : gset string) (lines : list string) : list string :=
List.filter (keeps invalid_urls) lines.

Definition _remove_invalid_urls_from_sources (report : string) (invalid_urls : gset string)
  : string :=
match Re.search sources_section_re report with
| None => report
| Some (_, groups) =>
    let sources_header := str (Re.group 1 groups) in
    let sources_text := str (Re.group 2 groups) in
    let lines := split_lines sources_text in
    let filtered_lines := filter_lines invalid_urls lines in
    let filtered_sources := join_lines filtered_lines in
    let new_sources_section := sources_header +:+ filtered_sources in
    Re.sub sources_section_nogroup_re new_sources_section report
end.

(** [https?://[^\s\)]+]. *)
Definition url_re : Re.regex :=
Re.Seq (Re.lit "http")
  (Re.Seq (Re.opt (Re.lit "s"))
     (Re.Seq (Re.lit "://")
        (Re.plus (Re.Chr (fun a => negb (is_space a || Ascii.eqb a ")"%char)))))).

(** [\[(\d+)\].*?(https?://[^\s\)]+)]. *)
Definition citation_re : Re.regex :=
Re.Seq (Re.lit "[")
  (Re.Seq (Re.Group 1 (Re.plus Re.digit))
     (Re.Seq (Re.lit "]")
        (Re.Seq (Re.Star false Re.any) (Re.Group 2 url_re)))).

(** One line of the Sources section: its citation number and URL. *)
Definition citation_of_line (line : string) : option (Z * string) :=
match Re.search citation_re line with
| Some (_, groups) =>
    Some (int_of_digits (Re.group 1 groups), rstrip ".,;:!?)" (str (Re.group 2 groups)))
| None => None
end.

(** The citations of a Sources section text, line by line. *)
Definition citations_of_text (sources_text : string) : list (Z * string) :=
omap citation_of_line (split_lines sources_text).

(** The text of the Sources section of a report, when it has one. *)
Definition sources_text_of (report : string) : option string :=
match Re.search sources_section_re report with
| Some (_, groups) => Some (str (Re.group 2 groups))
| None => None
end.

(** The duplicate-free list of cleaned URLs, first occurrences kept. *)
Fixpoint unique_clean (seen : gset string) (urls : list string) : list string :=
match urls with
| [] => []
| url :: rest =>
    let clean_url := rstrip ".,;:!?)" url in
    if bool_decide (clean_url ∈ seen) then unique_clean seen rest
    else clean_url :: unique_clean ({[clean_url]} ∪ seen) rest
end.

(** [extract_sources_from_report] of [src/red_team_evaluator.py]. *)
Definition extract_sources_from_report (report : string) : list string * gmap Z string :=
let source_map :=
  match sources_text_of report with
  | Some sources_text =>
      fold_left (fun m entry => <[entry.1 := entry.2]> m) (citations_of_text sources_text) ∅
  | None => ∅
  end in
let inline_urls := Re.findall url_re report in
(unique_clean ∅ inline_urls, source_map).

(** The citation numbers that label the lines of the Sources section, in
    the order of the lines. *)
Definition citation_numbers (report : string) : list Z :=
match sources_text_of report with
| Some sources_text => map fst (citations_of_text sources_text)
| None => []
end.

(** The numbers 1, 2, ..., n. *)
Definition gapless_from_one (numbers : list Z) : Prop :=
numbers = map Z.of_nat (seq 1 (length numbers)).

End Report.

(** ** What the pattern of the Sources section selects

    The heading and the end of a section, written as functions on the
    text.  The properties below show that the search with the pattern
    computes them. *)

Module Selects.
Import Py.

(** [p] at the head of [s], letters compared without their case. *)
Fixpoint starts_with_nocase (p s : list ascii) : bool :=
match p, s with
| [], _ => true
| a :: p', b :: s' => Ascii.eqb (lower_char b) (lower_char a) && starts_with_nocase p' s'
| _ :: _, [] => false
end.

(** An optional letter s at the head of the text is passed over. *)
Definition skip_s (s : list ascii) : list ascii :=
match s with
| a :: s' => if Ascii.eqb (lower_char a) (lower_char "s") then s' else s
| [] => []
end.

(** The text after the last line feed of the white space that [s] starts
    with, when that white space has one. *)
Fixpoint last_newline (s : list ascii) : option (list ascii) :=
match s with
| [] => None
| a :: s' =>
    if is_space a then
      match last_newline s' with
      | Some r => Some r
      | None => if Ascii.eqb newline a then Some s' else None
      end
    else None
end.

(** The text that follows the heading of a Sources section at the head of
    [s]: the three hashes, white space, the word with its optional s, and
    white space up to its last line feed. *)
Definition header_end (s : list ascii) : option (list ascii) :=
if starts_with (chars "###") s then
  let s1 := drop_while is_space (drop 3 s) in
  if starts_with_nocase (chars "source") s1 then last_newline (skip_s (drop 6 s1))
  else None
else None.

(** Where a section ends: before a line that starts with three hashes, or
    at the end of the text. *)
Definition stop (s : list ascii) : bool :=
starts_with (newline :: chars "###") s || match s with [] => true | _ => false end.

(** The text from the end of the section on. *)
Fixpoint lazy_rest (s : list ascii) : list ascii :=
if stop s then s
else match s with
     | _ :: s' => lazy_rest s'
     | [] => []
     end.

End Selects.


(** ** Messages, tool calls and graph execution *)

Module Graph.
Import Py.

(** A tool call of a model reply.  The arguments are the decoded JSON
    object of the call, with string values. *)
Record tool_call := {
  name : string;
  args : gmap string string;
  id : string
}.

Inductive message :=
| HumanMessage (content : string)
| SystemMessage (content : string)
| AIMessage (content : string) (tool_calls : list tool_call)
| ToolMessage (content : string) (tool_name : string) (tool_call_id : string).

(** [message.tool_calls]: only a model reply has the attribute. *)
Definition tool_calls_of (m : message) : result (list tool_call) :=
match m with
| AIMessage _ tcs => Ok tcs
| _ => Raise (AttributeError "tool_calls")
end.

(** [messages[-1]]. *)
Definition last_message (messages : list message) : result message :=
match last messages with
| Some m => Ok m
| None => Raise IndexError
end.

Definition content_of (m : message) : string :=
match m with
| HumanMessage c | SystemMessage c | AIMessage c _ | ToolMessage c _ _ => c
end.

Definition is_tool_message (m : message) : bool :=
match m with ToolMessage _ _ _ => true | _ => false end.

Definition is_ai_message (m : message) : bool :=
match m with AIMessage _ _ => true | _ => false end.

(** How a run of a compiled graph can stop. *)
Inductive outcome (node state : Type) :=
| Finished (final : state)
| Crashed (e : exn) (at_node : node) (st : state)
| OutOfFuel (at_node : node) (st : state).
Arguments Finished {node state} final.
Arguments Crashed {node state} e at_node st.
Arguments OutOfFuel {node state} at_node st.

Section Run.
Context {node state : Type}.
(** One node: it either raises or names the next node and the new state. *)
Variable step : node -> state -> result (node * state).
Variable is_end : node -> bool.

(** The nodes run one after the other until the end node is reached; the
    second component lists the nodes that ran to completion. *)
Fixpoint run (fuel : nat) (n : node) (st : state) (trace : list node)
  : outcome node state * list node :=
if is_end n then (Finished st, trace)
else
  match fuel with
  | O => (OutOfFuel n st, trace)
  | S fuel' =>
      match step n st with
      | Raise e => (Crashed e n st, trace)
      | Ok (n', st') => run fuel' n' st' (trace ++ [n])
      end
  end.

End Run.

Definition final_state {node state} (o : outcome node state) : state :=
match o with
| Finished st => st
| Crashed _ _ st => st
| OutOfFuel _ st => st
end.

Definition out_of_fuel {node state} (o : outcome node state) : bool :=
match o with OutOfFuel _ _ => true | _ => false end.

End Graph.

(** ** [src/multi_agent_supervisor.py] *)

Module Supervisor.
Import Py Graph.

(** Modelled from the spec: [SupervisorState] is declared in
    [state_multi_agent_supervisor.py], which is not among the sources.
    Following the data model of the specification, the message history and
    the note lists are append-only (an update is appended), and the
    iteration count, the brief and the draft are replaced by an update.
    A key that was never written is absent, which is what the
    [state.get(key, default)] reads of the code distinguish. *)
Record SupervisorState := {
  supervisor_messages : list message;
  research_iterations : option Z;
  research_brief : option string;
  draft_report : option string;
  notes : list string;
  raw_notes : list string
}.

(** The [update] dictionary of a [Command]: the keys it writes. *)
Record Update := {
  upd_supervisor_messages : list message;
  upd_research_iterations : option Z;
  upd_research_brief : option string;
  upd_draft_report : option string;
  upd_notes : list string;
  upd_raw_notes : list string
}.

Definition no_update : Update := {|
  upd_supervisor_messages := [];
  upd_research_iterations := None;
  upd_research_brief := None;
  upd_draft_report := None;
  upd_notes := [];
  upd_raw_notes := []
|}.

Definition replace {A} (old new : option A) : option A :=
match new with
| Some v => Some v
| None => old
end.

Definition apply_update (st : SupervisorState) (u : Update) : SupervisorState := {|
  supervisor_messages := supervisor_messages st ++ upd_supervisor_messages u;
  research_iterations := replace (research_iterations st) (upd_research_iterations u);
  research_brief := replace (research_brief st) (upd_research_brief u);
  draft_report := replace (draft_report st) (upd_draft_report u);
  notes := notes st ++ upd_notes u;
  raw_notes := raw_notes st ++ upd_raw_notes u
|}.

Inductive node := N_supervisor | N_supervisor_tools | N_END.

Record Command := { goto : node; update : Update }.

(** What one sub-researcher run returns. *)
Record ResearcherOutput := {
  compressed_research : option string;
  out_raw_notes : option (list string)
}.

Record World := {
  (** The formatted system prompt. *)
  system_message : string;
  (** [supervisor_model.bind_tools(...)] followed by [ainvoke]: the reply
      (content and tool calls), or the exception of either step. *)
  supervisor_model_with_tools : list message -> result (string * list tool_call);
  (** [supervisor_model.ainvoke] without tools. *)
  supervisor_model : list message -> result (string * list tool_call);
  (** [think_tool.invoke(args)]. *)
  think_tool : gmap string string -> result string;
  (** [researcher_agent.ainvoke] on a topic. *)
  researcher_agent : string -> result ResearcherOutput;
  (** [refine_draft_report.invoke] on brief, findings and draft. *)
  refine_draft_report : string -> string -> string -> result string
}.

Definition get_notes_from_tool_calls (messages : list message) : list string :=
map content_of (List.filter is_tool_message messages).

Definition max_researcher_iterations : Z := 15.
Definition max_concurrent_researchers : Z := 3.

(** [state.get(key, default)]. *)
Definition get {A} (field : option A) (default : A) : A :=
match field with
| Some v => v
| None => default
end.

Definition supervisor (w : World) (state : SupervisorState) : result Command :=
let supervisor_messages := supervisor_messages state in
let messages := SystemMessage (system_message w) :: supervisor_messages in
let* response :=
  try_except (supervisor_model_with_tools w messages)
             (fun _ => supervisor_model w messages) in
Ok {| goto := N_supervisor_tools;
      update := {| upd_supervisor_messages := [AIMessage response.1 response.2];
                   upd_research_iterations := Some (get (research_iterations state) 0 + 1);
                   upd_research_brief := None;
                   upd_draft_report := None;
                   upd_notes := [];
                   upd_raw_notes := [] |} |}.

Definition _check_exit_criteria (research_iterations : Z) (most_recent_message : message)
  : result bool :=
let exceeded_iterations := max_researcher_iterations <=? research_iterations in
let* tool_calls := tool_calls_of most_recent_message in
let no_tool_calls := match tool_calls with [] => true | _ => false end in
let research_complete :=
  existsb (fun tool_call => String.eqb (name tool_call) "ResearchComplete") tool_calls in
Ok (exceeded_iterations || no_tool_calls || research_complete).

Definition named (n : string) (tool_calls : list tool_call) : list tool_call :=
List.filter (fun tc => String.eqb (name tc) n) tool_calls.

Definition _categorize_tool_calls (tool_calls : list tool_call)
  : list tool_call * list tool_call * list tool_call :=
(named "think_tool" tool_calls, named "ConductResearch" tool_calls,
 named "refine_draft_report" tool_calls).

Definition _execute_think_tools (w : World) (think_tool_calls : list tool_call)
  : result (list message) :=
mapM (fun tool_call =>
        let* observation := think_tool w (args tool_call) in
        Ok (ToolMessage observation (name tool_call) (id tool_call)))
     think_tool_calls.

(** [d[key]]. *)
Definition getitem (d : gmap string string) (key : string) : result string :=
match d !! key with
| Some v => Ok v
| None => Raise (KeyError key)
end.

(** The delegations are built first (reading each topic), then awaited
    together; [asyncio.gather] hands the results back in the order of the
    calls and re-raises when a delegation raised. *)
Definition _execute_research_calls (w : World) (conduct_research_calls : list tool_call)
  : result (list message * list string) :=
match conduct_research_calls with
| [] => Ok ([], [])
| _ =>
    let* topics :=
      mapM (fun tool_call => getitem (args tool_call) "research_topic")
           conduct_research_calls in
    let* tool_results := mapM (researcher_agent w) topics in
    let research_tool_messages :=
      map (fun rt : ResearcherOutput * tool_call =>
             ToolMessage (get (compressed_research rt.1) "Error synthesizing research report")
                         (name rt.2) (id rt.2))
          (zip tool_results conduct_research_calls) in
    let all_raw_notes :=
      map (fun r => join_lines (get (out_raw_notes r) [])) tool_results in
    Ok (research_tool_messages, all_raw_notes)
end.

Definition _execute_refine_report (w : World) (refine_report_calls : list tool_call)
    (supervisor_messages : list message) (state : SupervisorState)
  : result (list message * string) :=
match refine_report_calls with
| [] => Ok ([], "")
| _ =>
    let notes := get_notes_from_tool_calls supervisor_messages in
    let findings := join_lines notes in
    let* draft_report :=
      refine_draft_report w (get (research_brief state) "") findings
                          (get (draft_report state) "") in
    let tool_messages :=
      map (fun tool_call => ToolMessage draft_report (name tool_call) (id tool_call))
          refine_report_calls in
    Ok (tool_messages, draft_report)
end.

(** The command of both exits of [supervisor_tools]. *)
Definition exit_command (supervisor_messages : list message) (state : SupervisorState)
  : Command :=
{| goto := N_END;
   update := {| upd_supervisor_messages := [];
                upd_research_iterations := None;
                upd_research_brief := Some (get (research_brief state) "");
                upd_draft_report := None;
                upd_notes := get_notes_from_tool_calls supervisor_messages;
                upd_raw_notes := [] |} |}.

(** The body of the [try] block of [supervisor_tools]. *)
Definition dispatch (w : World) (state : SupervisorState)
    (supervisor_messages : list message) (most_recent_message : message)
  : result Command :=
let* tool_calls := tool_calls_of most_recent_message in
let '(think_calls, research_calls, refine_calls) := _categorize_tool_calls tool_calls in
let* tool_messages := _execute_think_tools w think_calls in
let* research := _execute_research_calls w research_calls in
let '(research_msgs, all_raw_notes) := research in
let tool_messages := tool_messages ++ research_msgs in
let* refined := _execute_refine_report w refine_calls supervisor_messages state in
let '(refine_msgs, draft_report) := refined in
let tool_messages := tool_messages ++ refine_msgs in
Ok {| goto := N_supervisor;
      update := {| upd_supervisor_messages := tool_messages;
                   upd_research_iterations := None;
                   upd_research_brief := None;
                   upd_draft_report :=
                     match refine_calls with [] => None | _ => Some draft_report end;
                   upd_notes := [];
                   upd_raw_notes := all_raw_notes |} |}.

Definition supervisor_tools (w : World) (state : SupervisorState) : result Command :=
let supervisor_messages := supervisor_messages state in
let research_iterations := get (research_iterations state) 0 in
let* most_recent_message := last_message supervisor_messages in
let* exit := _check_exit_criteria research_iterations most_recent_message in
if exit then Ok (exit_command supervisor_messages state)
else
  try_except (dispatch w state supervisor_messages most_recent_message)
             (fun _ => Ok (exit_command supervisor_messages state)).

(** The compiled graph: [START -> supervisor], and each node names its
    successor in its command. *)
Definition step (w : World) (n : node) (st : SupervisorState) : result (node * SupervisorState) :=
match n with
| N_supervisor =>
    let* c := supervisor w st in Ok (goto c, apply_update st (update c))
| N_supervisor_tools =>
    let* c := supervisor_tools w st in Ok (goto c, apply_update st (update c))
| N_END => Ok (N_END, st)
end.

Definition is_end (n : node) : bool :=
match n with N_END => true | _ => false end.

Definition supervisor_agent (w : World) (fuel : nat) (input : SupervisorState)
  : outcome node SupervisorState * list node :=
run (step w) is_end fuel N_supervisor input [].

(** The exit criteria, as a proposition on the iteration count and the
    tool calls of the latest decision. *)
Definition exit_condition (research_iterations : Z) (tool_calls : list tool_call) : Prop :=
max_researcher_iterations <= research_iterations
\/ tool_calls = []
\/ Exists (fun tool_call => name tool_call = "ResearchComplete") tool_calls.

(** The same state with another iteration count. *)
Definition with_iterations (st : SupervisorState) (n : Z) : SupervisorState := {|
  supervisor_messages := supervisor_messages st;
  research_iterations := Some n;
  research_brief := research_brief st;
  draft_report := draft_report st;
  notes := notes st;
  raw_notes := raw_notes st
|}.

(** The iteration count that the nodes read. *)
Definition iterations (st : SupervisorState) : Z := get (research_iterations st) 0.

(** The number of decisions of a run: how often [supervisor] completed. *)
Definition decisions (trace : list node) : nat :=
length (List.filter (fun n => match n with N_supervisor => true | _ => false end) trace).

(** The invariant of a run: the iteration count is the number of decisions
  made, which is below the maximum when another decision is due. *)
Definition run_invariant (n : node) (st : SupervisorState) (trace : list node) : Prop :=
iterations st = Z.of_nat (decisions trace)
/\ match n with
   | N_supervisor => (decisions trace < 15)%nat
   | _ => (decisions trace <= 15)%nat
   end.

(** The nodes still to run, at most. *)
Definition remaining (n : node) (k : nat) : nat :=
match n with
| N_supervisor => 2 * (15 - k)
| N_supervisor_tools => 2 * (15 - k) + 1
| N_END => 0
end.

End Supervisor.

(** ** [src/research_agent.py] *)

Module Researcher.
Import Py Graph.

(** Modelled from the spec: [ResearcherState] is declared in
    [state_research.py], which is not among the sources.  Following the
    data model of the specification it holds the message history of one
    topic (an update is appended), the topic and the search-call counter
    (replaced by an update); the two outputs of the compression step are
    kept with it. *)
Record ResearcherState := {
  researcher_messages : list message;
  tavily_search_count : option Z;
  research_topic : option string;
  compressed_research : option string;
  raw_notes : list string
}.

Record Update := {
  upd_researcher_messages : list message;
  upd_tavily_search_count : option Z;
  upd_compressed_research : option string;
  upd_raw_notes : list string
}.

Definition replace {A} (old new : option A) : option A :=
match new with
| Some v => Some v
| None => old
end.

Definition apply_update (st : ResearcherState) (u : Update) : ResearcherState := {|
  researcher_messages := researcher_messages st ++ upd_researcher_messages u;
  tavily_search_count := replace (tavily_search_count st) (upd_tavily_search_count u);
  research_topic := research_topic st;
  compressed_research := replace (compressed_research st) (upd_compressed_research u);
  raw_notes := raw_notes st ++ upd_raw_notes u
|}.

Record World := {
  (** [int(os.getenv("MAX_TAVILY_SEARCHES", "5"))]. *)
  MAX_TAVILY_SEARCHES : Z;
  (** The formatted prompts. *)
  formatted_prompt : string;
  compress_system_message : string;
  compress_human_message : string;
  (** [model_with_tools.invoke]: content and tool calls of the reply. *)
  model_with_tools : list message -> result (string * list tool_call);
  (** [compress_model.invoke]: content of the reply. *)
  compress_model : list message -> result string;
  (** [tavily_search.invoke(args)] and [think_tool.invoke(args)]. *)
  tavily_search : gmap string string -> result string;
  think_tool : gmap string string -> result string
}.

(** [state.get(key, default)]. *)
Definition get {A} (field : option A) (default : A) : A :=
match field with
| Some v => v
| None => default
end.

Definition llm_call (w : World) (state : ResearcherState) : result Update :=
let* response :=
  model_with_tools w (SystemMessage (formatted_prompt w) :: researcher_messages state) in
Ok {| upd_researcher_messages := [AIMessage response.1 response.2];
      upd_tavily_search_count := None;
      upd_compressed_research := None;
      upd_raw_notes := [] |}.

(** [tools_by_name[tool_name]]. *)
Definition tools_by_name (w : World) (tool_name : string)
  : result (gmap string string -> result string) :=
if String.eqb tool_name "tavily_search" then Ok (tavily_search w)
else if String.eqb tool_name "think_tool" then Ok (think_tool w)
else Raise (KeyError tool_name).

(** The variables of the loop of [tool_node].  [invoked] is not a variable
    of the code: it records, in order, the calls handed to [tool.invoke],
    so that statements can say which tools ran. *)
Record loop_state := {
  observations : list string;
  skipped_searches : Z;
  count : Z;
  invoked : list tool_call
}.

Definition limit_message (w : World) (tavily_search_count : Z) : string :=
"⚠️ Tavily search limit (" +:+ pretty (MAX_TAVILY_SEARCHES w) +:+ ") reached. "
+:+ "This search has been skipped. Please proceed with the information "
+:+ "gathered from previous searches (" +:+ pretty tavily_search_count
+:+ " searches completed).".

(** The tail of the loop body: [tool = tools_by_name[tool_name]] and
    [observations.append(tool.invoke(tool_call["args"]))]. *)
Definition execute_tool (w : World) (ls : loop_state) (tool_call : tool_call)
  : result loop_state :=
let* tool := tools_by_name w (name tool_call) in
let* observation := tool (args tool_call) in
Ok {| observations := observations ls ++ [observation];
      skipped_searches := skipped_searches ls;
      count := count ls;
      invoked := invoked ls ++ [tool_call] |}.

(** One iteration of [for tool_call in tool_calls]. *)
Definition loop_body (w : World) (ls : loop_state) (tool_call : tool_call)
  : result loop_state :=
let tool_name := name tool_call in
if String.eqb tool_name "tavily_search" then
  if MAX_TAVILY_SEARCHES w <=? count ls then
    Ok {| observations := observations ls ++ [limit_message w (count ls)];
          skipped_searches := skipped_searches ls + 1;
          count := count ls;
          invoked := invoked ls |}
  else
    execute_tool w {| observations := observations ls;
                      skipped_searches := skipped_searches ls;
                      count := count ls + 1;
                      invoked := invoked ls |} tool_call
else execute_tool w ls tool_call.

Fixpoint loop (w : World) (ls : loop_state) (tool_calls : list tool_call)
  : result loop_state :=
match tool_calls with
| [] => Ok ls
| tool_call :: rest =>
    let* ls' := loop_body w ls tool_call in
    loop w ls' rest
end.

(** [tool_node] up to the end of its loop. *)
Definition tool_node_loop (w : World) (state : ResearcherState)
  : result (list tool_call * loop_state) :=
let* last_message := last_message (researcher_messages state) in
let* tool_calls := tool_calls_of last_message in
let tavily_search_count := get (tavily_search_count state) 0 in
let* ls := loop w {| observations := []; skipped_searches := 0;
                     count := tavily_search_count; invoked := [] |} tool_calls in
Ok (tool_calls, ls).

Definition tool_node (w : World) (state : ResearcherState) : result Update :=
let* r := tool_node_loop w state in
let '(tool_calls, ls) := r in
let tool_outputs :=
  map (fun oc : string * tool_call => ToolMessage oc.1 (name oc.2) (id oc.2))
      (zip (observations ls) tool_calls) in
Ok {| upd_researcher_messages := tool_outputs;
      upd_tavily_search_count := Some (count ls);
      upd_compressed_research := None;
      upd_raw_notes := [] |}.

Definition compress_research (w : World) (state : ResearcherState) : result Update :=
let messages :=
  SystemMessage (compress_system_message w) :: researcher_messages state
  ++ [HumanMessage (compress_human_message w)] in
let* response := compress_model w messages in
let raw_notes :=
  map content_of
      (List.filter (fun m => is_tool_message m || is_ai_message m) (researcher_messages state)) in
Ok {| upd_researcher_messages := [];
      upd_tavily_search_count := None;
      upd_compressed_research := Some response;
      upd_raw_notes := [join_lines raw_notes] |}.

Inductive node := N_llm_call | N_tool_node | N_compress_research | N_END.

Definition should_continue (state : ResearcherState) : result node :=
let* last_message := last_message (researcher_messages state) in
let* tool_calls := tool_calls_of last_message in
match tool_calls with
| [] => Ok N_compress_research
| _ => Ok N_tool_node
end.

(** The compiled graph: [START -> llm_call], the conditional edge after
    [llm_call], [tool_node -> llm_call] and [compress_research -> END]. *)
Definition step (w : World) (n : node) (st : ResearcherState) : result (node * ResearcherState) :=
match n with
| N_llm_call =>
    let* u := llm_call w st in
    let st' := apply_update st u in
    let* next := should_continue st' in
    Ok (next, st')
| N_tool_node =>
    let* u := tool_node w st in Ok (N_llm_call, apply_update st u)
| N_compress_research =>
    let* u := compress_research w st in Ok (N_END, apply_update st u)
| N_END => Ok (N_END, st)
end.

Definition is_end (n : node) : bool :=
match n with N_END => true | _ => false end.

Definition researcher_agent (w : World) (fuel : nat) (input : ResearcherState)
  : outcome node ResearcherState * list node :=
run (step w) is_end fuel N_llm_call input [].

(** A search call. *)
Definition is_search (tool_call : tool_call) : bool := String.eqb (name tool_call) "tavily_search".

(** The number of search calls among the calls handed to a tool. *)
Definition searches (calls : list tool_call) : Z :=
Z.of_nat (length (List.filter is_search calls)).


End Researcher.

(** ** A model of [urllib.parse.urlparse]

    The scheme and network location that CPython 3.12 computes for an
    ASCII URL: leading control characters and spaces are stripped, tabs
    and line breaks removed, the scheme is the text before the first colon
    when it starts with a letter and consists of scheme characters, and the
    network location is what follows a leading double slash up to the next
    slash, question mark or hash.  An unbalanced bracket in the network
    location raises [ValueError]; a bracketed host is not checked further. *)

Module Urllib.
Import Py Evaluator.

Definition is_scheme_char (a : ascii) : bool :=
is_alpha a || is_digit a || existsb (Ascii.eqb a) (chars "+-.").

Definition lstrip_c0 (url : list ascii) : list ascii :=
drop_while (fun a => (code a <=? 32)%nat) url.

Definition remove_unsafe (url : list ascii) : list ascii :=
List.filter (fun a => negb ((code a =? 9) || (code a =? 10) || (code a =? 13))%nat) url.

(** [url.find(c)]. *)
Fixpoint find_char (c : ascii) (url : list ascii) : option nat :=
match url with
| [] => None
| a :: url' => if Ascii.eqb a c then Some O else option_map S (find_char c url')
end.

Definition split_scheme (url : list ascii) : string * list ascii :=
match find_char ":"%char url, url with
| Some (S i), first :: _ =>
    if is_alpha first && forallb is_scheme_char (take (S i) url)
    then (lower (str (take (S i) url)), drop (S (S i)) url)
    else (""%string, url)
| _, _ => (""%string, url)
end.

Fixpoint take_until (stop : ascii -> bool) (url : list ascii) : list ascii :=
match url with
| [] => []
| a :: url' => if stop a then [] else a :: take_until stop url'
end.

Definition split_netloc (url : list ascii) : list ascii :=
match url with
| "/"%char :: "/"%char :: rest => take_until (fun a => existsb (Ascii.eqb a) (chars "/?#")) rest
| _ => []
end.

Definition urlparse (url : string) : result ParseResult :=
let url := remove_unsafe (lstrip_c0 (chars url)) in
let '(scheme, rest) := split_scheme url in
let netloc := split_netloc rest in
if xorb (existsb (Ascii.eqb "["%char) netloc) (existsb (Ascii.eqb "]"%char) netloc)
then Raise ValueError
else Ok {| scheme := scheme; netloc := str netloc |}.

End Urllib.

(** ** Concrete worlds and inputs used in examples *)

Module Samples.
Import Py Dataclasses.

(** A web in which a page whose URL mentions "dead" answers 404, one whose
    URL mentions "upgrade" answers 101 Switching Protocols, and every
    other page answers 200 with a plain body. *)
Definition web (url : string) (attempt : Z) : Evaluator.http_outcome :=
if contains "dead" url then Evaluator.HttpResponse 404 (Ok "<h1>404</h1>")
else if contains "upgrade" url then Evaluator.HttpResponse 101 (Ok "")
else Evaluator.HttpResponse 200 (Ok "<html>fine</html>").

(** An evaluator whose model never produces a JSON object. *)
Definition mute_world : Evaluator.World := {|
  Evaluator.http_get := web;
  Evaluator.urlparse := Urllib.urlparse;
  Evaluator.evaluator_model := fun _ => Ok "I am unable to produce the analysis.";
  Evaluator.json_loads := fun _ => Raise ValueError;
  Evaluator.py_str := fun _ => "?";
  Evaluator.py_int := fun v => match v with JInt z => Ok z | _ => Raise TypeError end;
  Evaluator.py_float := as_float
|}.

(** The object that the model of [audit_world] reports: three verified
    claims, one numerical inconsistency, no contextual mismatch. *)
Definition audit_reply : gmap string json :=
<["verified_claims_count" := JInt 3]>
  (<["numerical_inconsistencies" := JArr [JObj ∅]]> ∅).

(** Tool calls of a supervisor. *)
Definition think_call : Graph.tool_call := {|
  Graph.name := "think_tool";
  Graph.args := {[ "reflection" := "What is still missing?" ]};
  Graph.id := "call_think"
|}.

Definition research_call : Graph.tool_call := {|
  Graph.name := "ConductResearch";
  Graph.args := {[ "research_topic" := "History of tea in Europe" ]};
  Graph.id := "call_research"
|}.

(** A supervisor whose model always reflects and never completes. *)
Definition restless_world : Supervisor.World := {|
  Supervisor.system_message := "You are the lead researcher.";
  Supervisor.supervisor_model_with_tools := fun _ => Ok ("", [think_call]);
  Supervisor.supervisor_model := fun _ => Ok ("", []);
  Supervisor.think_tool := fun _ => Ok "Reflection recorded";
  Supervisor.researcher_agent := fun _ =>
    Ok {| Supervisor.compressed_research := Some "Findings";
          Supervisor.out_raw_notes := Some ["note"] |};
  Supervisor.refine_draft_report := fun _ _ _ => Ok "Refined draft"
|}.

(** A supervisor whose sub-researchers fail. *)
Definition failing_world : Supervisor.World := {|
  Supervisor.system_message := "You are the lead researcher.";
  Supervisor.supervisor_model_with_tools := fun _ => Ok ("", [research_call]);
  Supervisor.supervisor_model := fun _ => Ok ("", []);
  Supervisor.think_tool := fun _ => Ok "Reflection recorded";
  Supervisor.researcher_agent := fun _ => Raise (RuntimeError "search backend unavailable");
  Supervisor.refine_draft_report := fun _ _ _ => Ok "Refined draft"
|}.

(** The input of a supervisor run. *)
Definition fresh_state : Supervisor.SupervisorState := {|
  Supervisor.supervisor_messages := [Graph.HumanMessage "Research brief: tea"];
  Supervisor.research_iterations := None;
  Supervisor.research_brief := Some "Research brief: tea";
  Supervisor.draft_report := Some "Draft";
  Supervisor.notes := [];
  Supervisor.raw_notes := []
|}.

(** A state after the second decision, which delegates one topic. *)
Definition delegating_state : Supervisor.SupervisorState := {|
  Supervisor.supervisor_messages :=
    [ Graph.HumanMessage "Research brief: tea";
      Graph.AIMessage "" [think_call];
      Graph.ToolMessage "Reflection recorded" "think_tool" "call_think";
      Graph.AIMessage "" [research_call] ];
  Supervisor.research_iterations := Some 2;
  Supervisor.research_brief := Some "Research brief: tea";
  Supervisor.draft_report := Some "Draft";
  Supervisor.notes := [];
  Supervisor.raw_notes := []
|}.

(** Tool calls of a sub-researcher. *)
Definition search_call (n : string) : Graph.tool_call := {|
  Graph.name := "tavily_search";
  Graph.args := {[ "query" := "tea trade " +:+ n ]};
  Graph.id := "call_search_" +:+ n
|}.

Definition six_searches : list Graph.tool_call :=
map search_call ["1"; "2"; "3"; "4"; "5"; "6"].

(** A sub-researcher with the default quota of 5 whose model asks for six
    searches at once and answers after it has seen tool results. *)
Definition eager_world : Researcher.World := {|
  Researcher.MAX_TAVILY_SEARCHES := 5;
  Researcher.formatted_prompt := "You are a research assistant.";
  Researcher.compress_system_message := "Clean up the findings.";
  Researcher.compress_human_message := "Summarise the research.";
  Researcher.model_with_tools := fun messages =>
    if existsb Graph.is_tool_message messages then Ok ("Final answer", [])
    else Ok ("", six_searches);
  Researcher.compress_model := fun _ => Ok "Compressed findings";
  Researcher.tavily_search := fun _ => Ok "Search results";
  Researcher.think_tool := fun _ => Ok "Reflection recorded"
|}.


(** The input of a sub-researcher run. *)
Definition topic_state : Researcher.ResearcherState := {|
  Researcher.researcher_messages := [Graph.HumanMessage "History of tea in Europe"];
  Researcher.tavily_search_count := None;
  Researcher.research_topic := Some "History of tea in Europe";
  Researcher.compressed_research := None;
  Researcher.raw_notes := []
|}.

Definition audit_world : Evaluator.World := {|
  Evaluator.http_get := web;
  Evaluator.urlparse := Urllib.urlparse;
  Evaluator.evaluator_model := fun _ => Ok "Result: {verified: 3, numerical: 1}";
  Evaluator.json_loads := fun _ => Ok audit_reply;
  Evaluator.py_str := fun _ => "?";
  Evaluator.py_int := fun v => match v with JInt z => Ok z | _ => Raise TypeError end;
  Evaluator.py_float := as_float
|}.

(** A report with three sources, the second of them dead. *)
Definition three_sources : string :=
"# Tea" +:+ nl +:+ "Tea came by sea [1]. It was costly [2]. It spread [3]." +:+ nl +:+ nl +:+
"### Sources" +:+ nl +:+
"[1] Good: http://good.example" +:+ nl +:+
"[2] Dead: http://dead.example" +:+ nl +:+
"[3] Fine: http://fine.example".

End Samples.

Set Warnings "-abstract-large-number".

(** ** The rest of [src/red_team_evaluator.py]: content fetch,
       recommendations and the evaluation pipeline *)

Module Evaluation.
Import Py Dataclasses Evaluator.

(** [@dataclass class ObjectivityScore] of [src/dataclasses.py]. *)
Record ObjectivityScore := {
  overall_score : Q;
  bias_metrics : BiasMetrics;
  source_quality : SourceQualityMetrics;
  unsupported_claims : list string;
  counter_evidence_gaps : list string;
  claim_source_consistency : ClaimSourceConsistency;
  recommendations : list string
}.

(** Further capabilities: the single GET of [fetch_source_content], and
    the two float formats of the recommendation texts, [:.2f] and [:.1%]. *)
Record Services := {
  fetch_get : string -> http_outcome;
  format_2f : Q -> string;
  format_pct1 : Q -> string
}.

(** [<script[^>]*>.*?</script>] with [re.DOTALL | re.IGNORECASE]. *)
Definition not_gt (a : ascii) : bool := negb (Ascii.eqb a ">"%char).

Definition script_re : Re.regex :=
Re.Seq (Re.lit_nocase "<script")
  (Re.Seq (Re.Star true (Re.Chr not_gt))
     (Re.Seq (Re.lit ">")
        (Re.Seq (Re.Star false Re.any_dotall) (Re.lit_nocase "</script>")))).

(** [<style[^>]*>.*?</style>] with [re.DOTALL | re.IGNORECASE]. *)
Definition style_re : Re.regex :=
Re.Seq (Re.lit_nocase "<style")
  (Re.Seq (Re.Star true (Re.Chr not_gt))
     (Re.Seq (Re.lit ">")
        (Re.Seq (Re.Star false Re.any_dotall) (Re.lit_nocase "</style>")))).

(** [<[^>]+>]. *)
Definition tag_re : Re.regex :=
Re.Seq (Re.lit "<") (Re.Seq (Re.plus (Re.Chr not_gt)) (Re.lit ">")).

(** [\s+]. *)
Definition spaces_re : Re.regex := Re.plus Re.space.

(** The cleaning of a fetched page, up to the final cut. *)
Definition clean_page (text : string) : string :=
let text := Re.sub script_re "" text in
let text := Re.sub style_re "" text in
let text := Re.sub tag_re " " text in
Re.sub spaces_re " " text.

Definition fetch_source_content (sv : Services) (url : string) : option string :=
match fetch_get sv url with
| HttpResponse status (Ok text) =>
    if status =? 200 then Some (prefix 50000 (clean_page text)) else None
| HttpResponse _ (Raise _) => None
| HttpTimeout | HttpClientError | HttpOtherError => None
end.

(** [_fetch_source_content_map]: every citation is fetched, and an entry
    is stored for a content that is neither [None] nor empty. *)
Definition _fetch_source_content_map (sv : Services) (source_map : gmap Z string)
  : gmap Z string :=
omap (fun url =>
        match fetch_source_content sv url with
        | Some content => if String.eqb content "" then None else Some content
        | None => None
        end) source_map.

(** [x > y] and [x < y] on floats. *)
Definition gt (x y : Q) : bool := negb (Qle_bool x y).
Definition lt (x y : Q) : bool := negb (Qle_bool y x).

Definition bias_recommendations (sv : Services) (bias : BiasMetrics) : list string :=
(if gt (one_sided_score bias) 0.6
 then ["⚠️ High one-sided score (" +:+ format_2f sv (one_sided_score bias) +:+ "): "
       +:+ "Consider adding alternative perspectives or counter-arguments."]
 else [])
++ (if lt (source_diversity_score bias) 0.5
    then ["⚠️ Low source diversity: Include sources from diverse perspectives "
          +:+ "and viewpoints."]
    else [])
++ (if lt (quantitative_ratio bias) 0.3
    then ["⚠️ Low quantitative data: Increase use of specific numbers, "
          +:+ "statistics, and measurable metrics."]
    else []).

(** [_add_bias_recommendations] appends to the list it is given. *)
Definition _add_bias_recommendations (sv : Services) (recommendations : list string)
    (bias : BiasMetrics) : list string :=
recommendations ++ bias_recommendations sv bias.

Definition source_recommendations (sources : SourceQualityMetrics) : list string :=
if lt (source_credibility_score sources) 0.6
then ["⚠️ Source quality concerns: Prioritize primary sources, "
      +:+ "official documents, and authoritative publications."]
else [].

Definition _add_source_recommendations (recommendations : list string)
    (sources : SourceQualityMetrics) : list string :=
recommendations ++ source_recommendations sources.

Definition claim_recommendations (sv : Services) (claims : gmap string (list string))
    (claim_consistency : ClaimSourceConsistency) : list string :=
let unsupported_count := length (claims_get claims "unsupported") in
let missing_counter := length (claims_get claims "missing_counter_evidence") in
let numerical_issues := length (numerical_inconsistencies claim_consistency) in
let contextual_issues := length (contextual_mismatches claim_consistency) in
(if (0 <? unsupported_count)%nat
 then ["⚠️ " +:+ pretty unsupported_count +:+ " unsupported claim(s) identified: "
       +:+ "Add citations or evidence for these assertions."]
 else [])
++ (if (0 <? missing_counter)%nat
    then ["⚠️ " +:+ pretty missing_counter +:+ " area(s) need counter-evidence: "
          +:+ "Present alternative viewpoints or contradictory evidence."]
    else [])
++ (if (0 <? numerical_issues)%nat
    then ["⚠️ " +:+ pretty numerical_issues +:+ " numerical inconsistency(ies) found: "
          +:+ "Verify that numerical values (prices, percentages, counts, etc.) "
          +:+ "in claims exactly match their cited sources."]
    else [])
++ (if (0 <? contextual_issues)%nat
    then ["⚠️ " +:+ pretty contextual_issues +:+ " contextual mismatch(es) found: "
          +:+ "Ensure claims accurately represent the source content, not just "
          +:+ "matching numbers but correct interpretation."]
    else [])
++ (if lt (consistency_score claim_consistency) 0.8
    then ["⚠️ Claim-source consistency score is "
          +:+ format_pct1 sv (consistency_score claim_consistency) +:+ ": "
          +:+ "Review cited claims to ensure they match source content, "
          +:+ "especially numerical values."]
    else []).

Definition _add_claim_recommendations (sv : Services) (recommendations : list string)
    (claims : gmap string (list string)) (claim_consistency : ClaimSourceConsistency)
  : list string :=
recommendations ++ claim_recommendations sv claims claim_consistency.

Definition positive_confirmation : string :=
"✅ Report shows good objectivity and balanced perspective.".

Definition _generate_recommendations (sv : Services) (bias : BiasMetrics)
    (sources : SourceQualityMetrics) (claims : gmap string (list string))
    (claim_consistency : ClaimSourceConsistency) : list string :=
let recommendations := [] in
let recommendations := _add_bias_recommendations sv recommendations bias in
let recommendations := _add_source_recommendations recommendations sources in
let recommendations := _add_claim_recommendations sv recommendations claims claim_consistency in
match recommendations with
| [] => [positive_confirmation]
| _ => recommendations
end.

Definition _create_objectivity_score (overall_score : Q) (bias_analysis : BiasMetrics)
    (source_analysis : SourceQualityMetrics) (claim_verification : gmap string (list string))
    (claim_consistency : ClaimSourceConsistency) (recommendations : list string)
  : ObjectivityScore :=
{| overall_score := overall_score;
   bias_metrics := bias_analysis;
   source_quality := source_analysis;
   unsupported_claims := claims_get claim_verification "unsupported";
   counter_evidence_gaps := claims_get claim_verification "missing_counter_evidence";
   claim_source_consistency := claim_consistency;
   recommendations := recommendations |}.

(** [_run_parallel_evaluations] awaits the three audits one after the
    other. *)
Definition _run_parallel_evaluations (w : World) (report research_query : string)
    (sources : list string)
  : result (BiasMetrics * SourceQualityMetrics * gmap string (list string)) :=
let* bias_analysis := _analyze_bias w report research_query in
let* source_analysis := _analyze_sources w report sources in
let* claim_verification := _verify_claims w report research_query in
Ok (bias_analysis, source_analysis, claim_verification).

Definition evaluate_report (w : World) (sv : Services) (report research_query : string)
  : result ObjectivityScore :=
let '(sources, source_map) := Report.extract_sources_from_report report in
let* audits := _run_parallel_evaluations w report research_query sources in
let '(bias_analysis, source_analysis, claim_verification) := audits in
let source_content_map := _fetch_source_content_map sv source_map in
let* claim_consistency := _verify_claim_source_consistency w report source_content_map in
let overall_score :=
  _calculate_objectivity_score bias_analysis source_analysis claim_verification
    claim_consistency in
let recommendations :=
  _generate_recommendations sv bias_analysis source_analysis claim_verification
    claim_consistency in
Ok (_create_objectivity_score overall_score bias_analysis source_analysis
      claim_verification claim_consistency recommendations).

(** No rule of the recommendation rule set fires. *)
Definition all_clear (bias : BiasMetrics) (sources : SourceQualityMetrics)
    (claims : gmap string (list string)) (claim_consistency : ClaimSourceConsistency) : Prop :=
(one_sided_score bias <= 0.6)%Q
/\ (0.5 <= source_diversity_score bias)%Q
/\ (0.3 <= quantitative_ratio bias)%Q
/\ (0.6 <= source_credibility_score sources)%Q
/\ claims_get claims "unsupported" = []
/\ claims_get claims "missing_counter_evidence" = []
/\ numerical_inconsistencies claim_consistency = []
/\ contextual_mismatches claim_consistency = []
/\ (0.8 <= consistency_score claim_consistency)%Q.

(** A recommendation that is a warning: it starts with the warning sign. *)
Definition is_warning (s : string) : bool := starts_with (chars "⚠️") (chars s).

(** [d[key]] on the insertion-ordered dictionary of [validate_urls]. *)
Fixpoint dict_lookup {V} (d : list (string * V)) (k : string) : option V :=
match d with
| [] => None
| (k', v) :: d' => if String.eqb k' k then Some v else dict_lookup d' k
end.

(** The verdict of [validate_url] as [validate_urls] stores it. *)
Definition verdict (w : World) (url : string) : option (bool * Z) :=
match validate_url w url 2 with
| Ok (r, _) => Some r
| Raise _ => None
end.

(** The statuses that go with each verdict. *)
Definition status_agrees (r : bool * Z) : Prop :=
(r.1 = true -> r.2 < 400 \/ r.2 = 401 \/ r.2 = 403 \/ r.2 = 429)
/\ (r.1 = false ->
    r.2 = 0 \/ 200 <= r.2 < 300
    \/ (400 <= r.2 /\ r.2 <> 401 /\ r.2 <> 403 /\ r.2 <> 429)).

(** The step of the fold of [validate_urls]. *)
Definition store (w : World) (results : list (string * (bool * Z))) (url : string)
  : list (string * (bool * Z)) :=
match validate_url w url 2 with
| Ok (r, _) => dict_set results url r
| Raise _ => results
end.

(** The pauses among the events of a validation. *)
Definition pauses (log : list event) : list event :=
List.filter (fun e => match e with EvSleep _ => true | EvGet _ _ => false end) log.

End Evaluation.

(** ** [create_summary] of [src/report_productor.py] *)

Module Summary.
Import Py.

(** The three arguments of the summarization prompt, after their cuts. *)
Record SummaryPrompt := {
  main_report : string;
  red_team_report : string;
  user_query : string
}.

(** [summarization_model.invoke([...]).content]. *)
Definition Model := SummaryPrompt -> result string.

Definition truncation_note : string := "[Note: Summary truncated to 250 lines]".

(** [line.strip() == ""]. *)
Definition is_blank (line : string) : bool := forallb is_space (chars line).

(** [range(start, stop, -1)]. *)
Definition range_down (start stop : Z) : list Z :=
map (fun k => start - Z.of_nat k) (seq 0 (Z.to_nat (start - stop))).

(** [l[i]] for an index that is not negative. *)
Definition item (l : list string) (i : Z) : result string :=
match l !! Z.to_nat i with
| Some x => Ok x
| None => Raise IndexError
end.

(** The [for i in range(...)] loop with its [break]. *)
Fixpoint cut_at_blank (truncated : list string) (indices : list Z) : result (list string) :=
match indices with
| [] => Ok truncated
| i :: rest =>
    let* line := item truncated i in
    if is_blank line then Ok (take (Z.to_nat (i + 1)) truncated)
    else cut_at_blank truncated rest
end.

Definition len (l : list string) : Z := Z.of_nat (length l).

(** The treatment of the model's reply. *)
Definition limit_lines (summary : string) : result string :=
let lines := split_lines summary in
if 250 <? len lines then
  let truncated := take 250 lines in
  let* truncated :=
    cut_at_blank truncated (range_down (len truncated - 1) (Z.max 0 (len truncated - 10))) in
  Ok (join_lines truncated +:+ nl +:+ nl +:+ truncation_note)
else Ok summary.

Definition create_summary (model : Model) (main_report red_team_report user_query : string)
  : result string :=
let red_team_report :=
  if String.eqb red_team_report "" then "No red team evaluation available."
  else red_team_report in
let user_query :=
  if String.eqb user_query ""
  then "Summarize the key findings and conclusions from the research report."
  else user_query in
let* summary :=
  model {| main_report := prefix 50000 main_report;
           red_team_report := prefix 20000 red_team_report;
           user_query := prefix 20000 user_query |} in
limit_lines summary.

End Summary.

(** ** [UsageStats] of [src/dataclasses.py] *)

Module Usage.
Import Py.

(** One entry of [model_usage]. *)
Record Tokens := {
  prompt_tokens : Z;
  completion_tokens : Z;
  total_tokens : Z
}.

Definition no_tokens : Tokens :=
{| prompt_tokens := 0; completion_tokens := 0; total_tokens := 0 |}.

(** [@dataclass class UsageStats], without its two timestamps. *)
Record UsageStats := {
  openai_prompt_tokens : Z;
  openai_completion_tokens : Z;
  openai_total_tokens : Z;
  model_usage : gmap string Tokens;
  tavily_api_calls : Z
}.

(** [UsageStats()]. *)
Definition UsageStats_default : UsageStats := {|
  openai_prompt_tokens := 0;
  openai_completion_tokens := 0;
  openai_total_tokens := 0;
  model_usage :=
    <["summarization_model" := no_tokens]>
      (<["writer_model" := no_tokens]> (<["evaluator_model" := no_tokens]> ∅));
  tavily_api_calls := 0
|}.

(** The update of one entry of [model_usage]. *)
Definition add_tokens (prompt completion : Z) (t : Tokens) : Tokens :=
{| prompt_tokens := prompt_tokens t + prompt;
   completion_tokens := completion_tokens t + completion;
   total_tokens := total_tokens t + (prompt + completion) |}.

(** [if model_name:] holds for a name that is neither [None] nor empty. *)
Definition named (model_name : option string) : option string :=
match model_name with
| Some n => if String.eqb n "" then None else Some n
| None => None
end.

Definition add_openai_usage (self : UsageStats) (prompt completion : Z)
    (model_name : option string) : UsageStats :=
{| openai_prompt_tokens := openai_prompt_tokens self + prompt;
   openai_completion_tokens := openai_completion_tokens self + completion;
   openai_total_tokens := openai_total_tokens self + (prompt + completion);
   model_usage :=
     match named model_name with
     | Some n =>
         let entry :=
           match model_usage self !! n with
           | Some t => t
           | None => no_tokens
           end in
         <[n := add_tokens prompt completion entry]> (model_usage self)
     | None => model_usage self
     end;
   tavily_api_calls := tavily_api_calls self |}.

Definition add_tavily_call (self : UsageStats) : UsageStats :=
{| openai_prompt_tokens := openai_prompt_tokens self;
   openai_completion_tokens := openai_completion_tokens self;
   openai_total_tokens := openai_total_tokens self;
   model_usage := model_usage self;
   tavily_api_calls := tavily_api_calls self + 1 |}.

(** The calls that a tracker makes on its statistics. *)
Inductive call :=
| AddOpenAI (prompt completion : Z) (model_name : option string)
| AddTavily.

Definition apply_call (self : UsageStats) (c : call) : UsageStats :=
match c with
| AddOpenAI p k n => add_openai_usage self p k n
| AddTavily => add_tavily_call self
end.

Definition after (calls : list call) : UsageStats :=
fold_left apply_call calls UsageStats_default.

(** The sums of the per-model table. *)
Definition sum_of (f : Tokens -> Z) (m : gmap string Tokens) : Z :=
map_fold (fun _ t acc => f t + acc) 0 m.

(** Every call names a model. *)
Definition all_named (calls : list call) : Prop :=
Forall (fun c => match c with
                 | AddOpenAI _ _ n => named n <> None
                 | AddTavily => True
                 end) calls.

End Usage.

(** ** Notions used to state properties of runs and tool results *)

Module Shapes.
Import Py Graph.

(** The call that a tool message answers: its tool name and call id. *)
Definition answered (m : message) : option (string * string) :=
match m with
| ToolMessage _ tool_name tool_call_id => Some (tool_name, tool_call_id)
| _ => None
end.

(** The name and id under which a tool call expects its answer. *)
Definition expected (tc : tool_call) : option (string * string) :=
Some (name tc, id tc).

(** [k] rounds of a decision followed by its tool step. *)
Definition rounds (k : nat) : list Supervisor.node :=
concat (replicate k [Supervisor.N_supervisor; Supervisor.N_supervisor_tools]).

(** The nodes of a sub-researcher run that finishes after [k] rounds of
    tool use: each round is a model call and a tool step, and the run ends
    with the model call that asks for no tool and the compression. *)
Definition turns (k : nat) : list Researcher.node :=
concat (replicate k [Researcher.N_llm_call; Researcher.N_tool_node])
++ [Researcher.N_llm_call; Researcher.N_compress_research].

(** One round of a supervisor history: the content and the tool calls of a
    decision, and the tool messages that follow it. *)
Definition round : Type := string * list tool_call * list message.

Definition round_messages (r : round) : list message := AIMessage r.1.1 r.1.2 :: r.2.

(** The tool messages of a round answer the calls of its decision by name
    and id: the reflections first, then the delegations, then the
    refinements, one message each and nothing else. *)
Definition answered_in_full (r : round) : Prop :=
map answered r.2
= map expected (Supervisor.named "think_tool" r.1.2
                ++ Supervisor.named "ConductResearch" r.1.2
                ++ Supervisor.named "refine_draft_report" r.1.2).

(** The latest message of a history is a decision of the model. *)
Definition ends_with_decision (messages : list message) : Prop :=
exists c tcs, last messages = Some (AIMessage c tcs).

(** A sub-researcher world in which nothing fails and the model never
    stops asking for one of its two tools. *)
Definition always_busy (w : Researcher.World) : Prop :=
(forall messages, exists c tcs,
    Researcher.model_with_tools w messages = Ok (c, tcs)
    /\ tcs <> []
    /\ Forall (fun tc => name tc = "tavily_search" \/ name tc = "think_tool") tcs)
/\ (forall a, exists o, Researcher.tavily_search w a = Ok o)
/\ (forall a, exists o, Researcher.think_tool w a = Ok o).

End Shapes.

(** ** Further worlds and inputs used in examples *)

Module Fixtures.
Import Py Graph.

(** Services whose fetch sees the web of [Samples] and whose float formats
    print a fixed text. *)
Definition plain_services : Evaluation.Services := {|
  Evaluation.fetch_get := fun url => Samples.web url 0;
  Evaluation.format_2f := fun _ => "0.00";
  Evaluation.format_pct1 := fun _ => "0.0%"
|}.

(** Metrics of a report on which no rule fires. *)
Definition balanced_bias : Dataclasses.BiasMetrics := {|
  Dataclasses.one_sided_score := 0.2;
  Dataclasses.missing_counter_evidence := [];
  Dataclasses.confirmation_bias_indicators := [];
  Dataclasses.source_diversity_score := 0.7;
  Dataclasses.quantitative_ratio := 0.4
|}.

Definition trusted_sources : Dataclasses.SourceQualityMetrics := {|
  Dataclasses.total_sources := 3;
  Dataclasses.valid_sources := 3;
  Dataclasses.primary_sources := 2;
  Dataclasses.secondary_sources := 1;
  Dataclasses.academic_sources := 0;
  Dataclasses.source_credibility_score := 0.8;
  Dataclasses.missing_citations := [];
  Dataclasses.invalid_sources := []
|}.

Definition consistent_claims : Dataclasses.ClaimSourceConsistency := {|
  Dataclasses.numerical_inconsistencies := [];
  Dataclasses.contextual_mismatches := [];
  Dataclasses.unverifiable_claims := [];
  Dataclasses.verified_claims_count := 4;
  Dataclasses.consistency_score := 0.9
|}.

(** A supervisor whose model cannot be reached at all. *)
Definition unreachable_world : Supervisor.World := {|
  Supervisor.system_message := "You are the lead researcher.";
  Supervisor.supervisor_model_with_tools := fun _ => Raise (RuntimeError "no tools");
  Supervisor.supervisor_model := fun _ => Raise (RuntimeError "model unavailable");
  Supervisor.think_tool := fun _ => Ok "Reflection recorded";
  Supervisor.researcher_agent := fun _ => Raise (RuntimeError "search backend unavailable");
  Supervisor.refine_draft_report := fun _ _ _ => Ok "Refined draft"
|}.

(** A supervisor that delegates once, refines the draft, and completes. *)
Definition refine_call : tool_call := {|
  name := "refine_draft_report";
  args := ∅;
  id := "call_refine"
|}.

Definition complete_call : tool_call := {|
  name := "ResearchComplete";
  args := ∅;
  id := "call_complete"
|}.

Definition tool_results (messages : list message) : nat :=
length (List.filter is_tool_message messages).

Definition orderly_world : Supervisor.World := {|
  Supervisor.system_message := "You are the lead researcher.";
  Supervisor.supervisor_model_with_tools := fun messages =>
    match tool_results messages with
    | O => Ok ("", [Samples.think_call; Samples.research_call])
    | S (S O) => Ok ("", [refine_call])
    | _ => Ok ("Done", [complete_call])
    end;
  Supervisor.supervisor_model := fun _ => Ok ("", []);
  Supervisor.think_tool := fun _ => Ok "Reflection recorded";
  Supervisor.researcher_agent := fun _ =>
    Ok {| Supervisor.compressed_research := Some "Findings";
          Supervisor.out_raw_notes := Some ["note"] |};
  Supervisor.refine_draft_report := fun _ _ _ => Ok "Refined draft"
|}.

(** A delegation without a topic. *)
Definition topicless_call : tool_call := {|
  name := "ConductResearch";
  args := ∅;
  id := "call_topicless"
|}.

(** A sub-researcher whose model asks for a search in every turn. *)
Definition tireless_world : Researcher.World := {|
  Researcher.MAX_TAVILY_SEARCHES := 5;
  Researcher.formatted_prompt := "You are a research assistant.";
  Researcher.compress_system_message := "Clean up the findings.";
  Researcher.compress_human_message := "Summarise the research.";
  Researcher.model_with_tools := fun _ => Ok ("", [Samples.search_call "1"]);
  Researcher.compress_model := fun _ => Ok "Compressed findings";
  Researcher.tavily_search := fun _ => Ok "Search results";
  Researcher.think_tool := fun _ => Ok "Reflection recorded"
|}.

(** A sub-researcher state whose quota is used up, with a pending batch
    of two searches. *)
Definition exhausted_state : Researcher.ResearcherState := {|
  Researcher.researcher_messages :=
    [HumanMessage "History of tea in Europe";
     AIMessage "" [Samples.search_call "7"; Samples.search_call "8"]];
  Researcher.tavily_search_count := Some 5;
  Researcher.research_topic := Some "History of tea in Europe";
  Researcher.compressed_research := None;
  Researcher.raw_notes := []
|}.

(** A sub-researcher state with one search left in its quota and a pending
    batch of a search, a reflection and another search. *)
Definition mixed_state : Researcher.ResearcherState := {|
  Researcher.researcher_messages :=
    [HumanMessage "History of tea in Europe";
     AIMessage "" [Samples.search_call "5"; Samples.think_call; Samples.search_call "6"]];
  Researcher.tavily_search_count := Some 4;
  Researcher.research_topic := Some "History of tea in Europe";
  Researcher.compressed_research := None;
  Researcher.raw_notes := []
|}.

(** A sub-researcher state whose pending batch names a tool that the
    sub-researcher does not have. *)
Definition stray_state : Researcher.ResearcherState := {|
  Researcher.researcher_messages :=
    [HumanMessage "History of tea in Europe";
     AIMessage "" [Samples.search_call "1"; complete_call; Samples.think_call]];
  Researcher.tavily_search_count := None;
  Researcher.research_topic := Some "History of tea in Europe";
  Researcher.compressed_research := None;
  Researcher.raw_notes := []
|}.


End Fixtures.

(** * Properties *)

(** ** Scoring *)

Section Scoring.
Import Py Dataclasses Evaluator.
Local Open Scope Q_scope.

Lemma py_min_cases (a b : Q) :
  (a <= b /\ Py.min a b = a) \/ (b < a /\ Py.min a b = b).
Proof.
  unfold Py.min. destruct (Qle_bool a b) eqn:E.
  - left. split; [now apply Qle_bool_iff | reflexivity].
  - right. split; [| reflexivity].
    apply Qnot_le_lt. intros H. apply Qle_bool_iff in H. congruence.
Qed.

Lemma py_max_cases (a b : Q) :
  (b <= a /\ Py.max a b = a) \/ (a < b /\ Py.max a b = b).
Proof.
  unfold Py.max. destruct (Qle_bool b a) eqn:E.
  - left. split; [now apply Qle_bool_iff | reflexivity].
  - right. split; [| reflexivity].
    apply Qnot_le_lt. intros H. apply Qle_bool_iff in H. congruence.
Qed.

Lemma py_min_Qmin (a b : Q) : Py.min a b == Qmin a b.
Proof.
  destruct (py_min_cases a b) as [[H ->] | [H ->]].
  - symmetry. now apply Q.min_l.
  - symmetry. apply Q.min_r. now apply Qlt_le_weak.
Qed.

Lemma py_max_Qmax (a b : Q) : Py.max a b == Qmax a b.
Proof.
  destruct (py_max_cases a b) as [[H ->] | [H ->]].
  - symmetry. now apply Q.max_l.
  - symmetry. apply Q.max_r. now apply Qlt_le_weak.
Qed.

Lemma py_clamp_range (x : Q) : 0 <= Py.max 0.0 (Py.min 1.0 x) <= 1.
Proof.
  destruct (py_max_cases 0.0 (Py.min 1.0 x)) as [[H ->] | [H ->]]; [lra |].
  destruct (py_min_cases 1.0 x) as [[H' E] | [H' E]]; rewrite E in *; lra.
Qed.

(** C1. The objectivity score computed by [_calculate_objectivity_score]
    is the weighted sum 0.35(1 - one_sided) + 0.25 credibility
    + 0.15 diversity + 0.10 quantitative + 0.15 consistency, multiplied by
    one minus the two capped penalties, clamped to the unit interval; so
    for all inputs the score lies between 0 and 1. *)
Theorem objectivity_score_formula_and_range
    (bias : BiasMetrics) (sources : SourceQualityMetrics)
    (claims : gmap string (list string)) (claim_consistency : ClaimSourceConsistency) :
  _calculate_objectivity_score bias sources claims claim_consistency
  == objectivity_score_spec
       (one_sided_score bias) (source_credibility_score sources)
       (source_diversity_score bias) (quantitative_ratio bias)
       (consistency_score claim_consistency)
       (length (claims_get claims "unsupported"))
       (length (numerical_inconsistencies claim_consistency))
       (length (contextual_mismatches claim_consistency))
  /\ 0 <= _calculate_objectivity_score bias sources claims claim_consistency <= 1.
Proof.
  split; [| apply py_clamp_range].
  unfold _calculate_objectivity_score, objectivity_score_spec, clamp01, len_Z.
  rewrite py_max_Qmax.
  apply Q.max_compat; [reflexivity |].
  rewrite py_min_Qmin.
  apply Q.min_compat; [reflexivity |].
  rewrite !py_min_Qmin.
  rewrite Nat2Z.inj_add.
  assert (Hu : forall n : Q, n * 0.05 == 0.05 * n) by (intros; ring).
  assert (Hc : forall n : Q, n * 0.03 == 0.03 * n) by (intros; ring).
  rewrite Hu, Hc. ring.
Qed.

(** The score of the all-defaults records with no claims: only the bias
    component contributes. *)
Example score_of_defaults :
  _calculate_objectivity_score BiasMetrics_default SourceQualityMetrics_default ∅
    ClaimSourceConsistency_default == 0.35.
Proof. vm_compute. reflexivity. Qed.

End Scoring.

(** ** URL validation *)

Section UrlValidation.
Import Py Evaluator.

Lemma is_valid_status_code_spec (s : Z) :
  _is_valid_status_code s = true <-> s < 400 \/ s = 401 \/ s = 403 \/ s = 429.
Proof.
  unfold _is_valid_status_code.
  destruct ((200 <=? s) && (s <? 300)) eqn:E2.
  - apply andb_true_iff in E2 as [_ H]. apply Z.ltb_lt in H. intuition lia.
  - destruct (s <? 400) eqn:E3.
    + apply Z.ltb_lt in E3. intuition lia.
    + apply Z.ltb_ge in E3.
      destruct ((s =? 401) || (s =? 403) || (s =? 429)) eqn:E4.
      * rewrite !orb_true_iff, !Z.eqb_eq in E4. intuition lia.
      * rewrite !orb_false_iff, !Z.eqb_neq in E4. split; [discriminate | lia].
Qed.

Lemma check_response_status_code (s : Z) (text : result string) :
  (_check_response_status s text).2 = s.
Proof.
  unfold _check_response_status.
  destruct ((200 <=? s) && (s <? 300)).
  - destruct text as [t | e]; [destruct (_check_error_page _) |]; reflexivity.
  - destruct (_is_valid_status_code s); reflexivity.
Qed.

Lemma check_response_status_valid (s : Z) (text : result string) :
  (_check_response_status s text).1 = true
  <-> (200 <= s < 300 /\ error_page text = false)
      \/ s < 200 \/ 300 <= s < 400 \/ s = 401 \/ s = 403 \/ s = 429.
Proof.
  unfold _check_response_status, error_page.
  destruct ((200 <=? s) && (s <? 300)) eqn:E2.
  - apply andb_true_iff in E2 as [H1 H2]. apply Z.leb_le in H1. apply Z.ltb_lt in H2.
    destruct text as [t | e]; [destruct (_check_error_page (prefix 4096 t)) |]; simpl.
    + split; [discriminate |]. intros [[_ H] | H]; [discriminate | lia].
    + split; [intros _; left; split; [lia | reflexivity] | reflexivity].
    + split; [intros _; left; split; [lia | reflexivity] | reflexivity].
  - apply andb_false_iff in E2.
    assert (Hs : s < 200 \/ 300 <= s).
    { destruct E2 as [H | H]; [apply Z.leb_gt in H | apply Z.ltb_ge in H]; lia. }
    destruct (_is_valid_status_code s) eqn:E; simpl.
    + apply is_valid_status_code_spec in E. split; [intros _; lia | reflexivity].
    + split; [discriminate |]. intros H.
      assert (Hv : _is_valid_status_code s = true)
        by (apply is_valid_status_code_spec; lia).
      congruence.
Qed.

(** The classification as the code has it.  A response is classified valid exactly when
    its status is in [200,300) and the first 4096 characters of its body
    do not match the error-page heuristic, or its status is below 200, or
    in [300,400), or one of 401, 403, 429; the reported status is the
    response's.  A timeout or any exception of the request is invalid with
    status 0. *)
Theorem url_request_classification (w : World) (url : string) (attempt : Z) :
  match http_get w url attempt with
  | HttpResponse s text =>
      (_make_url_request w url attempt).2 = s
      /\ ((_make_url_request w url attempt).1 = true
          <-> (200 <= s < 300 /\ error_page text = false)
              \/ s < 200 \/ 300 <= s < 400 \/ s = 401 \/ s = 403 \/ s = 429)
  | HttpTimeout | HttpClientError | HttpOtherError =>
      _make_url_request w url attempt = (false, 0)
  end.
Proof.
  unfold _make_url_request.
  destruct (http_get w url attempt) as [s text | | |]; try reflexivity.
  split; [apply check_response_status_code | apply check_response_status_valid].
Qed.

(** C5. The code classifies a response as the claim says for every status
    from 200 on: valid for a status in [200,300) unless the first 4096
    characters of the body match the error-page heuristic, valid in
    [300,400) and for 401, 403 and 429, invalid otherwise; the reported
    status is the response's.  It departs from the claim below 200, and
    there on every status: the test [status_code < 400] that is meant for
    the redirects also accepts the statuses below 200, which the claim
    leaves invalid. *)
Theorem status_below_200_classified_valid (w : World) (url : string) (attempt s : Z)
    (text : result string) :
  http_get w url attempt = HttpResponse s text ->
  (_make_url_request w url attempt).2 = s
  /\ (200 <= s -> (_make_url_request w url attempt).1 = response_valid_spec s text)
  /\ (s < 200 ->
      (_make_url_request w url attempt).1 = true /\ response_valid_spec s text = false).
Proof.
  intros H. unfold _make_url_request. rewrite H.
  split; [apply check_response_status_code |]. split.
  - intros Hs. apply eq_true_iff_eq. rewrite check_response_status_valid.
    unfold response_valid_spec.
    destruct ((200 <=? s) && (s <? 300)) eqn:E2.
    + apply andb_true_iff in E2 as [H1 H2]. apply Z.leb_le in H1. apply Z.ltb_lt in H2.
      rewrite negb_true_iff. split; [intros [[_ He] | Hf]; [exact He | lia] | intros He].
      left. split; [lia | exact He].
    + apply andb_false_iff in E2.
      assert (H3 : 300 <= s).
      { destruct E2 as [E | E]; [apply Z.leb_gt in E | apply Z.ltb_ge in E]; lia. }
      destruct ((300 <=? s) && (s <? 400)) eqn:E3.
      * apply andb_true_iff in E3 as [_ H4]. apply Z.ltb_lt in H4.
        split; [reflexivity | intros _; lia].
      * apply andb_false_iff in E3.
        assert (H4 : 400 <= s).
        { destruct E3 as [E | E]; [apply Z.leb_gt in E | apply Z.ltb_ge in E]; lia. }
        destruct ((s =? 401) || (s =? 403) || (s =? 429)) eqn:E4.
        -- apply orb_true_iff in E4 as [E4 | E4];
             [apply orb_true_iff in E4 as [E4 | E4] |]; apply Z.eqb_eq in E4;
             (split; [reflexivity | intros _; lia]).
        -- apply orb_false_iff in E4 as [E4 E5]. apply orb_false_iff in E4 as [E4 E6].
           apply Z.eqb_neq in E4, E5, E6.
           split; [intros [[Hf _] | Hf]; lia | discriminate].
  - intros Hs. split.
    + apply check_response_status_valid. lia.
    + unfold response_valid_spec.
      replace (200 <=? s) with false by (symmetry; apply Z.leb_gt; lia).
      replace (300 <=? s) with false by (symmetry; apply Z.leb_gt; lia).
      replace (s =? 401) with false by (symmetry; apply Z.eqb_neq; lia).
      replace (s =? 403) with false by (symmetry; apply Z.eqb_neq; lia).
      replace (s =? 429) with false by (symmetry; apply Z.eqb_neq; lia).
      reflexivity.
Qed.

(** The failing input: a server that answers a request with 101 Switching
    Protocols, the one status below 200 that the HTTP client hands on as
    the response.  The code reports the URL valid with status 101; by the
    claim it is invalid. *)
Lemma status_below_200_classified_valid_witness :
  http_get Samples.mute_world "http://upgrade.example/socket" 0 = HttpResponse 101 (Ok "")
  /\ _make_url_request Samples.mute_world "http://upgrade.example/socket" 0 = (true, 101)
  /\ response_valid_spec 101 (Ok "") = false.
Proof.
  assert (H : http_get Samples.mute_world "http://upgrade.example/socket" 0
              = HttpResponse 101 (Ok "")) by (vm_compute; reflexivity).
  split; [exact H |].
  destruct (status_below_200_classified_valid Samples.mute_world
              "http://upgrade.example/socket" 0 101 (Ok "") H) as (H1 & _ & H2).
  destruct H2 as [H2 H3]; [lia |].
  split; [| exact H3].
  destruct (_make_url_request Samples.mute_world "http://upgrade.example/socket" 0)
    as [v st]. cbn [fst snd] in H1, H2. now subst.
Defined.

Lemma retry_loop_requests (w : World) (url : string) (mr : Z) (attempts : list Z)
    (log : list event) :
  attempts <> [] ->
  requests (retry_loop w url mr attempts log).2 <> [].
Proof.
  revert log. induction attempts as [| a rest IH]; intros log Hne; [congruence |].
  simpl. destruct (_make_url_request w url a) as [v st].
  assert (Hlog : forall l, requests (l ++ [EvGet url a]) <> []).
  { intros l. unfold requests. rewrite List.filter_app. simpl.
    intros H. apply app_eq_nil in H as [_ H]. discriminate. }
  destruct (v || (mr <=? a)); simpl; [apply Hlog |].
  destruct rest as [| a' rest'].
  - simpl. unfold requests. rewrite List.filter_app. simpl. rewrite app_nil_r. apply Hlog.
  - apply IH. discriminate.
Qed.

Lemma range_nonempty (n : Z) : 0 < n -> range n <> [].
Proof.
  intros H. unfold range.
  destruct (Z.to_nat n) eqn:E; [lia | simpl; discriminate].
Qed.

(** C9 (as the code has it). When the cleaned URL parses, [validate_url]
    answers (invalid, 0) without any HTTP request if the URL lacks a
    scheme or lacks a host; and when it has both, at least one request is
    issued.  So the immediate rejection happens exactly when the scheme or
    the host is missing. *)
Theorem validate_url_immediate_rejection (w : World) (url : string) (max_retries : Z)
    (parsed : ParseResult) :
  urlparse w (rstrip ".,;:!?)" url) = Ok parsed ->
  0 <= max_retries ->
  exists r log,
    validate_url w url max_retries = Ok (r, log)
    /\ ((r = (false, 0) /\ requests log = [])
        <-> (scheme parsed = "" \/ netloc parsed = ""))
    /\ (scheme parsed <> "" -> netloc parsed <> "" -> requests log <> []).
Proof.
  intros Hp Hmr. unfold validate_url. rewrite Hp. simpl.
  destruct (String.eqb (scheme parsed) "") eqn:Es; simpl.
  - apply String.eqb_eq in Es. exists (false, 0), []. split; [reflexivity |].
    split; [| intros Hs; contradiction].
    split; [intros _; now left | intros _; split; reflexivity].
  - apply String.eqb_neq in Es.
    destruct (String.eqb (netloc parsed) "") eqn:En.
    + apply String.eqb_eq in En. exists (false, 0), []. split; [reflexivity |].
      split; [| intros _ Hn; contradiction].
      split; [intros _; now right | intros _; split; reflexivity].
    + apply String.eqb_neq in En.
      destruct (_validate_url_with_retry w (rstrip ".,;:!?)" url) max_retries)
        as [r log] eqn:E.
      assert (Hne : requests (_validate_url_with_retry w (rstrip ".,;:!?)" url) max_retries).2 <> []).
      { apply retry_loop_requests, range_nonempty. lia. }
      rewrite E in Hne. simpl in Hne.
      exists r, log. split; [reflexivity |]. split; [| intros _ _; exact Hne].
      split; [| intros [H | H]; contradiction].
      intros [_ Hreq]. contradiction.
Qed.

(** An instance: a URL with a host and no scheme, under the model of
    [urlparse]. *)
Lemma validate_url_immediate_rejection_witness :
  exists r log,
    validate_url Samples.mute_world "//example.com/page." 2 = Ok (r, log)
    /\ ((r = (false, 0) /\ requests log = [])
        <-> ("" = "" \/ "example.com" = ""))
    /\ ("" <> "" -> "example.com" <> "" -> requests log <> []).
Proof.
  apply (validate_url_immediate_rejection Samples.mute_world "//example.com/page." 2
           {| scheme := ""; netloc := "example.com" |}).
  - vm_compute. reflexivity.
  - lia.
Defined.

(** C9, counterexample. A URL with a scheme and no host does not lack
    both, yet it is rejected at once. *)
Lemma scheme_without_host_counterexample :
  urlparse Samples.mute_world (rstrip ".,;:!?)" "mailto:someone@example.com")
  = Ok {| scheme := "mailto"; netloc := "" |}
  /\ validate_url Samples.mute_world "mailto:someone@example.com" 2 = Ok ((false, 0), [])
  /\ ~ ("mailto" = "" /\ "" = "").
Proof.
  split; [vm_compute; reflexivity |].
  split; [vm_compute; reflexivity |].
  intros [H _]. discriminate.
Qed.

End UrlValidation.

(** ** The audits *)

Section Audits.
Import Py Dataclasses Evaluator.



Lemma nonempty_dict_none (w : World) (content : string) :
  _parse_json_response w content = None ->
  nonempty_dict (_parse_json_response w content) = None.
Proof. intros ->. reflexivity. Qed.






End Audits.

(** ** The supervisor loop *)

Section SupervisorLoop.
Import Py Graph Supervisor.

Variable w : World.

Lemma last_message_ai (msgs : list message) (c : string) (tcs : list tool_call) :
  last msgs = Some (AIMessage c tcs) -> last_message msgs = Ok (AIMessage c tcs).
Proof. unfold last_message. now intros ->. Qed.

Lemma check_exit_criteria_spec (n : Z) (c : string) (tcs : list tool_call) :
  exists b, _check_exit_criteria n (AIMessage c tcs) = Ok b
            /\ (b = true <-> exit_condition n tcs).
Proof.
  unfold _check_exit_criteria, exit_condition. simpl. eexists. split; [reflexivity |].
  rewrite !orb_true_iff, Z.leb_le, existsb_exists, List.Exists_exists.
  assert (Hnil : match tcs with [] => true | _ :: _ => false end = true <-> tcs = []).
  { destruct tcs; split; intros H; congruence. }
  rewrite Hnil.
  assert (Hex : (exists x, In x tcs /\ String.eqb (name x) "ResearchComplete" = true)
                <-> (exists x, In x tcs /\ name x = "ResearchComplete")).
  { split; intros (x & Hin & Hx); exists x; split; auto; now apply String.eqb_eq. }
  rewrite Hex. tauto.
Qed.

(** [supervisor_tools] on a state whose latest message is a decision. *)
Lemma supervisor_tools_cases (st : SupervisorState) (c : string) (tcs : list tool_call) :
  last (supervisor_messages st) = Some (AIMessage c tcs) ->
  (exit_condition (iterations st) tcs
   /\ supervisor_tools w st = Ok (exit_command (supervisor_messages st) st))
  \/ (~ exit_condition (iterations st) tcs
      /\ (exists e, dispatch w st (supervisor_messages st) (AIMessage c tcs) = Raise e)
      /\ supervisor_tools w st = Ok (exit_command (supervisor_messages st) st))
  \/ (~ exit_condition (iterations st) tcs
      /\ exists cmd, dispatch w st (supervisor_messages st) (AIMessage c tcs) = Ok cmd
                     /\ goto cmd = N_supervisor
                     /\ upd_research_iterations (update cmd) = None
                     /\ supervisor_tools w st = Ok cmd).
Proof.
  intros Hlast. unfold supervisor_tools. rewrite (last_message_ai _ _ _ Hlast).
  cbn [Py.bind].
  destruct (check_exit_criteria_spec (iterations st) c tcs) as (b & Hb & Hiff).
  unfold iterations in *. rewrite Hb. cbn [Py.bind].
  destruct b.
  - left. split; [now apply Hiff | reflexivity].
  - right.
    assert (Hno : ~ exit_condition (get (research_iterations st) 0) tcs).
    { intros H. apply Hiff in H. discriminate. }
    destruct (dispatch w st (supervisor_messages st) (AIMessage c tcs)) as [cmd | e] eqn:Ed.
    + right. split; [exact Hno |]. exists cmd. split; [reflexivity |].
      unfold dispatch in Ed. simpl in Ed.
      destruct (_execute_think_tools w _) as [tm | ?]; simpl in Ed; [| discriminate].
      destruct (_execute_research_calls w _) as [[rm rn] | ?]; simpl in Ed; [| discriminate].
      destruct (_execute_refine_report w _ _ _) as [[fm fd] | ?]; simpl in Ed; [| discriminate].
      injection Ed as <-. simpl. repeat split.
    + left. split; [exact Hno |]. split; [eauto | reflexivity].
Qed.

Lemma supervisor_step (st : SupervisorState) (cmd : Command) :
  supervisor w st = Ok cmd ->
  goto cmd = N_supervisor_tools
  /\ iterations (apply_update st (update cmd)) = iterations st + 1
  /\ exists c tcs, last (supervisor_messages (apply_update st (update cmd)))
                   = Some (AIMessage c tcs).
Proof.
  unfold supervisor. intros H.
  destruct (try_except _ _) as [[c tcs] | e]; simpl in H; [| discriminate].
  injection H as <-. simpl. repeat split.
  exists c, tcs. apply last_snoc.
Qed.

Lemma supervisor_tools_step (st : SupervisorState) (cmd : Command) :
  supervisor_tools w st = Ok cmd ->
  iterations (apply_update st (update cmd)) = iterations st
  /\ (goto cmd = N_END
      \/ (goto cmd = N_supervisor /\ iterations st < max_researcher_iterations)).
Proof.
  intros H.
  destruct (last (supervisor_messages st)) as [m |] eqn:Hlast.
  2:{ unfold supervisor_tools, last_message in H. rewrite Hlast in H. discriminate. }
  destruct m as [? | ? | c tcs | ? ? ?];
    try (unfold supervisor_tools, last_message in H; rewrite Hlast in H; discriminate).
  destruct (supervisor_tools_cases st c tcs Hlast)
    as [[_ E] | [(_ & _ & E) | (Hno & cmd' & _ & Hg & Hu & E)]];
    rewrite E in H; injection H as <-.
  - split; [reflexivity | now left].
  - split; [reflexivity | now left].
  - split.
    + unfold iterations, apply_update. simpl. rewrite Hu. reflexivity.
    + right. split; [exact Hg |].
      unfold exit_condition in Hno. lia.
Qed.

Lemma decisions_snoc (trace : list node) (n : node) :
  decisions (trace ++ [n])
  = (decisions trace + match n with N_supervisor => 1 | _ => 0 end)%nat.
Proof.
  unfold decisions. rewrite List.filter_app, length_app. destruct n; reflexivity.
Qed.

Lemma run_preserves (fuel : nat) :
  forall (n : node) (st : SupervisorState) (trace : list node),
    run_invariant n st trace ->
    iterations (final_state (run (step w) is_end fuel n st trace).1)
    = Z.of_nat (decisions (run (step w) is_end fuel n st trace).2)
    /\ (decisions (run (step w) is_end fuel n st trace).2 <= 15)%nat
    /\ ((remaining n (decisions trace) <= fuel)%nat ->
        out_of_fuel (run (step w) is_end fuel n st trace).1 = false).
Proof.
  induction fuel as [| fuel IH]; intros n st trace [Hit Hk].
  - destruct n; simpl in *; (split; [exact Hit |]); (split; [lia |]);
      intros Hf; try lia; reflexivity.
  - destruct n; simpl in Hk; cbn [run is_end].
    + change (step w N_supervisor st)
        with (Py.bind (supervisor w st) (fun c => Ok (goto c, apply_update st (update c)))).
      destruct (supervisor w st) as [cmd |] eqn:E; cbn [Py.bind].
      2:{ simpl. split; [exact Hit |]. split; [lia | reflexivity]. }
      destruct (supervisor_step st cmd E) as (Hg & Hi & _). rewrite Hg.
      assert (Hinv : run_invariant N_supervisor_tools (apply_update st (update cmd))
                       (trace ++ [N_supervisor])).
      { unfold run_invariant. rewrite decisions_snoc, Hi, Hit. split; lia. }
      destruct (IH _ _ _ Hinv) as (H1 & H2 & H3).
      split; [exact H1 |]. split; [exact H2 |].
      intros Hf. apply H3. rewrite decisions_snoc. simpl in *. lia.
    + change (step w N_supervisor_tools st)
        with (Py.bind (supervisor_tools w st)
                      (fun c => Ok (goto c, apply_update st (update c)))).
      destruct (supervisor_tools w st) as [cmd |] eqn:E; cbn [Py.bind].
      2:{ simpl. split; [exact Hit |]. split; [lia | reflexivity]. }
      destruct (supervisor_tools_step st cmd E) as (Hi & [Hg | [Hg Hlt]]); rewrite Hg.
      * assert (Hinv : run_invariant N_END (apply_update st (update cmd))
                         (trace ++ [N_supervisor_tools])).
        { unfold run_invariant. rewrite decisions_snoc, Hi, Hit. split; lia. }
        destruct (IH _ _ _ Hinv) as (H1 & H2 & H3).
        split; [exact H1 |]. split; [exact H2 |].
        intros _. apply H3. simpl. lia.
      * unfold max_researcher_iterations in Hlt.
        assert (Hinv : run_invariant N_supervisor (apply_update st (update cmd))
                         (trace ++ [N_supervisor_tools])).
        { unfold run_invariant. rewrite decisions_snoc, Hi, Hit. split; lia. }
        destruct (IH _ _ _ Hinv) as (H1 & H2 & H3).
        split; [exact H1 |]. split; [exact H2 |].
        intros Hf. apply H3. rewrite decisions_snoc. simpl in *. lia.
    + simpl. split; [exact Hit |]. split; [lia | reflexivity].
Qed.

(** C3. Each decision of the supervisor raises the iteration count by
    exactly one and the tool step leaves it unchanged, so the count never
    decreases; in a run that starts with count 0 the count equals the
    number of decisions made, the run makes at most 15 decisions, and it
    has stopped once 30 nodes were allowed to run. *)
Theorem iteration_count_and_termination (fuel : nat) (input : SupervisorState) :
  iterations input = 0 ->
  (forall st cmd, supervisor w st = Ok cmd ->
                  iterations (apply_update st (update cmd)) = iterations st + 1)
  /\ (forall st cmd, supervisor_tools w st = Ok cmd ->
                     iterations (apply_update st (update cmd)) = iterations st)
  /\ iterations (final_state (supervisor_agent w fuel input).1)
     = Z.of_nat (decisions (supervisor_agent w fuel input).2)
  /\ Z.of_nat (decisions (supervisor_agent w fuel input).2) <= max_researcher_iterations
  /\ ((30 <= fuel)%nat -> out_of_fuel (supervisor_agent w fuel input).1 = false).
Proof.
  intros H0.
  split; [intros st cmd H; apply (supervisor_step st cmd H) |].
  split; [intros st cmd H; apply (supervisor_tools_step st cmd H) |].
  unfold supervisor_agent.
  destruct (run_preserves fuel N_supervisor input []) as (H1 & H2 & H3).
  { split; [exact H0 | unfold decisions; simpl; lia]. }
  split; [exact H1 |]. split; [unfold max_researcher_iterations; lia |].
  intros Hf. apply H3. unfold decisions. simpl. lia.
Qed.

(** C2 (as the code has it). On a state whose latest message is a
    decision, the tool step ends the run exactly when one of the three exit
    criteria holds for that decision or the dispatch of its tool calls
    raises; it then returns the notes of the tool-result messages and the
    research brief.  Otherwise the tool calls are dispatched, their results
    are the update, and the loop returns to the decision step. *)
Theorem supervisor_tools_ends_iff (st : SupervisorState) (c : string)
    (tcs : list tool_call) :
  last (supervisor_messages st) = Some (AIMessage c tcs) ->
  exists cmd,
    supervisor_tools w st = Ok cmd
    /\ (goto cmd = N_END
        <-> exit_condition (iterations st) tcs
            \/ exists e, dispatch w st (supervisor_messages st) (AIMessage c tcs) = Raise e)
    /\ (goto cmd = N_END ->
        upd_notes (update cmd) = get_notes_from_tool_calls (supervisor_messages st)
        /\ upd_research_brief (update cmd) = Some (get (research_brief st) ""))
    /\ (goto cmd <> N_END ->
        goto cmd = N_supervisor
        /\ dispatch w st (supervisor_messages st) (AIMessage c tcs) = Ok cmd).
Proof.
  intros Hlast.
  destruct (supervisor_tools_cases st c tcs Hlast)
    as [[Hex E] | [(Hno & [e He] & E) | (Hno & cmd & Hd & Hg & _ & E)]].
  - eexists. split; [exact E |]. simpl.
    split; [split; [intros _; now left | reflexivity] |].
    split; [intros _; split; reflexivity | intros Hne; congruence].
  - eexists. split; [exact E |]. simpl.
    split; [split; [intros _; right; eauto | reflexivity] |].
    split; [intros _; split; reflexivity | intros Hne; congruence].
  - exists cmd. split; [exact E |]. rewrite Hg.
    split; [split; [discriminate | intros [Hx | [e He]]; [contradiction | congruence]] |].
    split; [discriminate | intros _; split; [reflexivity | exact Hd]].
Qed.

(** C8. When the dispatch of the tool calls raises, the tool step does not
    raise: it returns the command of a criterion exit (the one that the same
    state gives once the iteration budget is used up), which goes to the
    end with the contents of all tool-result messages as notes and the
    research brief; the run stops there. *)
Theorem dispatch_failure_exits (st : SupervisorState) (c : string)
    (tcs : list tool_call) (e : exn) (fuel : nat) (trace : list node) :
  last (supervisor_messages st) = Some (AIMessage c tcs) ->
  dispatch w st (supervisor_messages st) (AIMessage c tcs) = Raise e ->
  exists cmd,
    supervisor_tools w st = Ok cmd
    /\ supervisor_tools w (with_iterations st max_researcher_iterations) = Ok cmd
    /\ goto cmd = N_END
    /\ upd_notes (update cmd)
       = map content_of (List.filter is_tool_message (supervisor_messages st))
    /\ upd_research_brief (update cmd) = Some (get (research_brief st) "")
    /\ run (step w) is_end (S fuel) N_supervisor_tools st trace
       = (Finished (apply_update st (update cmd)), trace ++ [N_supervisor_tools]).
Proof.
  intros Hlast Hd.
  exists (exit_command (supervisor_messages st) st).
  assert (E : supervisor_tools w st = Ok (exit_command (supervisor_messages st) st)).
  { destruct (supervisor_tools_cases st c tcs Hlast)
      as [[_ E] | [(_ & _ & E) | (_ & cmd & Hd' & _)]]; [exact E | exact E | congruence]. }
  split; [exact E |]. split.
  - destruct (supervisor_tools_cases (with_iterations st max_researcher_iterations) c tcs Hlast)
      as [[_ E'] | [(Hno & _) | (Hno & _)]].
    + exact E'.
    + exfalso. apply Hno. left. unfold iterations. simpl. lia.
    + exfalso. apply Hno. left. unfold iterations. simpl. lia.
  - repeat split. simpl. rewrite E. simpl. destruct fuel; reflexivity.
Qed.

End SupervisorLoop.

(** Witnesses and a counterexample for the supervisor. *)

Section SupervisorExamples.
Import Py Graph Supervisor.

(** An instance: a model that reflects for ever is stopped after its
    fifteenth decision. *)
Lemma iteration_count_and_termination_witness :
  iterations Samples.fresh_state = 0
  /\ iterations (final_state (supervisor_agent Samples.restless_world 40 Samples.fresh_state).1)
     = Z.of_nat (decisions (supervisor_agent Samples.restless_world 40 Samples.fresh_state).2)
  /\ Z.of_nat (decisions (supervisor_agent Samples.restless_world 40 Samples.fresh_state).2)
     <= max_researcher_iterations
  /\ out_of_fuel (supervisor_agent Samples.restless_world 40 Samples.fresh_state).1 = false.
Proof.
  assert (H0 : iterations Samples.fresh_state = 0) by reflexivity.
  split; [exact H0 |].
  destruct (iteration_count_and_termination Samples.restless_world 40 Samples.fresh_state H0)
    as (_ & _ & H1 & H2 & H3).
  split; [exact H1 |]. split; [exact H2 |]. apply H3. lia.
Defined.

(** An instance: a delegation that succeeds returns to the decision step. *)
Lemma supervisor_tools_ends_iff_witness :
  last (supervisor_messages Samples.delegating_state)
  = Some (AIMessage "" [Samples.research_call])
  /\ exists cmd,
       supervisor_tools Samples.restless_world Samples.delegating_state = Ok cmd
       /\ (goto cmd = N_END
           <-> exit_condition (iterations Samples.delegating_state) [Samples.research_call]
               \/ exists e,
                    dispatch Samples.restless_world Samples.delegating_state
                      (supervisor_messages Samples.delegating_state)
                      (AIMessage "" [Samples.research_call]) = Raise e)
       /\ (goto cmd = N_END ->
           upd_notes (update cmd)
           = get_notes_from_tool_calls (supervisor_messages Samples.delegating_state)
           /\ upd_research_brief (update cmd)
              = Some (get (research_brief Samples.delegating_state) ""))
       /\ (goto cmd <> N_END ->
           goto cmd = N_supervisor
           /\ dispatch Samples.restless_world Samples.delegating_state
                (supervisor_messages Samples.delegating_state)
                (AIMessage "" [Samples.research_call]) = Ok cmd).
Proof.
  split; [reflexivity |].
  apply (supervisor_tools_ends_iff Samples.restless_world Samples.delegating_state
           "" [Samples.research_call]).
  reflexivity.
Defined.

(** C2, counterexample. After the second decision, which delegates one
    topic, none of the three exit criteria holds; the sub-researcher fails,
    and the tool step ends the run. *)
Lemma failed_dispatch_counterexample :
  last (supervisor_messages Samples.delegating_state)
  = Some (AIMessage "" [Samples.research_call])
  /\ _check_exit_criteria (iterations Samples.delegating_state)
       (AIMessage "" [Samples.research_call]) = Ok false
  /\ ~ exit_condition (iterations Samples.delegating_state) [Samples.research_call]
  /\ exists cmd,
       supervisor_tools Samples.failing_world Samples.delegating_state = Ok cmd
       /\ goto cmd = N_END.
Proof.
  split; [reflexivity |]. split; [reflexivity |]. split.
  - intros [H | [H | H]].
    + vm_compute in H. apply H. reflexivity.
    + discriminate.
    + apply List.Exists_exists in H as (tc & [<- | []] & Hn). discriminate.
  - eexists. split; [vm_compute; reflexivity | reflexivity].
Qed.

(** An instance: the failing sub-researcher of the counterexample above. *)
Lemma dispatch_failure_exits_witness :
  last (supervisor_messages Samples.delegating_state)
  = Some (AIMessage "" [Samples.research_call])
  /\ dispatch Samples.failing_world Samples.delegating_state
       (supervisor_messages Samples.delegating_state)
       (AIMessage "" [Samples.research_call])
     = Raise (RuntimeError "search backend unavailable")
  /\ exists cmd,
       supervisor_tools Samples.failing_world Samples.delegating_state = Ok cmd
       /\ supervisor_tools Samples.failing_world
            (with_iterations Samples.delegating_state max_researcher_iterations) = Ok cmd
       /\ goto cmd = N_END
       /\ upd_notes (update cmd)
          = map content_of
              (List.filter is_tool_message (supervisor_messages Samples.delegating_state))
       /\ upd_research_brief (update cmd)
          = Some (get (research_brief Samples.delegating_state) "")
       /\ run (step Samples.failing_world) is_end 1 N_supervisor_tools
            Samples.delegating_state []
          = (Finished (apply_update Samples.delegating_state (update cmd)),
             [] ++ [N_supervisor_tools]).
Proof.
  assert (Hl : last (supervisor_messages Samples.delegating_state)
               = Some (AIMessage "" [Samples.research_call])) by reflexivity.
  assert (Hd : dispatch Samples.failing_world Samples.delegating_state
                 (supervisor_messages Samples.delegating_state)
                 (AIMessage "" [Samples.research_call])
               = Raise (RuntimeError "search backend unavailable"))
    by (vm_compute; reflexivity).
  split; [exact Hl |]. split; [exact Hd |].
  exact (dispatch_failure_exits Samples.failing_world Samples.delegating_state
           "" [Samples.research_call] (RuntimeError "search backend unavailable")
           0 [] Hl Hd).
Defined.

End SupervisorExamples.

(** ** The search quota of a sub-researcher *)

Section GraphInvariant.
Import Py Graph.
Context {node state : Type}.
Variable step : node -> state -> result (node * state).
Variable is_end : node -> bool.
Variable P : state -> Prop.
Hypothesis step_preserves :
  forall n st n' st', P st -> step n st = Ok (n', st') -> P st'.


End GraphInvariant.

Section SearchQuota.
Import Py Graph Researcher.

Variable w : World.

Lemma searches_snoc (calls : list tool_call) (tc : tool_call) :
  searches (calls ++ [tc]) = searches calls + (if is_search tc then 1 else 0).
Proof.
  unfold searches. rewrite List.filter_app, length_app. simpl.
  destruct (is_search tc); simpl; lia.
Qed.

Lemma loop_body_skip (ls : loop_state) (tc : tool_call) :
  is_search tc = true ->
  MAX_TAVILY_SEARCHES w <= count ls ->
  loop_body w ls tc
  = Ok {| observations := observations ls ++ [limit_message w (count ls)];
          skipped_searches := skipped_searches ls + 1;
          count := count ls;
          invoked := invoked ls |}.
Proof.
  unfold loop_body, is_search. intros -> H.
  apply Z.leb_le in H. rewrite H. reflexivity.
Qed.

Lemma loop_body_search (ls : loop_state) (tc : tool_call) :
  is_search tc = true ->
  count ls < MAX_TAVILY_SEARCHES w ->
  loop_body w ls tc
  = (let* observation := tavily_search w (args tc) in
     Ok {| observations := observations ls ++ [observation];
           skipped_searches := skipped_searches ls;
           count := count ls + 1;
           invoked := invoked ls ++ [tc] |}).
Proof.
  unfold loop_body, is_search. intros Hs H.
  apply Z.leb_gt in H. rewrite Hs, H.
  unfold execute_tool, tools_by_name. rewrite Hs. reflexivity.
Qed.

Lemma loop_body_other (ls : loop_state) (tc : tool_call) :
  is_search tc = false ->
  loop_body w ls tc
  = (let* tool := tools_by_name w (name tc) in
     let* observation := tool (args tc) in
     Ok {| observations := observations ls ++ [observation];
           skipped_searches := skipped_searches ls;
           count := count ls;
           invoked := invoked ls ++ [tc] |}).
Proof.
  unfold loop_body, is_search. intros ->. reflexivity.
Qed.

(** What one iteration does to the counter and to the record of executed
    calls. *)
Lemma loop_body_count (ls ls' : loop_state) (tc : tool_call) :
  loop_body w ls tc = Ok ls' ->
  count ls <= count ls'
  /\ count ls' <= Z.max (count ls) (MAX_TAVILY_SEARCHES w)
  /\ count ls' - searches (invoked ls') = count ls - searches (invoked ls).
Proof.
  intros H. destruct (is_search tc) eqn:Es.
  - destruct (Z_le_gt_dec (MAX_TAVILY_SEARCHES w) (count ls)) as [Hq | Hq].
    + rewrite (loop_body_skip ls tc Es Hq) in H. injection H as <-. simpl. lia.
    + rewrite (loop_body_search ls tc Es) in H by lia.
      destruct (tavily_search w (args tc)); simpl in H; [| discriminate].
      injection H as <-. simpl. rewrite searches_snoc, Es. lia.
  - rewrite (loop_body_other ls tc Es) in H.
    destruct (tools_by_name w (name tc)) as [tool |]; simpl in H; [| discriminate].
    destruct (tool (args tc)); simpl in H; [| discriminate].
    injection H as <-. simpl. rewrite searches_snoc, Es. lia.
Qed.

Lemma loop_count (tcs : list tool_call) :
  forall ls ls',
    loop w ls tcs = Ok ls' ->
    count ls <= count ls'
    /\ count ls' <= Z.max (count ls) (MAX_TAVILY_SEARCHES w)
    /\ count ls' - searches (invoked ls') = count ls - searches (invoked ls).
Proof.
  induction tcs as [| tc rest IH]; intros ls ls' H; simpl in H.
  - injection H as <-. lia.
  - destruct (loop_body w ls tc) as [ls1 |] eqn:E; simpl in H; [| discriminate].
    apply loop_body_count in E. apply IH in H. lia.
Qed.



(** The two ways in which one iteration of the loop returns: the call is
    skipped, or its tool is invoked. *)
Lemma loop_body_returns (ls ls1 : loop_state) (tc : tool_call) :
  loop_body w ls tc = Ok ls1 ->
  (is_search tc = true
   /\ MAX_TAVILY_SEARCHES w <= count ls
   /\ ls1 = {| observations := observations ls ++ [limit_message w (count ls)];
               skipped_searches := skipped_searches ls + 1;
               count := count ls;
               invoked := invoked ls |})
  \/ ((is_search tc = true -> count ls < MAX_TAVILY_SEARCHES w)
      /\ exists tool o,
           tools_by_name w (name tc) = Ok tool
           /\ tool (args tc) = Ok o
           /\ ls1 = {| observations := observations ls ++ [o];
                       skipped_searches := skipped_searches ls;
                       count := count ls + (if is_search tc then 1 else 0);
                       invoked := invoked ls ++ [tc] |}).
Proof.
  intros H. destruct (is_search tc) eqn:Es.
  - destruct (Z_le_gt_dec (MAX_TAVILY_SEARCHES w) (count ls)) as [Hq | Hq].
    + rewrite (loop_body_skip ls tc Es Hq) in H. injection H as <-. left. auto.
    + rewrite (loop_body_search ls tc Es) in H by lia.
      destruct (tavily_search w (args tc)) as [o |] eqn:Eo; cbn [Py.bind] in H;
        [| discriminate].
      injection H as <-. right. split; [intros _; lia |].
      exists (tavily_search w), o. split; [| split; [exact Eo | reflexivity]].
      unfold tools_by_name. unfold is_search in Es. now rewrite Es.
  - rewrite (loop_body_other ls tc Es) in H.
    destruct (tools_by_name w (name tc)) as [tool |] eqn:Et; cbn [Py.bind] in H;
      [| discriminate].
    destruct (tool (args tc)) as [o |] eqn:Eo; cbn [Py.bind] in H; [| discriminate].
    injection H as <-. right. split; [discriminate |].
    exists tool, o. split; [reflexivity |]. split; [exact Eo |].
    now rewrite Z.add_0_r.
Qed.

Lemma searches_app (l1 l2 : list tool_call) : searches (l1 ++ l2) = searches l1 + searches l2.
Proof. unfold searches. rewrite List.filter_app, length_app. lia. Qed.

Lemma searches_cons (tc : tool_call) (l : list tool_call) :
  searches (tc :: l) = (if is_search tc then 1 else 0) + searches l.
Proof. unfold searches. simpl. destruct (is_search tc); simpl; lia. Qed.







End SearchQuota.

Section SearchQuotaExamples.
Import Py Graph Researcher.


(** The loop of that batch: the first five searches are executed, the
    sixth is answered by the warning, and the counter is 5. *)
Example sixth_search_skipped :
  exists ls,
    loop Samples.eager_world
         {| observations := []; skipped_searches := 0; count := 0; invoked := [] |}
         Samples.six_searches = Ok ls
    /\ count ls = 5
    /\ skipped_searches ls = 1
    /\ invoked ls = take 5 Samples.six_searches
    /\ observations ls
       = replicate 5 "Search results" ++ [limit_message Samples.eager_world 5].
Proof.
  eexists.
  split; [vm_compute; reflexivity |].
  split; [vm_compute; reflexivity |].
  split; [vm_compute; reflexivity |].
  split; vm_compute; reflexivity.
Qed.

(** The whole run of that sub-researcher stops with the counter at 5. *)
Example eager_run :
  let r := researcher_agent Samples.eager_world 10 Samples.topic_state in
  out_of_fuel r.1 = false
  /\ tavily_search_count (final_state r.1) = Some 5
  /\ r.2 = [N_llm_call; N_tool_node; N_llm_call; N_compress_research].
Proof.
  split; [vm_compute; reflexivity |].
  split; vm_compute; reflexivity.
Qed.

End SearchQuotaExamples.

(** ** Removal of invalid sources from a report *)

Section SourcesSection.
Import Py Report.

Lemma split_chars_nonempty (sep : ascii) (s : list ascii) : split_chars sep s <> [].
Proof.
  induction s as [| a s IH]; simpl; [discriminate |].
  destruct (Ascii.eqb a sep); [discriminate |].
  destruct (split_chars sep s); discriminate.
Qed.

Lemma split_chars_no_sep (sep : ascii) (s : list ascii) :
  Forall (fun part => ~ In sep part) (split_chars sep s).
Proof.
  induction s as [| a s IH]; simpl.
  - constructor; [intros [] | constructor].
  - destruct (Ascii.eqb_spec a sep) as [-> | Hne].
    + constructor; [intros [] | exact IH].
    + destruct (split_chars sep s) as [| part parts].
      * constructor; [| constructor]. intros [H | []]. congruence.
      * inversion IH as [| ? ? Hp Hps]; subst.
        constructor; [| exact Hps]. intros [H | H]; [congruence | contradiction].
Qed.

Lemma split_chars_part (sep : ascii) (part : list ascii) :
  ~ In sep part -> split_chars sep part = [part].
Proof.
  induction part as [| a part IH]; intros H; simpl; [reflexivity |].
  destruct (Ascii.eqb_spec a sep) as [-> | Hne]; [exfalso; apply H; now left |].
  rewrite IH; [reflexivity |]. intros Hin. apply H. now right.
Qed.

Lemma split_chars_app (sep : ascii) (part rest : list ascii) :
  ~ In sep part ->
  split_chars sep (part ++ sep :: rest) = part :: split_chars sep rest.
Proof.
  induction part as [| a part IH]; intros H; simpl.
  - rewrite Ascii.eqb_refl. reflexivity.
  - destruct (Ascii.eqb_spec a sep) as [-> | Hne]; [exfalso; apply H; now left |].
    rewrite IH; [reflexivity |]. intros Hin. apply H. now right.
Qed.

Lemma split_chars_join (sep : ascii) (parts : list (list ascii)) :
  parts <> [] ->
  Forall (fun part => ~ In sep part) parts ->
  split_chars sep (join_chars sep parts) = parts.
Proof.
  induction parts as [| part parts IH]; intros Hne Hall; [congruence |].
  inversion Hall as [| ? ? Hp Hps]; subst.
  destruct parts as [| part' parts'].
  - simpl. now apply split_chars_part.
  - change (join_chars sep (part :: part' :: parts'))
      with (part ++ sep :: join_chars sep (part' :: parts')).
    rewrite split_chars_app by exact Hp.
    rewrite IH; [reflexivity | discriminate | exact Hps].
Qed.

Lemma chars_str (l : list ascii) : chars (str l) = l.
Proof. apply list_ascii_of_string_of_list_ascii. Qed.

Lemma str_chars (s : string) : str (chars s) = s.
Proof. apply string_of_list_ascii_of_string. Qed.

Lemma chars_append (a b : string) : chars (a +:+ b) = chars a ++ chars b.
Proof. unfold chars. induction a as [| x a IH]; [reflexivity |]. simpl. now f_equal. Qed.

Lemma split_lines_no_newline (text : string) :
  Forall (fun line => ~ In newline (chars line)) (split_lines text).
Proof.
  unfold split_lines. apply List.Forall_map.
  eapply List.Forall_impl; [| apply split_chars_no_sep].
  intros part H. now rewrite chars_str.
Qed.

Lemma split_join_lines (lines : list string) :
  lines <> [] ->
  Forall (fun line => ~ In newline (chars line)) lines ->
  split_lines (join_lines lines) = lines.
Proof.
  intros Hne Hall. unfold split_lines, join_lines.
  rewrite chars_str, split_chars_join.
  - rewrite List.map_map. rewrite <- (List.map_id lines) at 2.
    apply List.map_ext. intros line. apply str_chars.
  - destruct lines; [congruence | discriminate].
  - apply List.Forall_map. exact Hall.
Qed.

Lemma filter_lines_no_newline (invalid_urls : gset string) (text : string) :
  Forall (fun line => ~ In newline (chars line))
         (filter_lines invalid_urls (split_lines text)).
Proof.
  unfold filter_lines. apply List.Forall_forall. intros line Hin.
  apply List.filter_In in Hin as [Hin _].
  pose proof (split_lines_no_newline text) as H.
  rewrite List.Forall_forall in H. now apply H.
Qed.

(** The citations of the rewritten section are those of its kept lines. *)
Lemma citations_of_kept (invalid_urls : gset string) (text : string) :
  citations_of_text (join_lines (filter_lines invalid_urls (split_lines text)))
  = omap citation_of_line (filter_lines invalid_urls (split_lines text)).
Proof.
  unfold citations_of_text.
  destruct (filter_lines invalid_urls (split_lines text)) as [| l ls] eqn:E.
  - vm_compute. reflexivity.
  - rewrite split_join_lines; [reflexivity | discriminate |].
    rewrite <- E. apply filter_lines_no_newline.
Qed.

Lemma omap_filter_sublist {A B} (f : A -> option B) (p : A -> bool) (l : list A) :
  sublist (omap f (List.filter p l)) (omap f l).
Proof.
  induction l as [| a l IH]; simpl; [constructor |].
  destruct (p a); simpl.
  - destruct (f a); [now constructor | exact IH].
  - destruct (f a); [now constructor | exact IH].
Qed.

Lemma sublist_map {A B} (g : A -> B) (l1 l2 : list A) :
  sublist l1 l2 -> sublist (map g l1) (map g l2).
Proof. induction 1; simpl; now constructor. Qed.

(** C7, counterexample. The Sources section lists 1, 2, 3; source 2 is
    invalid; after the removal the section lists 1 and 3, which is not a
    gapless sequence from 1. *)
Lemma renumbering_counterexample :
  citation_numbers Samples.three_sources = [1; 2; 3]
  /\ _remove_invalid_urls_from_sources Samples.three_sources {[ "http://dead.example" ]}
     = "# Tea" +:+ nl +:+ "Tea came by sea [1]. It was costly [2]. It spread [3]." +:+ nl +:+ nl +:+
       "### Sources" +:+ nl +:+
       "[1] Good: http://good.example" +:+ nl +:+
       "[3] Fine: http://fine.example"
  /\ citation_numbers
       (_remove_invalid_urls_from_sources Samples.three_sources {[ "http://dead.example" ]})
     = [1; 3]
  /\ ~ gapless_from_one
         (citation_numbers
            (_remove_invalid_urls_from_sources Samples.three_sources {[ "http://dead.example" ]})).
Proof.
  split; [vm_compute; reflexivity |].
  split; [vm_compute; reflexivity |].
  split; [vm_compute; reflexivity |].
  unfold gapless_from_one.
  replace (citation_numbers
             (_remove_invalid_urls_from_sources Samples.three_sources {[ "http://dead.example" ]}))
    with [1; 3] by (vm_compute; reflexivity).
  simpl. discriminate.
Qed.

End SourcesSection.

(** ** The search for the Sources section, and the report after the removal *)

Section Engine.
Import Py Re Report Selects.

Lemma star_greedy_cons (p : ascii -> bool) (a : ascii) (s : list ascii) (c : captures)
    (k : list ascii -> captures -> option (list ascii * captures)) :
  rmatch (Star true (Chr p)) (a :: s) c k
  = if p a then
      match rmatch (Star true (Chr p)) s c k with
      | Some x => Some x
      | None => k (a :: s) c
      end
    else k (a :: s) c.
Proof.
  cbn [rmatch length]. destruct (p a); [| reflexivity].
  replace (length s <? S (length s))%nat with true by (symmetry; apply Nat.ltb_lt; lia).
  reflexivity.
Qed.

Lemma star_greedy_nil (p : ascii -> bool) (c : captures)
    (k : list ascii -> captures -> option (list ascii * captures)) :
  rmatch (Star true (Chr p)) [] c k = k [] c.
Proof. reflexivity. Qed.

Lemma star_lazy_cons (p : ascii -> bool) (a : ascii) (s : list ascii) (c : captures)
    (k : list ascii -> captures -> option (list ascii * captures)) :
  rmatch (Star false (Chr p)) (a :: s) c k
  = match k (a :: s) c with
    | Some x => Some x
    | None => if p a then rmatch (Star false (Chr p)) s c k else None
    end.
Proof.
  cbn [rmatch length]. destruct (k (a :: s) c); [reflexivity |]. destruct (p a); [| reflexivity].
  replace (length s <? S (length s))%nat with true by (symmetry; apply Nat.ltb_lt; lia).
  reflexivity.
Qed.

Lemma star_lazy_nil (p : ascii -> bool) (c : captures)
    (k : list ascii -> captures -> option (list ascii * captures)) :
  rmatch (Star false (Chr p)) [] c k = k [] c.
Proof. cbn. destruct (k [] c); reflexivity. Qed.

End Engine.

Section Patterns.
Import Py Re Report Selects.

Lemma rmatch_seq (r1 r2 : regex) (s : list ascii) (c : captures)
    (k : list ascii -> captures -> option (list ascii * captures)) :
  rmatch (Seq r1 r2) s c k = rmatch r1 s c (fun s1 c1 => rmatch r2 s1 c1 k).
Proof. reflexivity. Qed.

Lemma rmatch_alt (r1 r2 : regex) (s : list ascii) (c : captures)
    (k : list ascii -> captures -> option (list ascii * captures)) :
  rmatch (Alt r1 r2) s c k
  = match rmatch r1 s c k with
    | Some x => Some x
    | None => rmatch r2 s c k
    end.
Proof. reflexivity. Qed.

Lemma rmatch_lit (p : string) (s : list ascii) (c : captures) (k : list ascii -> captures -> option (list ascii * captures)) :
  rmatch (lit p) s c k
  = if starts_with (chars p) s then k (drop (length (chars p)) s) c else None.
Proof.
  unfold lit. revert s. induction (chars p) as [| a p' IH]; intros s; [reflexivity |].
  cbn [fold_right rmatch lit1 starts_with length drop]. destruct s as [| b s]; [reflexivity |].
  destruct (Ascii.eqb a b); [apply IH | reflexivity].
Qed.

Lemma rmatch_lit_nocase (p : string) (s : list ascii) (c : captures) (k : list ascii -> captures -> option (list ascii * captures)) :
  rmatch (lit_nocase p) s c k
  = if starts_with_nocase (chars p) s then k (drop (length (chars p)) s) c else None.
Proof.
  unfold lit_nocase. revert s. induction (chars p) as [| a p' IH]; intros s; [reflexivity |].
  cbn [fold_right rmatch lit1_nocase starts_with_nocase length drop].
  destruct s as [| b s]; [reflexivity |].
  destruct (Ascii.eqb (lower_char b) (lower_char a)); [apply IH | reflexivity].
Qed.

(** White space is no letter s. *)
Lemma space_not_s (a : ascii) :
  is_space a = true -> Ascii.eqb (lower_char a) (lower_char "s") = false.
Proof.
  destruct a as [[] [] [] [] [] [] [] []]; vm_compute; congruence.
Qed.

Lemma s_not_space (a : ascii) :
  Ascii.eqb (lower_char a) (lower_char "s") = true ->
  is_space a = false /\ Ascii.eqb newline a = false.
Proof.
  destruct a as [[] [] [] [] [] [] [] []]; vm_compute; intuition congruence.
Qed.

Lemma newline_is_space (a : ascii) : Ascii.eqb newline a = true -> is_space a = true.
Proof. intros H. apply Ascii.eqb_eq in H. now subst. Qed.

(** Greedy white space before something that does not start with white
    space takes all of it. *)
Lemma spaces_then (s : list ascii) (c : captures) (k : list ascii -> captures -> option (list ascii * captures)) :
  (forall a s' c', is_space a = true -> k (a :: s') c' = None) ->
  rmatch (Star true space) s c k = k (drop_while is_space s) c.
Proof.
  intros Hk. unfold space. induction s as [| a s IH]; [reflexivity |].
  rewrite star_greedy_cons. cbn [drop_while]. destruct (is_space a) eqn:Ea; [| reflexivity].
  rewrite IH. rewrite (Hk a s c Ea). now destruct (k (drop_while is_space s) c).
Qed.

(** Greedy white space before a line feed ends at the last line feed. *)
Lemma spaces_newline (s : list ascii) (c : captures) (k : list ascii -> captures -> option (list ascii * captures)) :
  (forall s' c', k s' c' <> None) ->
  rmatch (Star true space) s c (fun s1 c1 => rmatch (lit nl) s1 c1 k)
  = match last_newline s with
    | Some r => k r c
    | None => None
    end.
Proof.
  intros Hk. unfold space. induction s as [| a s IH]; [reflexivity |].
  rewrite star_greedy_cons, IH. cbn [last_newline].
  rewrite rmatch_lit. change (chars nl) with [newline]. cbn [starts_with length drop].
  rewrite andb_true_r.
  destruct (is_space a) eqn:Ea.
  - destruct (last_newline s) as [r |].
    + destruct (k r c) eqn:Ek; [reflexivity | now apply Hk in Ek].
    + now destruct (Ascii.eqb newline a).
  - destruct (Ascii.eqb newline a) eqn:En; [| reflexivity].
    apply newline_is_space in En. congruence.
Qed.

(** The heading, before a continuation that always accepts. *)
Lemma header_eval (s : list ascii) (c : captures) (k : list ascii -> captures -> option (list ascii * captures)) :
  (forall s' c', k s' c' <> None) ->
  rmatch sources_header_re s c k
  = match header_end s with
    | Some r => k r c
    | None => None
    end.
Proof.
  intros Hk. unfold sources_header_re, header_end.
  rewrite rmatch_seq, rmatch_lit. change (length (chars "###")) with 3%nat.
  destruct (starts_with (chars "###") s); [| reflexivity].
  cbv beta. rewrite rmatch_seq, spaces_then.
  2:{ intros a s' c' Ha. rewrite rmatch_seq, rmatch_lit_nocase.
      change (chars "source") with ("s"%char :: chars "ource").
      cbn [starts_with_nocase]. now rewrite (space_not_s a Ha). }
  rewrite rmatch_seq, rmatch_lit_nocase. change (length (chars "source")) with 6%nat.
  destruct (starts_with_nocase (chars "source") _); [| reflexivity].
  cbv beta. set (s2 := drop 6 _). rewrite rmatch_seq. unfold opt. rewrite rmatch_alt.
  rewrite rmatch_lit_nocase. change (chars "s") with ["s"%char].
  cbn [starts_with_nocase length]. unfold skip_s.
  destruct s2 as [| a s2].
  { change (rmatch Empty [] c ?k) with (k [] c). cbv beta. rewrite rmatch_seq.
    now rewrite spaces_newline. }
  rewrite andb_true_r. destruct (Ascii.eqb (lower_char a) (lower_char "s")) eqn:Ea.
  - cbn [drop]. change (rmatch Empty ?s ?c ?k) with (k s c). cbv beta.
    rewrite drop_0, !rmatch_seq, !spaces_newline by exact Hk.
    destruct (last_newline s2) as [r |].
    + destruct (k r c) eqn:Ek; [reflexivity | now apply Hk in Ek].
    + cbn [last_newline]. destruct (s_not_space a Ea) as [-> _]. reflexivity.
  - change (rmatch Empty ?s ?c ?k) with (k s c). cbv beta.
    now rewrite rmatch_seq, spaces_newline.
Qed.

(** The end of a section. *)
Lemma end_eval (s : list ascii) (c : captures) (k : list ascii -> captures -> option (list ascii * captures)) :
  rmatch section_end_re s c k = if stop s then k s c else None.
Proof.
  unfold section_end_re, stop. cbn [rmatch]. fold (lit (nl +:+ "###")). rewrite rmatch_lit.
  change (chars (nl +:+ "###")) with (newline :: chars "###").
  destruct (starts_with (newline :: chars "###") s); [reflexivity |].
  destruct s; reflexivity.
Qed.

(** The lazy run of characters up to the end of the section. *)
Lemma lazy_eval (g : list ascii -> captures -> list ascii * captures)
    (k : list ascii -> captures -> option (list ascii * captures))
    (s : list ascii) (c : captures) :
  (forall s2 c2, k s2 c2 = if stop s2 then Some (g s2 c2) else None) ->
  rmatch (Star false any_dotall) s c k = Some (g (lazy_rest s) c).
Proof.
  intros Hk. unfold any_dotall. induction s as [| a s IH].
  - rewrite star_lazy_nil, Hk. reflexivity.
  - rewrite star_lazy_cons, Hk. cbn [lazy_rest].
    destruct (stop (a :: s)); [reflexivity | exact IH].
Qed.

Lemma lazy_rest_stop (s : list ascii) : stop (lazy_rest s) = true.
Proof.
  induction s as [| a s IH]; [reflexivity |].
  cbn [lazy_rest]. destruct (stop (a :: s)) eqn:E; [exact E | exact IH].
Qed.

Lemma lazy_rest_suffix (s : list ascii) : exists t, s = t ++ lazy_rest s.
Proof.
  induction s as [| a s [t IH]]; [now exists [] |].
  cbn [lazy_rest]. destruct (stop (a :: s)); [now exists [] |].
  exists (a :: t). cbn. now f_equal.
Qed.

End Patterns.

Section Selection.
Import Py Re Report Selects.

Lemma rmatch_group (n : nat) (r : regex) (s : list ascii) (c : captures)
    (k : list ascii -> captures -> option (list ascii * captures)) :
  rmatch (Group n r) s c k
  = rmatch r s c (fun s' c' => k s' ((n, take (length s - length s') s) :: c')).
Proof. reflexivity. Qed.

(** The text of a section and its end, after the heading. *)
Lemma tail_eval (s : list ascii) (c : captures) :
  rmatch (Seq (Group 2 (Star false any_dotall)) section_end_re) s c
         (fun s' c' => Some (s', c'))
  = Some (lazy_rest s, (2%nat, take (length s - length (lazy_rest s)) s) :: c).
Proof.
  rewrite rmatch_seq, rmatch_group.
  apply (lazy_eval (fun s2 c2 => (s2, (2%nat, take (length s - length s2) s) :: c2))).
  intros s2 c2. apply end_eval.
Qed.

Lemma tail_eval_plain (s : list ascii) (c : captures) :
  rmatch (Seq (Star false any_dotall) section_end_re) s c (fun s' c' => Some (s', c'))
  = Some (lazy_rest s, c).
Proof.
  rewrite rmatch_seq.
  apply (lazy_eval (fun s2 c2 => (s2, c2))).
  intros s2 c2. apply end_eval.
Qed.

(** What the pattern of the Sources section matches at the head of a
    text: the heading, and the text up to the end of the section. *)
Lemma match_here_section (s : list ascii) :
  match_here sources_section_re s
  = match header_end s with
    | Some s1 =>
        Some (take (length s - length (lazy_rest s1)) s, lazy_rest s1,
              [(2%nat, take (length s1 - length (lazy_rest s1)) s1);
               (1%nat, take (length s - length s1) s)])
    | None => None
    end.
Proof.
  unfold match_here, sources_section_re. rewrite rmatch_seq, rmatch_group, header_eval.
  - destruct (header_end s) as [s1 |]; [| reflexivity]. now rewrite tail_eval.
  - intros s' c'. now rewrite tail_eval.
Qed.

Lemma match_here_section_plain (s : list ascii) :
  match_here sources_section_nogroup_re s
  = match header_end s with
    | Some s1 => Some (take (length s - length (lazy_rest s1)) s, lazy_rest s1, [])
    | None => None
    end.
Proof.
  unfold match_here, sources_section_nogroup_re. rewrite rmatch_seq, header_eval.
  - destruct (header_end s) as [s1 |]; [| reflexivity]. now rewrite tail_eval_plain.
  - intros s' c'. now rewrite tail_eval_plain.
Qed.

End Selection.

Section Headings.
Import Py Re Report Selects.

Lemma starts_with_split (p s : list ascii) :
  starts_with p s = true -> s = p ++ drop (length p) s.
Proof.
  revert s. induction p as [| a p IH]; intros s H; [now rewrite drop_0 |].
  destruct s as [| b s]; [discriminate |]. cbn in H.
  apply andb_true_iff in H as [Hab H]. apply Ascii.eqb_eq in Hab as ->.
  cbn. f_equal. now apply IH.
Qed.

Lemma starts_with_refl (p l : list ascii) : starts_with p (p ++ l) = true.
Proof.
  induction p as [| a p IH]; [reflexivity |]. cbn. now rewrite Ascii.eqb_refl.
Qed.

Lemma drop_while_split {A} (p : A -> bool) (l : list A) :
  exists ws, l = ws ++ drop_while p l /\ Forall (fun a => p a = true) ws.
Proof.
  induction l as [| a l (ws & Hl & Hws)]; [exists []; split; [reflexivity | constructor] |].
  cbn. destruct (p a) eqn:E.
  - exists (a :: ws). split; [cbn; now f_equal | now constructor].
  - exists []. split; [reflexivity | constructor].
Qed.

Lemma drop_while_app {A} (p : A -> bool) (ws l : list A) :
  Forall (fun a => p a = true) ws -> drop_while p (ws ++ l) = drop_while p l.
Proof. induction 1 as [| a ws Ha _ IH]; [reflexivity |]. cbn. now rewrite Ha. Qed.

Lemma starts_with_nocase_split (p s : list ascii) :
  starts_with_nocase p s = true ->
  exists q, s = q ++ drop (length p) s /\ length q = length p
            /\ forall r, starts_with_nocase p (q ++ r) = true.
Proof.
  revert s. induction p as [| a p IH]; intros s H.
  - exists []. rewrite drop_0. repeat split.
  - destruct s as [| b s]; [discriminate |]. cbn in H.
    apply andb_true_iff in H as [Hab H]. destruct (IH s H) as (q & Hs & Hlen & Hq).
    exists (b :: q). split; [cbn; now f_equal |]. split; [cbn; now f_equal |].
    intros r. cbn. now rewrite Hab, Hq.
Qed.

Lemma last_newline_split (s r : list ascii) :
  last_newline s = Some r ->
  exists ws, s = ws ++ newline :: r /\ Forall (fun a => is_space a = true) ws.
Proof.
  revert r. induction s as [| a s IH]; intros r H; [discriminate |].
  cbn in H. destruct (is_space a) eqn:Ea; [| discriminate].
  destruct (last_newline s) as [r' |].
  - injection H as <-. destruct (IH r' eq_refl) as (ws & -> & Hws).
    exists (a :: ws). split; [reflexivity | now constructor].
  - destruct (Ascii.eqb newline a) eqn:En; [| discriminate]. injection H as <-.
    apply Ascii.eqb_eq in En as <-. exists []. split; [reflexivity | constructor].
Qed.

Lemma last_newline_app (ws x : list ascii) :
  Forall (fun a => is_space a = true) ws ->
  last_newline (ws ++ newline :: x)
  = Some (match last_newline x with Some r => r | None => x end).
Proof.
  induction 1 as [| a ws Ha _ IH].
  - cbn. now destruct (last_newline x).
  - cbn. now rewrite Ha, IH.
Qed.

Lemma skip_s_split (s : list ascii) :
  skip_s s = s
  \/ exists a, s = a :: skip_s s /\ Ascii.eqb (lower_char a) (lower_char "s") = true.
Proof.
  destruct s as [| a s]; [now left |].
  cbn. destruct (Ascii.eqb (lower_char a) (lower_char "s")) eqn:E; [right; eauto | now left].
Qed.

Lemma skip_s_space (a : ascii) (s : list ascii) :
  is_space a = true -> skip_s (a :: s) = a :: s.
Proof. intros Ha. cbn. now rewrite (space_not_s a Ha). Qed.

(** The letters of the word are no hash, and neither is white space. *)
Lemma word_no_hash (q r : list ascii) :
  starts_with_nocase (chars "source") (q ++ r) = true ->
  length q = 6%nat ->
  Forall (fun a => a <> "#"%char) q
  /\ exists b q', q = b :: q' /\ is_space b = false.
Proof.
  intros H Hlen.
  destruct q as [| b1 [| b2 [| b3 [| b4 [| b5 [| b6 [| ? ?]]]]]]]; try discriminate.
  cbn in H. repeat (apply andb_true_iff in H as [? H]).
  split.
  - repeat constructor; intros ->; vm_compute in *; discriminate.
  - exists b1, [b2; b3; b4; b5; b6]. split; [reflexivity |].
    match goal with
    | E : Ascii.eqb (lower_char b1) _ = true |- _ => apply (s_not_space b1 E)
    end.
Qed.

Lemma space_no_hash (a : ascii) : is_space a = true -> a <> "#"%char.
Proof. intros H ->. discriminate. Qed.

Lemma s_no_hash (a : ascii) :
  Ascii.eqb (lower_char a) (lower_char "s") = true -> a <> "#"%char.
Proof. intros H ->. discriminate. Qed.

(** A heading at the head of a text: it is three hashes followed by
    characters that are no hash, and it stays a heading whatever follows
    it, taking in the blank lines that follow. *)
Lemma header_end_app (s r : list ascii) :
  header_end s = Some r ->
  exists m',
    s = chars "###" ++ m' ++ r
    /\ Forall (fun a => a <> "#"%char) m'
    /\ forall x,
         header_end (chars "###" ++ m' ++ x)
         = Some (match last_newline x with Some r' => r' | None => x end).
Proof.
  unfold header_end. destruct (starts_with (chars "###") s) eqn:E1; [| discriminate].
  apply starts_with_split in E1. change (length (chars "###")) with 3%nat in E1.
  destruct (drop_while_split is_space (drop 3 s)) as (ws1 & Hs0 & Hws1).
  destruct (starts_with_nocase (chars "source") (drop_while is_space (drop 3 s))) eqn:E2;
    [| discriminate].
  destruct (starts_with_nocase_split _ _ E2) as (src & Hs1 & Hlen & Hsrc).
  change (length (chars "source")) with 6%nat in Hs1, Hlen.
  intros H. destruct (last_newline_split _ _ H) as (ws2 & Hs3 & Hws2).
  destruct (word_no_hash src [] (Hsrc []) Hlen) as (Hnh & b & src' & -> & Hb).
  set (s1 := drop_while is_space (drop 3 s)) in *.
  assert (Ho : exists o,
             drop 6 s1 = o ++ ws2 ++ [newline] ++ r
             /\ Forall (fun a => a <> "#"%char) o
             /\ forall x, skip_s (o ++ ws2 ++ [newline] ++ x) = ws2 ++ [newline] ++ x).
  { destruct (skip_s_split (drop 6 s1)) as [Hsk | (a & Hsk & Ha)].
    - exists []. rewrite Hsk in Hs3. split; [exact Hs3 |]. split; [constructor |].
      intros x. destruct ws2 as [| a ws2]; [reflexivity |].
      apply skip_s_space. now inversion Hws2.
    - exists [a]. split; [rewrite Hsk at 1; cbn; f_equal; exact Hs3 |].
      split; [repeat constructor; now apply s_no_hash |].
      intros x. cbn. now rewrite Ha. }
  destruct Ho as (o & Hs2 & Hoh & Hskip).
  exists (ws1 ++ (b :: src') ++ o ++ ws2 ++ [newline]).
  split; [| split].
  - etransitivity; [exact E1 |]. f_equal. rewrite <- !List.app_assoc.
    etransitivity; [exact Hs0 |]. f_equal.
    etransitivity; [exact Hs1 |]. f_equal. exact Hs2.
  - repeat (apply Forall_app; split); try assumption.
    + eapply List.Forall_impl; [| exact Hws1]. intros a. apply space_no_hash.
    + eapply List.Forall_impl; [| exact Hws2]. intros a. apply space_no_hash.
    + repeat constructor. discriminate.
  - intros x. rewrite starts_with_refl. change (drop 3 (chars "###" ++ ?l)) with l.
    rewrite <- !List.app_assoc, drop_while_app by exact Hws1.
    change ((b :: src') ++ ?l) with (b :: src' ++ l). cbn [drop_while]. rewrite Hb.
    change (b :: src' ++ ?l) with ((b :: src') ++ l). rewrite Hsrc.
    rewrite drop_app_length' by (symmetry; exact Hlen).
    rewrite Hskip. now apply last_newline_app.
Qed.

End Headings.

Section Leftmost.
Import Py Re Report Selects.

(** Whether a heading starts before the three hashes of another one does
    not depend on what follows those hashes. *)
Lemma header_stable (pp x y : list ascii) :
  pp <> [] ->
  header_end (pp ++ chars "###" ++ x) = None ->
  header_end (pp ++ chars "###" ++ y) = None.
Proof.
  intros Hpp Hx.
  destruct (header_end (pp ++ chars "###" ++ y)) as [r |] eqn:E; [exfalso | reflexivity].
  destruct (header_end_app _ _ E) as (n' & Hs & Hnh & Hany).
  assert (Hlen : (3 + length n' <= length pp + 2)%nat).
  { destruct (Nat.le_gt_cases (3 + length n') (length pp + 2)) as [Hle | Hgt]; [exact Hle |].
    exfalso.
    assert (H1 : (pp ++ chars "###" ++ y) !! (length pp + 2)%nat = Some "#"%char).
    { rewrite lookup_app_r by lia.
      replace (length pp + 2 - length pp)%nat with 2%nat by lia. reflexivity. }
    rewrite Hs in H1.
    assert (Hpos : (0 < length pp)%nat) by (destruct pp; [congruence | cbn; lia]).
    rewrite lookup_app_r in H1 by (cbn; lia).
    change (length (chars "###")) with 3%nat in H1.
    rewrite lookup_app_l in H1 by lia.
    apply list_elem_of_lookup_2 in H1.
    rewrite List.Forall_forall in Hnh. apply list_elem_of_In in H1.
    now apply (Hnh _ H1). }
  assert (Hpre : forall z, take (3 + length n') (pp ++ chars "###" ++ z)
                           = take (3 + length n') (pp ++ chars "##")).
  { intros z. change (chars "###" ++ z) with (chars "##" ++ "#"%char :: z).
    rewrite List.app_assoc. apply take_app_le. rewrite length_app. cbn. lia. }
  assert (Hm : chars "###" ++ n' = take (3 + length n') (pp ++ chars "###" ++ y)).
  { rewrite Hs. rewrite List.app_assoc.
    rewrite take_app_length'; [reflexivity |]. rewrite length_app. reflexivity. }
  assert (Hx' : pp ++ chars "###" ++ x
                = chars "###" ++ n' ++ drop (3 + length n') (pp ++ chars "###" ++ x)).
  { transitivity (take (3 + length n') (pp ++ chars "###" ++ x)
                  ++ drop (3 + length n') (pp ++ chars "###" ++ x));
      [symmetry; apply take_drop |].
    rewrite (Hpre x), <- (Hpre y), <- Hm. now rewrite <- List.app_assoc. }
  rewrite Hx', Hany in Hx. discriminate.
Qed.

Lemma search_from_split (r : regex) (s m rest : list ascii) (c : captures) :
  search_from r s = Some (m, rest, c) ->
  exists pre s',
    s = pre ++ s'
    /\ match_here r s' = Some (m, rest, c)
    /\ forall q pp, pp <> [] -> pre = q ++ pp -> match_here r (pp ++ s') = None.
Proof.
  induction s as [| a s IH]; cbn [search_from]; intros H.
  - destruct (match_here r []) as [x |] eqn:E; [| discriminate]. injection H as ->.
    exists [], []. split; [reflexivity |]. split; [exact E |].
    intros q pp Hpp Hq. symmetry in Hq. apply app_eq_nil in Hq as [_ ->]. congruence.
  - destruct (match_here r (a :: s)) as [x |] eqn:E.
    + injection H as ->. exists [], (a :: s). split; [reflexivity |]. split; [exact E |].
      intros q pp Hpp Hq. symmetry in Hq. apply app_eq_nil in Hq as [_ ->]. congruence.
    + destruct (IH H) as (pre & s' & -> & Hm & Hleft).
      exists (a :: pre), s'. split; [reflexivity |]. split; [exact Hm |].
      intros q pp Hpp Hq. destruct q as [| b q].
      * cbn in Hq. subst pp. exact E.
      * injection Hq as _ Hq. now apply (Hleft q pp).
Qed.

Lemma search_from_skip (r : regex) (pre s' : list ascii) :
  (forall q pp, pp <> [] -> pre = q ++ pp -> match_here r (pp ++ s') = None) ->
  search_from r (pre ++ s') = search_from r s'.
Proof.
  induction pre as [| a pre IH]; intros Hleft; [reflexivity |].
  assert (E : match_here r (a :: pre ++ s') = None)
    by (apply (Hleft [] (a :: pre)); [discriminate | reflexivity]).
  cbn [app search_from]. rewrite E.
  apply IH. intros q pp Hpp Hq. apply (Hleft (a :: q) pp Hpp). cbn. now f_equal.
Qed.

Lemma sub_from_skip (r : regex) (repl pre s' : list ascii) (fuel : nat) :
  (forall q pp, pp <> [] -> pre = q ++ pp -> match_here r (pp ++ s') = None) ->
  sub_from r repl (length pre + fuel) (pre ++ s') = pre ++ sub_from r repl fuel s'.
Proof.
  induction pre as [| a pre IH]; intros Hleft; [reflexivity |].
  assert (E : match_here r (a :: pre ++ s') = None)
    by (apply (Hleft [] (a :: pre)); [discriminate | reflexivity]).
  cbn [app length Nat.add sub_from]. rewrite E.
  f_equal. apply IH. intros q pp Hpp Hq. apply (Hleft (a :: q) pp Hpp). cbn. now f_equal.
Qed.

End Leftmost.

Section Lines.
Import Py Re Report Selects.

Lemma lazy_rest_nil (s : list ascii) :
  lazy_rest s = [] <-> find_sub (newline :: chars "###") s = false.
Proof.
  induction s as [| a s IH]; [split; reflexivity |].
  cbn [lazy_rest find_sub]. unfold stop at 1.
  destruct (starts_with (newline :: chars "###") (a :: s)); cbn [orb].
  - split; discriminate.
  - exact IH.
Qed.

Lemma starts_with_line (p w y : list ascii) :
  ~ In newline p ->
  ~ In newline w ->
  starts_with p (w ++ newline :: y) = starts_with p w.
Proof.
  revert w. induction p as [| a p IH]; intros w Hp Hw; [reflexivity |].
  destruct w as [| b w]; cbn.
  - destruct (Ascii.eqb_spec a newline) as [-> | _]; [| reflexivity].
    exfalso. apply Hp. now left.
  - rewrite IH; [reflexivity | |]; intros H; [apply Hp | apply Hw]; now right.
Qed.

Lemma find_sub_line (w x : list ascii) :
  ~ In newline w ->
  find_sub (newline :: chars "###") (w ++ newline :: x)
  = starts_with (chars "###") x || find_sub (newline :: chars "###") x.
Proof.
  induction w as [| b w IH]; intros Hw.
  - cbn [app find_sub]. cbn [starts_with]. now rewrite Ascii.eqb_refl.
  - cbn [app find_sub]. cbn [starts_with].
    destruct (Ascii.eqb_spec newline b) as [<- | _]; [exfalso; apply Hw; now left |].
    cbn [andb orb]. apply IH. intros H. apply Hw. now right.
Qed.

Lemma find_sub_no_newline (w : list ascii) :
  ~ In newline w -> find_sub (newline :: chars "###") w = false.
Proof.
  induction w as [| b w IH]; intros Hw; [reflexivity |].
  cbn [find_sub starts_with].
  destruct (Ascii.eqb_spec newline b) as [<- | _]; [exfalso; apply Hw; now left |].
  cbn [andb orb]. apply IH. intros H. apply Hw. now right.
Qed.

(** A joined text has a line feed before three hashes exactly when one of
    its lines after the first starts with three hashes. *)
Lemma find_sub_join (ls : list (list ascii)) :
  Forall (fun l => ~ In newline l) ls ->
  find_sub (newline :: chars "###") (join_chars newline ls)
  = existsb (starts_with (chars "###")) (tail ls).
Proof.
  induction 1 as [| w ls Hw Hls IH]; [reflexivity |].
  destruct ls as [| w2 ls].
  - cbn. now apply find_sub_no_newline.
  - change (join_chars newline (w :: w2 :: ls))
      with (w ++ newline :: join_chars newline (w2 :: ls)).
    rewrite find_sub_line by exact Hw. rewrite IH. cbn [tail existsb]. f_equal.
    inversion Hls as [| ? ? Hw2 _]; subst.
    destruct ls as [| w3 ls]; [reflexivity |].
    change (join_chars newline (w2 :: w3 :: ls))
      with (w2 ++ newline :: join_chars newline (w3 :: ls)).
    apply starts_with_line; [| exact Hw2].
    cbn. intros [H | [H | [H | []]]]; discriminate.
Qed.

Lemma existsb_tail_filter {A} (f p : A -> bool) (ls : list A) :
  existsb f (tail ls) = false -> existsb f (tail (List.filter p ls)) = false.
Proof.
  assert (Hsub : forall l, existsb f l = false -> existsb f (List.filter p l) = false).
  { induction l as [| a l IH]; [reflexivity |]. cbn. intros H.
    apply orb_false_iff in H as [Ha Hl]. destruct (p a); cbn; [rewrite Ha |]; now apply IH. }
  assert (Htl : forall l, existsb f l = false -> existsb f (tail l) = false).
  { intros [| a l]; [reflexivity |]. cbn. intros H. now apply orb_false_iff in H as [_ Hl]. }
  destruct ls as [| a ls]; [reflexivity |]. cbn [tail List.filter]. intros H.
  destruct (p a); [now apply Hsub | now apply Htl, Hsub].
Qed.

Lemma find_sub_app_r (p a b : list ascii) :
  find_sub p (a ++ b) = false -> find_sub p b = false.
Proof.
  induction a as [| x a IH]; [trivial |]. cbn [app find_sub]. intros H.
  apply orb_false_iff in H as [_ H]. now apply IH.
Qed.

Lemma split_chars_sep (sep : ascii) (a b : list ascii) :
  split_chars sep (a ++ sep :: b) = split_chars sep a ++ split_chars sep b.
Proof.
  induction a as [| x a IH]; cbn [app split_chars].
  - now rewrite Ascii.eqb_refl.
  - destruct (Ascii.eqb x sep); [now rewrite IH |].
    rewrite IH. destruct (split_chars sep a) as [| w ws] eqn:E; [| reflexivity].
    now apply split_chars_nonempty in E.
Qed.

Lemma split_chars_forall (P : ascii -> Prop) (sep : ascii) (s : list ascii) :
  Forall P s -> Forall (Forall P) (split_chars sep s).
Proof.
  induction 1 as [| a s Ha _ IH]; cbn [split_chars]; [repeat constructor |].
  destruct (Ascii.eqb a sep); [constructor; [constructor | exact IH] |].
  destruct (split_chars sep s) as [| w ws]; [repeat constructor; exact Ha |].
  inversion IH; subst. constructor; [now constructor | assumption].
Qed.

Lemma join_split_chars (sep : ascii) (s : list ascii) :
  join_chars sep (split_chars sep s) = s.
Proof.
  induction s as [| a s IH]; [reflexivity |]. cbn [split_chars].
  destruct (Ascii.eqb_spec a sep) as [-> | _].
  - destruct (split_chars sep s) as [| w ws] eqn:E; [now apply split_chars_nonempty in E |].
    change (join_chars sep ([] :: w :: ws)) with (sep :: join_chars sep (w :: ws)).
    now rewrite IH.
  - destruct (split_chars sep s) as [| w ws] eqn:E; [now apply split_chars_nonempty in E |].
    rewrite <- IH. destruct ws; reflexivity.
Qed.

(** A line of white space lists no source. *)
Lemma blank_line_no_citation (w : list ascii) :
  Forall (fun a => is_space a = true) w -> citation_of_line (str w) = None.
Proof.
  intros Hw. unfold citation_of_line, search. rewrite chars_str.
  assert (H : search_from citation_re w = None); [| now rewrite H].
  induction Hw as [| a w Ha _ IH].
  - reflexivity.
  - cbn [search_from].
    assert (E : match_here citation_re (a :: w) = None).
    { unfold match_here, citation_re. rewrite rmatch_seq, rmatch_lit.
      change (chars "[") with ["["%char]. cbn [starts_with].
      destruct (Ascii.eqb_spec "["%char a) as [<- | _]; [discriminate | reflexivity]. }
    rewrite E. exact IH.
Qed.

Lemma citations_skip_blank (ws r : list ascii) :
  Forall (fun a => is_space a = true) ws ->
  citations_of_text (str (ws ++ newline :: r)) = citations_of_text (str r).
Proof.
  intros Hws. unfold citations_of_text, split_lines. rewrite !chars_str, split_chars_sep.
  rewrite List.map_app, omap_app.
  assert (H : omap citation_of_line (map str (split_chars newline ws)) = []).
  { pose proof (split_chars_forall _ newline ws Hws) as Hall.
    induction Hall as [| w l Hw _ IH]; [reflexivity |].
    change (omap citation_of_line (map str (w :: l)))
      with (match citation_of_line (str w) with
            | Some y => y :: omap citation_of_line (map str l)
            | None => omap citation_of_line (map str l)
            end).
    now rewrite (blank_line_no_citation w Hw). }
  now rewrite H.
Qed.

Lemma keeps_spec (invalid_urls : gset string) (line : string) :
  keeps invalid_urls line = true
  <-> set_Forall (fun u => contains u line = false) invalid_urls.
Proof.
  unfold keeps. rewrite negb_true_iff. split.
  - intros H u Hu. apply elem_of_elements in Hu.
    destruct (contains u line) eqn:E; [| reflexivity].
    assert (Hex : existsb (fun u => contains u line) (elements invalid_urls) = true).
    { apply existsb_exists. exists u. split; [now apply list_elem_of_In | exact E]. }
    congruence.
  - intros H. destruct (existsb _ _) eqn:E; [| reflexivity].
    apply existsb_exists in E as (u & Hu & Hc).
    apply list_elem_of_In, elem_of_elements in Hu. rewrite (H u Hu) in Hc. discriminate.
Qed.

End Lines.

Section Removal.
Import Py Re Report Selects.

Lemma search_from_here (r : regex) (s : list ascii) (x : list ascii * list ascii * captures) :
  match_here r s = Some x -> search_from r s = Some x.
Proof. intros H. destruct s; cbn [search_from]; now rewrite H. Qed.

Lemma sub_from_nil (repl : list ascii) (fuel : nat) :
  sub_from sources_section_nogroup_re repl fuel [] = [].
Proof. destruct fuel; [reflexivity |]. cbn [sub_from]. now rewrite match_here_section_plain. Qed.

Lemma filter_map_chars (p : string -> bool) (l : list (list ascii)) :
  map chars (List.filter p (map str l)) = List.filter (fun x => p (str x)) l.
Proof.
  induction l as [| x l IH]; [reflexivity |]. cbn [map List.filter].
  destruct (p (str x)); cbn [map]; now rewrite ?chars_str, IH.
Qed.

Lemma filter_keeps (invalid_urls : gset string) (lines : list string) :
  filter (fun line => set_Forall (fun u => contains u line = false) invalid_urls) lines
  = filter_lines invalid_urls lines.
Proof.
  unfold filter_lines. induction lines as [| l lines IH]; [reflexivity |].
  rewrite filter_cons. cbn [List.filter]. rewrite IH.
  destruct (keeps invalid_urls l) eqn:E.
  - rewrite decide_True by now apply keeps_spec. reflexivity.
  - rewrite decide_False; [reflexivity |]. intros H. apply keeps_spec in H. congruence.
Qed.

Lemma length_chars (s : string) : length (chars s) = String.length s.
Proof. unfold chars. induction s as [| a s IH]; [reflexivity |]. cbn. now rewrite IH. Qed.

Lemma str_app (a b : list ascii) : str (a ++ b) = str a +:+ str b.
Proof. unfold str. induction a as [| x a IH]; [reflexivity |]. cbn. now rewrite IH. Qed.

End Removal.

Section RemovalTheorem.
Import Py Re Report Selects.

(** The search of a report whose Sources section reaches the end of the
    text, taken apart: the text before the heading, the heading, which is
    three hashes followed by characters that are no hash, and the text of
    the section, in which no later line starts with three hashes. *)
Lemma last_section_split (report : string) (m : list ascii) (groups : captures) :
  search_from sources_section_re (chars report) = Some (m, [], groups) ->
  exists pre h' text,
    chars report = pre ++ (chars "###" ++ h') ++ text
    /\ m = (chars "###" ++ h') ++ text
    /\ groups = [(2%nat, text); (1%nat, chars "###" ++ h')]
    /\ header_end ((chars "###" ++ h') ++ text) = Some text
    /\ lazy_rest text = []
    /\ (forall x, header_end (chars "###" ++ h' ++ x)
                  = Some (match last_newline x with Some r => r | None => x end))
    /\ (forall q pp x, pp <> [] -> pre = q ++ pp ->
                       header_end (pp ++ chars "###" ++ x) = None).
Proof.
  intros Hs. destruct (search_from_split _ _ _ _ _ Hs) as (pre & s' & Hrep & Hm & Hleft).
  rewrite match_here_section in Hm.
  destruct (header_end s') as [s1 |] eqn:Eh; [| discriminate].
  injection Hm as Hm1 Hm2 Hm3.
  destruct (header_end_app _ _ Eh) as (h' & Hs' & _ & Hany).
  rewrite Hm2 in *. cbn [length] in *. rewrite Nat.sub_0_r in *.
  rewrite firstn_all in Hm1, Hm3.
  assert (Hh : take (length s' - length s1) s' = chars "###" ++ h').
  { rewrite Hs' at 2. rewrite List.app_assoc. apply take_app_length'.
    rewrite Hs'. rewrite !length_app. lia. }
  rewrite Hh in Hm3.
  exists pre, h', s1. rewrite <- List.app_assoc, <- Hs'.
  split; [exact Hrep |]. split; [now symmetry |]. split; [now symmetry |].
  split; [exact Eh |]. split; [exact Hm2 |]. split; [exact Hany |].
  intros q pp x Hpp Hq.
  apply (header_stable pp (h' ++ s1) x Hpp).
  specialize (Hleft q pp Hpp Hq). rewrite match_here_section, Hs' in Hleft.
  destruct (header_end (pp ++ chars "###" ++ h' ++ s1)); [discriminate | reflexivity].
Qed.

End RemovalTheorem.

Section RemovalProof.
Import Py Re Report Selects.

(** The kept lines of a section in which no later line starts with three
    hashes: joined again, no later line starts with three hashes. *)
Lemma kept_lines_free (invalid_urls : gset string) (text : list ascii) :
  lazy_rest text = [] ->
  find_sub (newline :: chars "###")
           (chars (join_lines (filter_lines invalid_urls (split_lines (str text)))))
  = false.
Proof.
  intros Hl. apply lazy_rest_nil in Hl.
  unfold join_lines, split_lines, filter_lines. rewrite !chars_str, filter_map_chars.
  rewrite find_sub_join.
  - apply existsb_tail_filter. rewrite <- find_sub_join by apply split_chars_no_sep.
    now rewrite join_split_chars.
  - apply List.Forall_forall. intros l Hin. apply List.filter_In in Hin as [Hin _].
    pose proof (split_chars_no_sep newline text) as H.
    rewrite List.Forall_forall in H. now apply H.
Qed.

(** The blank lines at the head of a text, which the heading takes in,
    list no source and hide no end of the section. *)
Lemma after_blank_lines (f : list ascii) :
  find_sub (newline :: chars "###") f = false ->
  lazy_rest (match last_newline f with Some r => r | None => f end) = []
  /\ citations_of_text (str (match last_newline f with Some r => r | None => f end))
     = citations_of_text (str f).
Proof.
  intros Hf. destruct (last_newline f) as [r |] eqn:E.
  - destruct (last_newline_split _ _ E) as (ws & -> & Hws). split.
    + apply lazy_rest_nil.
      apply (find_sub_app_r _ (ws ++ [newline]) r). now rewrite <- List.app_assoc.
    + symmetry. now apply citations_skip_blank.
  - split; [now apply lazy_rest_nil | reflexivity].
Qed.

(** C7 (as the code has it). A report without a Sources section is
    returned unchanged.  For a report whose Sources section runs to the
    end of the text, as the report prompts ask for, the returned report is
    the text before the section, the heading of the section and those of
    its lines that mention no invalid URL, unchanged and in their order.
    The citation numbers of the returned report's Sources section are the
    numbers of these lines: a subsequence of the numbers of the original
    section, with nothing renumbered. *)
Theorem removal_keeps_citation_numbers (report : string) (invalid_urls : gset string) :
  (search sources_section_re report = None ->
   _remove_invalid_urls_from_sources report invalid_urls = report)
  /\ (forall m groups,
         search_from sources_section_re (chars report) = Some (m, [], groups) ->
         let lines := split_lines (str (group 2 groups)) in
         let kept :=
           filter (fun line => set_Forall (fun u => contains u line = false) invalid_urls)
                  lines in
         (exists before,
             report = before +:+ str m
             /\ _remove_invalid_urls_from_sources report invalid_urls
                = before +:+ str (group 1 groups) +:+ join_lines kept)
         /\ citation_numbers report = map fst (omap citation_of_line lines)
         /\ citation_numbers (_remove_invalid_urls_from_sources report invalid_urls)
            = map fst (omap citation_of_line kept)
         /\ sublist (citation_numbers
                       (_remove_invalid_urls_from_sources report invalid_urls))
                    (citation_numbers report)).
Proof.
  split.
  { intros H. unfold _remove_invalid_urls_from_sources. now rewrite H. }
  intros m groups Hs lines kept.
  destruct (last_section_split report m groups Hs)
    as (pre & h' & text & Hrep & -> & -> & Eh & Hlazy & Hany & Hleft).
  cbn [group Nat.eqb] in lines, kept |- *.
  assert (Hkept : kept = filter_lines invalid_urls lines) by apply filter_keeps.
  set (f := chars (join_lines kept)).
  assert (Hf : find_sub (newline :: chars "###") f = false).
  { unfold f. rewrite Hkept. now apply kept_lines_free. }
  assert (Hsearch : search sources_section_re report
                    = Some (str ((chars "###" ++ h') ++ text),
                            [(2%nat, text); (1%nat, chars "###" ++ h')]))
    by (unfold search; now rewrite Hs).
  (* the returned report *)
  assert (Hres : _remove_invalid_urls_from_sources report invalid_urls
                 = str (pre ++ (chars "###" ++ h') ++ f)).
  { unfold _remove_invalid_urls_from_sources. rewrite Hsearch.
    cbn [group Nat.eqb]. fold lines. rewrite <- Hkept. unfold sub. f_equal.
    rewrite chars_append, chars_str. fold f.
    rewrite <- length_chars, Hrep, length_app.
    replace (S (length pre + length ((chars "###" ++ h') ++ text)))
      with (length pre + S (length ((chars "###" ++ h') ++ text)))%nat by lia.
    rewrite sub_from_skip.
    2:{ intros q pp Hpp Hq. rewrite match_here_section_plain, <- !List.app_assoc.
        now rewrite (Hleft q pp _ Hpp Hq). }
    f_equal. cbn [sub_from]. rewrite match_here_section_plain, Eh, Hlazy.
    cbn [length]. rewrite Nat.sub_0_r, firstn_all.
    cbn [app]. rewrite sub_from_nil. now rewrite List.app_nil_r. }
  (* its Sources section *)
  assert (Htext : sources_text_of (_remove_invalid_urls_from_sources report invalid_urls)
                  = Some (str (match last_newline f with Some r => r | None => f end))).
  { rewrite Hres. unfold sources_text_of, search. rewrite chars_str.
    rewrite search_from_skip.
    2:{ intros q pp Hpp Hq. rewrite match_here_section, <- !List.app_assoc.
        now rewrite (Hleft q pp _ Hpp Hq). }
    destruct (after_blank_lines f Hf) as [Hl _].
    erewrite search_from_here.
    2:{ rewrite match_here_section, <- List.app_assoc, Hany, Hl. reflexivity. }
    cbn [group Nat.eqb length]. now rewrite Nat.sub_0_r, firstn_all. }
  assert (Hold : citation_numbers report = map fst (omap citation_of_line lines)).
  { unfold citation_numbers, sources_text_of. rewrite Hsearch. reflexivity. }
  assert (Hnew : citation_numbers (_remove_invalid_urls_from_sources report invalid_urls)
                 = map fst (omap citation_of_line kept)).
  { unfold citation_numbers. rewrite Htext.
    destruct (after_blank_lines f Hf) as [_ ->]. unfold f. rewrite str_chars.
    rewrite Hkept. unfold lines. now rewrite citations_of_kept. }
  split.
  { exists (str pre). split.
    - rewrite <- (str_chars report), Hrep. apply str_app.
    - rewrite Hres, (str_app pre), (str_app (chars "###" ++ h') f).
      unfold f. now rewrite str_chars. }
  split; [exact Hold |]. split; [exact Hnew |].
  rewrite Hnew, Hold, Hkept. apply sublist_map. apply omap_filter_sublist.
Qed.

End RemovalProof.

Section RemovalExamples.
Import Py Re Report.

(** An instance: the report with three sources, the second of them dead. *)
Lemma removal_keeps_citation_numbers_witness :
  exists m groups,
    search_from sources_section_re (chars Samples.three_sources) = Some (m, [], groups)
    /\ citation_numbers Samples.three_sources = [1; 2; 3]
    /\ citation_numbers
         (_remove_invalid_urls_from_sources Samples.three_sources {[ "http://dead.example" ]})
       = [1; 3]
    /\ sublist (citation_numbers
                  (_remove_invalid_urls_from_sources Samples.three_sources
                     {[ "http://dead.example" ]}))
               (citation_numbers Samples.three_sources).
Proof.
  destruct (search_from sources_section_re (chars Samples.three_sources))
    as [[[m rest] groups] |] eqn:E; [| vm_compute in E; discriminate].
  assert (Hrest : rest = []) by (vm_compute in E; now injection E as _ <- _).
  subst rest. exists m, groups. split; [reflexivity |].
  destruct (removal_keeps_citation_numbers Samples.three_sources {[ "http://dead.example" ]})
    as [_ H].
  destruct (H m groups E) as (_ & Hold & Hnew & Hsub).
  split; [vm_compute; reflexivity |]. split; [| exact Hsub].
  rewrite Hnew. vm_compute in E. injection E as _ <-. vm_compute. reflexivity.
Defined.

(** Why the section has to be the last one: when every line of a Sources
    section is removed, the heading takes in the blank line after it, and
    what is then read as the section is the text of the next heading. *)
Example later_section_read_as_sources :
  let report :=
    "### Sources" +:+ nl +:+ "[2] Dead: http://dead.example" +:+ nl +:+ nl +:+
    "### Appendix" +:+ nl +:+ "[7] Good: http://good.example" in
  citation_numbers report = [2]
  /\ citation_numbers (_remove_invalid_urls_from_sources report {[ "http://dead.example" ]})
     = [7].
Proof. split; vm_compute; reflexivity. Qed.

End RemovalExamples.


(** * Further properties of the code *)

(** ** Retries and the validation table *)

Section Retries.
Import Py Evaluator Evaluation.

Variable w : World.

(** The attempts [a, a+1, ..., a+n-1]. *)
Lemma range_from_zero (n : Z) : range n = map Z.of_nat (seq 0 (Z.to_nat n)).
Proof. reflexivity. Qed.

Lemma requests_app (l1 l2 : list event) : requests (l1 ++ l2) = requests l1 ++ requests l2.
Proof. unfold requests. apply List.filter_app. Qed.

Lemma pauses_app (l1 l2 : list event) : pauses (l1 ++ l2) = pauses l1 ++ pauses l2.
Proof. unfold pauses. apply List.filter_app. Qed.

Lemma retry_loop_cons (url : string) (max_retries attempt : Z) (rest : list Z)
    (log : list event) :
  retry_loop w url max_retries (attempt :: rest) log
  = if (_make_url_request w url attempt).1 || (max_retries <=? attempt)
    then (_make_url_request w url attempt, log ++ [EvGet url attempt])
    else retry_loop w url max_retries rest ((log ++ [EvGet url attempt]) ++ [EvSleep 1]).
Proof. simpl. destruct (_make_url_request w url attempt) as [v s]. reflexivity. Qed.

(** The loop over the attempts [a .. a+n], where [a+n] is the last
    attempt allowed: it stops at the first valid attempt [k], or at the last
    one, after one request per attempt up to [k] and one pause before each
    of them but the first. *)
Lemma retry_loop_stops (url : string) (max_retries : Z) (n : nat) :
  forall (a : nat) (log : list event),
    Z.of_nat (a + n) = max_retries ->
    exists k : nat,
      (a <= k <= a + n)%nat
      /\ (retry_loop w url max_retries (map Z.of_nat (seq a (S n))) log).1
         = _make_url_request w url (Z.of_nat k)
      /\ (forall j, (a <= j < k)%nat -> (_make_url_request w url (Z.of_nat j)).1 = false)
      /\ ((_make_url_request w url (Z.of_nat k)).1 = false -> k = (a + n)%nat)
      /\ requests (retry_loop w url max_retries (map Z.of_nat (seq a (S n))) log).2
         = requests log ++ map (fun j => EvGet url (Z.of_nat j)) (seq a (S (k - a)))
      /\ pauses (retry_loop w url max_retries (map Z.of_nat (seq a (S n))) log).2
         = pauses log ++ repeat (EvSleep 1) (k - a).
Proof.
  induction n as [| n IH]; intros a log Hmr.
  - exists a. change (seq a 1) with [a]. rewrite List.map_cons, retry_loop_cons.
    assert (Hlast : (max_retries <=? Z.of_nat a) = true) by (apply Z.leb_le; lia).
    rewrite Hlast, orb_true_r. cbn [fst snd].
    rewrite requests_app, pauses_app, Nat.sub_diag. simpl. rewrite app_nil_r.
    split; [lia |]. split; [reflexivity |].
    split; [intros j Hj; lia |]. split; [intros _; lia |]. split; reflexivity.
  - change (seq a (S (S n))) with (a :: seq (S a) (S n)).
    rewrite List.map_cons, retry_loop_cons.
    assert (Hnot : (max_retries <=? Z.of_nat a) = false) by (apply Z.leb_gt; lia).
    rewrite Hnot, orb_false_r.
    destruct (_make_url_request w url (Z.of_nat a)).1 eqn:E.
    + exists a. cbn [fst snd].
      rewrite requests_app, pauses_app, Nat.sub_diag. simpl. rewrite app_nil_r.
      split; [lia |]. split; [reflexivity |].
      split; [intros j Hj; lia |]. split; [congruence |]. split; reflexivity.
    + destruct (IH (S a) ((log ++ [EvGet url (Z.of_nat a)]) ++ [EvSleep 1]))
        as (k & Hk & Hr & Hbefore & Hlast & Hreq & Hpause); [lia |].
      exists k. split; [lia |]. split; [exact Hr |].
      split.
      { intros j Hj. destruct (Nat.eq_dec j a) as [-> | Hne]; [exact E |].
        apply Hbefore. lia. }
      split; [intros Hf; rewrite (Hlast Hf); lia |].
      split.
      * rewrite Hreq, !requests_app.
        change (requests [EvSleep 1]) with (@nil event).
        change (requests [EvGet url (Z.of_nat a)]) with [EvGet url (Z.of_nat a)].
        rewrite List.app_nil_r, <- List.app_assoc.
        replace (S (k - a)) with (S (S (k - S a))) by lia. reflexivity.
      * rewrite Hpause, !pauses_app.
        change (pauses [EvSleep 1]) with [EvSleep 1].
        change (pauses [EvGet url (Z.of_nat a)]) with (@nil event).
        rewrite List.app_nil_r, <- List.app_assoc.
        replace (k - a)%nat with (S (k - S a)) by lia. reflexivity.
Qed.

(** X1. When the first attempt is valid, no retry occurs: exactly one
    request is made, there is no pause, and the reported verdict and status
    are those of the first attempt. *)
Theorem first_valid_attempt_no_retry (url : string) (max_retries s : Z) :
  0 <= max_retries ->
  _make_url_request w url 0 = (true, s) ->
  _validate_url_with_retry w url max_retries = ((true, s), [EvGet url 0]).
Proof.
  intros Hmr H1. unfold _validate_url_with_retry, range.
  destruct (Z.to_nat (max_retries + 1)) as [| n] eqn:En; [lia |].
  change (seq 0 (S n)) with (0%nat :: seq 1 n).
  rewrite List.map_cons, retry_loop_cons. change (Z.of_nat 0) with 0.
  rewrite H1. reflexivity.
Qed.

(** X2. The retry loop reports the first valid attempt, or the last of its
    [max_retries + 1] attempts when none is valid: it makes one request per
    attempt up to the reported one, pauses once between two requests and
    never after the last, and so makes at most [max_retries + 1] requests. *)
Theorem retry_reports_first_valid_or_last (url : string) (max_retries : Z) :
  0 <= max_retries ->
  exists k : nat,
    Z.of_nat k <= max_retries
    /\ (_validate_url_with_retry w url max_retries).1 = _make_url_request w url (Z.of_nat k)
    /\ (forall j, (j < k)%nat -> (_make_url_request w url (Z.of_nat j)).1 = false)
    /\ ((_validate_url_with_retry w url max_retries).1.1 = false -> Z.of_nat k = max_retries)
    /\ requests (_validate_url_with_retry w url max_retries).2
       = map (fun j => EvGet url (Z.of_nat j)) (seq 0 (S k))
    /\ pauses (_validate_url_with_retry w url max_retries).2 = repeat (EvSleep 1) k.
Proof.
  intros Hmr. unfold _validate_url_with_retry, range.
  replace (Z.to_nat (max_retries + 1)) with (S (Z.to_nat max_retries)) by lia.
  destruct (retry_loop_stops url max_retries (Z.to_nat max_retries) 0%nat [])
    as (k & Hk & Hr & Hbefore & Hlast & Hreq & Hpause); [simpl; lia |].
  exists k. rewrite Nat.sub_0_r in *. simpl in Hreq, Hpause.
  split; [lia |]. split; [exact Hr |].
  split; [intros j Hj; apply Hbefore; lia |].
  split; [| split; [exact Hreq | exact Hpause]].
  intros Hf. rewrite Hr in Hf. rewrite (Hlast Hf). simpl. lia.
Qed.

End Retries.

Section RetriesExamples.
Import Py Evaluator Evaluation.

Lemma first_valid_attempt_no_retry_witness :
  0 <= 2
  /\ _make_url_request Samples.mute_world "http://good.example" 0 = (true, 200)
  /\ _validate_url_with_retry Samples.mute_world "http://good.example" 2
     = ((true, 200), [EvGet "http://good.example" 0]).
Proof.
  assert (H1 : _make_url_request Samples.mute_world "http://good.example" 0 = (true, 200))
    by (vm_compute; reflexivity).
  split; [lia |]. split; [exact H1 |].
  apply (first_valid_attempt_no_retry Samples.mute_world "http://good.example" 2 200);
    [lia | exact H1].
Defined.

Lemma retry_reports_first_valid_or_last_witness :
  0 <= 2
  /\ exists k : nat,
       Z.of_nat k <= 2
       /\ (_validate_url_with_retry Samples.mute_world "http://dead.example" 2).1
          = _make_url_request Samples.mute_world "http://dead.example" (Z.of_nat k)
       /\ (forall j, (j < k)%nat ->
                     (_make_url_request Samples.mute_world "http://dead.example"
                        (Z.of_nat j)).1 = false)
       /\ ((_validate_url_with_retry Samples.mute_world "http://dead.example" 2).1.1 = false
           -> Z.of_nat k = 2)
       /\ requests (_validate_url_with_retry Samples.mute_world "http://dead.example" 2).2
          = map (fun j => EvGet "http://dead.example" (Z.of_nat j)) (seq 0 (S k))
       /\ pauses (_validate_url_with_retry Samples.mute_world "http://dead.example" 2).2
          = repeat (EvSleep 1) k.
Proof.
  split; [lia |].
  apply (retry_reports_first_valid_or_last Samples.mute_world "http://dead.example" 2).
  lia.
Defined.

End RetriesExamples.

(** ** Verdicts and the validation table *)

Section ValidationTable.
Import Py Dataclasses Evaluator Evaluation.

Variable w : World.

Lemma make_url_request_agrees (url : string) (attempt : Z) :
  status_agrees (_make_url_request w url attempt).
Proof.
  unfold _make_url_request, status_agrees.
  destruct (http_get w url attempt) as [s text | | |];
    try (simpl; split; [discriminate | intros _; now left]).
  pose proof (check_response_status_code s text) as Hs.
  pose proof (check_response_status_valid s text) as Hv.
  destruct (_check_response_status s text) as [v s']. simpl in *. subst s'.
  split; intros Hval; subst v.
  - destruct Hv as [Hv _]. specialize (Hv eq_refl). lia.
  - assert (Hn : ~ ((200 <= s < 300 /\ error_page text = false)
                    \/ s < 200 \/ 300 <= s < 400 \/ s = 401 \/ s = 403 \/ s = 429)).
    { intros H. apply Hv in H. discriminate. }
    lia.
Qed.

Lemma retry_loop_agrees (url : string) (max_retries : Z) (attempts : list Z) :
  forall log, status_agrees (retry_loop w url max_retries attempts log).1.
Proof.
  induction attempts as [| a rest IH]; intros log.
  - simpl. split; [discriminate | intros _; now left].
  - rewrite retry_loop_cons.
    destruct ((_make_url_request w url a).1 || (max_retries <=? a)); [| apply IH].
    apply make_url_request_agrees.
Qed.

(** X3. The verdict of [validate_url] agrees with the status it reports:
    a URL reported valid has a status below 400 or one of 401, 403, 429;
    a URL reported invalid has status 0 (rejected, timed out or failed), a
    2xx status (an error page), or a status from 400 that is none of 401,
    403, 429. *)
Theorem validate_url_verdict_agrees_with_status (url : string) (max_retries : Z)
    (r : bool * Z) (log : list event) :
  validate_url w url max_retries = Ok (r, log) ->
  (r.1 = true -> r.2 < 400 \/ r.2 = 401 \/ r.2 = 403 \/ r.2 = 429)
  /\ (r.1 = false ->
      r.2 = 0 \/ 200 <= r.2 < 300
      \/ (400 <= r.2 /\ r.2 <> 401 /\ r.2 <> 403 /\ r.2 <> 429)).
Proof.
  unfold validate_url. intros H.
  destruct (urlparse w _) as [parsed |]; cbn [Py.bind] in H; [| discriminate].
  destruct (String.eqb (scheme parsed) "" || String.eqb (netloc parsed) "").
  - injection H as <- _. simpl. split; [discriminate | intros _; now left].
  - injection H as H. unfold _validate_url_with_retry in H.
    pose proof (retry_loop_agrees (rstrip ".,;:!?)" url) max_retries
                  (range (max_retries + 1)) []) as Ha.
    rewrite H in Ha. exact Ha.
Qed.

Lemma dict_lookup_set {V} (d : list (string * V)) (k k' : string) (v : V) :
  dict_lookup (dict_set d k v) k'
  = if String.eqb k k' then Some v else dict_lookup d k'.
Proof.
  induction d as [| [k0 v0] d IH]; simpl.
  - reflexivity.
  - destruct (String.eqb_spec k0 k) as [-> | Hne]; simpl.
    + destruct (String.eqb k k'); reflexivity.
    + rewrite IH. destruct (String.eqb_spec k k') as [<- | Hne'].
      * apply String.eqb_neq in Hne. now rewrite Hne.
      * reflexivity.
Qed.

Lemma dict_set_keys {V} (d : list (string * V)) (k : string) (v : V) :
  forall k', In k' (map fst (dict_set d k v)) <-> k' = k \/ In k' (map fst d).
Proof.
  induction d as [| [k0 v0] d IH]; intros k'; simpl.
  - intuition.
  - destruct (String.eqb_spec k0 k) as [-> | Hne]; simpl.
    + intuition.
    + rewrite IH. intuition.
Qed.

Lemma dict_set_NoDup {V} (d : list (string * V)) (k : string) (v : V) :
  NoDup (map fst d) -> NoDup (map fst (dict_set d k v)).
Proof.
  induction d as [| [k0 v0] d IH]; simpl; intros H.
  - constructor; [rewrite list_elem_of_In; intros [] | constructor].
  - inversion H as [| ? ? Hnotin Hnd]; subst.
    destruct (String.eqb_spec k0 k) as [-> | Hne]; simpl.
    + constructor; assumption.
    + constructor; [| now apply IH].
      rewrite list_elem_of_In, dict_set_keys. rewrite list_elem_of_In in Hnotin.
      intros [-> | Hin]; [congruence | contradiction].
Qed.

Lemma validate_urls_fold (urls : list string) :
  validate_urls w urls = fold_left (store w) urls [].
Proof. reflexivity. Qed.

Lemma store_lookup (results : list (string * (bool * Z))) (u url : string) :
  dict_lookup (store w results u) url
  = if String.eqb u url
    then match verdict w url with
         | Some r => Some r
         | None => dict_lookup results url
         end
    else dict_lookup results url.
Proof.
  unfold store, verdict.
  destruct (String.eqb_spec u url) as [-> | Hne].
  - destruct (validate_url w url 2) as [[r l] |]; [| reflexivity].
    rewrite dict_lookup_set, String.eqb_refl. reflexivity.
  - destruct (validate_url w u 2) as [[r l] |]; [| reflexivity].
    rewrite dict_lookup_set. apply String.eqb_neq in Hne. now rewrite Hne.
Qed.

Lemma fold_store_lookup (urls : list string) (url : string) :
  forall results,
    dict_lookup (fold_left (store w) urls results) url
    = if existsb (String.eqb url) urls
      then match verdict w url with
           | Some r => Some r
           | None => dict_lookup results url
           end
      else dict_lookup results url.
Proof.
  induction urls as [| u us IH]; intros results; simpl; [reflexivity |].
  rewrite IH, store_lookup. rewrite (String.eqb_sym url u).
  destruct (String.eqb u url); simpl.
  - destruct (existsb (String.eqb url) us); destruct (verdict w url); reflexivity.
  - reflexivity.
Qed.

Lemma fold_store_NoDup (urls : list string) :
  forall results,
    NoDup (map fst results) -> NoDup (map fst (fold_left (store w) urls results)).
Proof.
  induction urls as [| u us IH]; intros results H; simpl; [exact H |].
  apply IH. unfold store.
  destruct (validate_url w u 2) as [[r l] |]; [now apply dict_set_NoDup | exact H].
Qed.

Lemma fold_store_keys (urls : list string) :
  forall results k,
    In k (map fst (fold_left (store w) urls results)) -> In k urls \/ In k (map fst results).
Proof.
  induction urls as [| u us IH]; intros results k H; simpl in *; [now right |].
  apply IH in H as [H | H]; [left; now right |].
  unfold store in H. destruct (validate_url w u 2) as [[r l] |]; [| now right].
  apply dict_set_keys in H as [-> | H]; [left; now left | now right].
Qed.

(** X4. The table of [validate_urls] has one entry per URL, under distinct
    keys that all are given URLs: looking up a given URL yields the verdict
    of [validate_url] with its default of two retries, and a URL whose
    validation raises, like a URL that was not given, has no entry. *)
Theorem validate_urls_table (urls : list string) (url : string) :
  dict_lookup (validate_urls w urls) url
  = (if existsb (String.eqb url) urls then verdict w url else None)
  /\ NoDup (map fst (validate_urls w urls))
  /\ (forall k, In k (map fst (validate_urls w urls)) -> In k urls).
Proof.
  rewrite validate_urls_fold. split; [| split].
  - rewrite fold_store_lookup. simpl.
    destruct (existsb (String.eqb url) urls); [destruct (verdict w url) |]; reflexivity.
  - apply fold_store_NoDup. constructor.
  - intros k H. apply fold_store_keys in H as [H | []]. exact H.
Qed.

Lemma dict_lookup_In {V} (d : list (string * V)) (k : string) (v : V) :
  NoDup (map fst d) -> (In (k, v) d <-> dict_lookup d k = Some v).
Proof.
  induction d as [| [k0 v0] d IH]; simpl; intros Hnd.
  - split; [intros [] | discriminate].
  - inversion Hnd as [| ? ? Hnotin Hnd']; subst.
    destruct (String.eqb_spec k0 k) as [-> | Hne].
    + split.
      * intros [H | H]; [congruence |]. exfalso. apply Hnotin.
        rewrite list_elem_of_In. apply (List.in_map fst) in H. exact H.
      * intros H. left. congruence.
    + rewrite <- (IH Hnd'). split; [intros [H | H]; [congruence | exact H] | now right].
Qed.

Lemma existsb_eqb_In (url : string) (l : list string) :
  existsb (String.eqb url) l = true <-> In url l.
Proof.
  rewrite existsb_exists. split.
  - intros (x & Hin & Hx). apply String.eqb_eq in Hx. now subst.
  - intros H. exists url. split; [exact H | apply String.eqb_refl].
Qed.

(** The URLs that [_analyze_sources] takes as valid. *)
Lemma valid_list_spec (sources : list string) (url : string) :
  In url sources ->
  (In url (map fst (filter (fun entry : string * (bool * Z) => entry.2.1 = true)
                           (validate_urls w sources)))
   <-> exists s, verdict w url = Some (true, s)).
Proof.
  intros Hin.
  assert (Hnd : NoDup (map fst (validate_urls w sources)))
    by (rewrite validate_urls_fold; apply fold_store_NoDup; constructor).
  assert (Hlook : dict_lookup (validate_urls w sources) url = verdict w url).
  { rewrite validate_urls_fold, fold_store_lookup. simpl.
    apply existsb_eqb_In in Hin. rewrite Hin. destruct (verdict w url); reflexivity. }
  rewrite List.in_map_iff. split.
  - intros ([k [v s]] & Hk & He). simpl in Hk. subst k.
    apply list_elem_of_In, list_elem_of_filter in He as [Hv He]. simpl in Hv. subst v.
    apply list_elem_of_In in He. apply (dict_lookup_In _ _ _ Hnd) in He.
    exists s. congruence.
  - intros [s Hs]. exists (url, (true, s)). split; [reflexivity |].
    apply list_elem_of_In, list_elem_of_filter. split; [reflexivity |].
    apply list_elem_of_In, (dict_lookup_In _ _ _ Hnd). congruence.
Qed.

(** X5. When the reply of the source audit parses, the invalid sources of
    the returned record are, in the order given, exactly the sources whose
    validation did not come out valid, a validation that raised included;
    and the count of valid sources is at most the number of sources. *)
Theorem analyzed_invalid_sources (report : string) (sources : list string)
    (content : string) (analysis : gmap string json) (r : SourceQualityMetrics) :
  evaluator_model w (source_audit_prompt w report sources) = Ok content ->
  nonempty_dict (_parse_json_response w content) = Some analysis ->
  _analyze_sources w report sources = Ok r ->
  invalid_sources r
  = List.filter (fun url => match verdict w url with
                            | Some (true, _) => false
                            | _ => true
                            end) sources
  /\ 0 <= valid_sources r <= len_Z sources.
Proof.
  intros Hm Hp H. unfold _analyze_sources in H. unfold source_audit_prompt in Hm.
  rewrite Hm in H. cbn [Py.bind] in H. rewrite Hp in H.
  unfold _parse_source_analysis_response in H.
  destruct (iter _) as [items |]; cbn [Py.bind] in H; [| discriminate].
  destruct (py_int w (dict_get analysis "total_sources" _)) as [total |];
    cbn [Py.bind] in H; [| discriminate].
  destruct (py_int w (dict_get analysis "primary_sources" _)) as [primary |];
    cbn [Py.bind] in H; [| discriminate].
  destruct (py_int w (dict_get analysis "secondary_sources" _)) as [secondary |];
    cbn [Py.bind] in H; [| discriminate].
  destruct (py_int w (dict_get analysis "academic_sources" _)) as [academic |];
    cbn [Py.bind] in H; [| discriminate].
  destruct (py_float w _) as [cred |]; cbn [Py.bind] in H; [| discriminate].
  injection H as <-. cbn [invalid_sources valid_sources]. split.
  - clear. set (valid := map fst (filter _ (validate_urls w sources))).
    assert (Hall : forall l, (forall u, In u l -> In u sources) ->
              filter (fun url => negb (existsb (String.eqb url) valid) = true) l
              = List.filter (fun url => match verdict w url with
                                        | Some (true, _) => false
                                        | _ => true
                                        end) l).
    { induction l as [| u l IH]; intros Hsub; [reflexivity |].
      assert (Hu : In u sources) by (apply Hsub; now left).
      rewrite filter_cons. simpl.
      rewrite IH by (intros u' Hu'; apply Hsub; now right).
      pose proof (valid_list_spec sources u Hu) as Hv. fold valid in Hv.
      rewrite <- existsb_eqb_In in Hv.
      destruct (existsb (String.eqb u) valid) eqn:Ee.
      - destruct Hv as [Hv _]. destruct (Hv eq_refl) as [s Hs]. rewrite Hs.
        rewrite decide_False by (simpl; discriminate). reflexivity.
      - assert (Hn : ~ exists s, verdict w u = Some (true, s)).
        { intros Hs. apply Hv in Hs. discriminate. }
        rewrite decide_True by reflexivity.
        destruct (verdict w u) as [[[] s] |]; try reflexivity.
        exfalso. apply Hn. now exists s. }
    apply Hall. auto.
  - unfold len_Z. split; [lia |]. apply inj_le.
    rewrite List.length_map.
    etransitivity; [apply length_filter |].
    rewrite <- (List.length_map fst).
    apply List.NoDup_incl_length.
    + apply NoDup_ListNoDup. rewrite validate_urls_fold.
      apply fold_store_NoDup. constructor.
    + intros k Hk. rewrite validate_urls_fold in Hk.
      apply fold_store_keys in Hk as [Hk | []]. exact Hk.
Qed.

End ValidationTable.

Section ValidationExamples.
Import Py Dataclasses Evaluator Evaluation.

Lemma validate_url_verdict_agrees_with_status_witness :
  validate_url Samples.mute_world "http://dead.example/page" 2
  = Ok ((false, 404),
        [EvGet "http://dead.example/page" 0; EvSleep 1;
         EvGet "http://dead.example/page" 1; EvSleep 1;
         EvGet "http://dead.example/page" 2])
  /\ ((false, 404).1 = true -> (false, 404).2 < 400 \/ (false, 404).2 = 401
                               \/ (false, 404).2 = 403 \/ (false, 404).2 = 429)
  /\ ((false, 404).1 = false ->
      (false, 404).2 = 0 \/ 200 <= (false, 404).2 < 300
      \/ (400 <= (false, 404).2 /\ (false, 404).2 <> 401 /\ (false, 404).2 <> 403
          /\ (false, 404).2 <> 429)).
Proof.
  assert (H : validate_url Samples.mute_world "http://dead.example/page" 2
              = Ok ((false, 404),
                    [EvGet "http://dead.example/page" 0; EvSleep 1;
                     EvGet "http://dead.example/page" 1; EvSleep 1;
                     EvGet "http://dead.example/page" 2]))
    by (vm_compute; reflexivity).
  split; [exact H |].
  exact (validate_url_verdict_agrees_with_status Samples.mute_world
           "http://dead.example/page" 2 (false, 404) _ H).
Defined.

Lemma analyzed_invalid_sources_witness :
  exists r,
    evaluator_model Samples.audit_world
      (source_audit_prompt Samples.audit_world "report"
         ["http://good.example"; "http://dead.example"])
    = Ok "Result: {verified: 3, numerical: 1}"
    /\ nonempty_dict (_parse_json_response Samples.audit_world
                        "Result: {verified: 3, numerical: 1}")
       = Some Samples.audit_reply
    /\ _analyze_sources Samples.audit_world "report"
         ["http://good.example"; "http://dead.example"] = Ok r
    /\ invalid_sources r
       = List.filter (fun url => match verdict Samples.audit_world url with
                                 | Some (true, _) => false
                                 | _ => true
                                 end) ["http://good.example"; "http://dead.example"]
    /\ 0 <= valid_sources r <= len_Z ["http://good.example"; "http://dead.example"].
Proof.
  destruct (_analyze_sources Samples.audit_world "report"
              ["http://good.example"; "http://dead.example"]) as [r | e] eqn:E;
    [| vm_compute in E; discriminate].
  exists r.
  assert (Hm : evaluator_model Samples.audit_world
                 (source_audit_prompt Samples.audit_world "report"
                    ["http://good.example"; "http://dead.example"])
               = Ok "Result: {verified: 3, numerical: 1}") by reflexivity.
  assert (Hp : nonempty_dict (_parse_json_response Samples.audit_world
                                "Result: {verified: 3, numerical: 1}")
               = Some Samples.audit_reply) by (vm_compute; reflexivity).
  split; [exact Hm |]. split; [exact Hp |]. split; [reflexivity |].
  exact (analyzed_invalid_sources Samples.audit_world "report"
           ["http://good.example"; "http://dead.example"] _ _ r Hm Hp E).
Defined.

(** The invalid source of that report is the dead one. *)
Example dead_source_is_invalid :
  match _analyze_sources Samples.audit_world "report"
          ["http://good.example"; "http://dead.example"] with
  | Ok r => invalid_sources r = ["http://dead.example"]
  | Raise _ => False
  end.
Proof. vm_compute. reflexivity. Qed.

End ValidationExamples.

(** ** The sources extracted from a report *)

Section ExtractedSources.
Import Py Report.

Lemma drop_while_idem {A} (p : A -> bool) (l : list A) :
  drop_while p (drop_while p l) = drop_while p l.
Proof.
  induction l as [| a l IH]; simpl; [reflexivity |].
  destruct (p a) eqn:E; [exact IH |]. simpl. now rewrite E.
Qed.

Lemma rstrip_idem (set s : string) : rstrip set (rstrip set s) = rstrip set s.
Proof.
  unfold rstrip. rewrite chars_str, List.rev_involutive, drop_while_idem. reflexivity.
Qed.

Lemma unique_clean_spec (urls : list string) :
  forall seen : gset string,
    NoDup (unique_clean seen urls)
    /\ forall u, u ∈ unique_clean seen urls
                 <-> (u ∉ seen) /\ exists raw, raw ∈ urls /\ u = rstrip ".,;:!?)" raw.
Proof.
  induction urls as [| url rest IH]; intros seen; simpl.
  - split; [constructor |]. intros u. split.
    + intros H. inversion H.
    + intros (_ & raw & H & _). inversion H.
  - case_bool_decide as Hseen.
    + destruct (IH seen) as [Hnd Hiff]. split; [exact Hnd |].
      intros u. rewrite Hiff. split.
      * intros (Hu & raw & Hraw & ->). split; [exact Hu |]. exists raw. split; [now right | reflexivity].
      * intros (Hu & raw & Hraw & ->). split; [exact Hu |].
        apply elem_of_cons in Hraw as [-> | Hraw]; [contradiction |].
        exists raw. split; [exact Hraw | reflexivity].
    + destruct (IH ({[rstrip ".,;:!?)" url]} ∪ seen)) as [Hnd Hiff]. split.
      * constructor; [| exact Hnd]. rewrite Hiff. intros (Hu & _).
        apply Hu, elem_of_union_l, elem_of_singleton. reflexivity.
      * intros u. rewrite elem_of_cons, Hiff. split.
        -- intros [-> | (Hu & raw & Hraw & ->)].
           ++ split; [exact Hseen |]. exists url. split; [now left | reflexivity].
           ++ split; [intros Hx; apply Hu, elem_of_union_r, Hx |].
              exists raw. split; [now right | reflexivity].
        -- intros (Hu & raw & Hraw & ->).
           destruct (decide (rstrip ".,;:!?)" raw = rstrip ".,;:!?)" url)) as [He | Hne];
             [now left |].
           right. split.
           { intros Hx. apply elem_of_union in Hx as [Hx | Hx]; [| contradiction].
             apply elem_of_singleton in Hx. contradiction. }
           apply elem_of_cons in Hraw as [-> | Hraw]; [congruence |].
           exists raw. split; [exact Hraw | reflexivity].
Qed.

(** X6. The source list that [extract_sources_from_report] returns has no
    duplicates, consists exactly of the inline URLs of the report with
    their trailing punctuation stripped, and stripping an entry again
    changes nothing. *)
Theorem extracted_sources_unique_and_clean (report : string) :
  NoDup (extract_sources_from_report report).1
  /\ (forall u, u ∈ (extract_sources_from_report report).1
                <-> exists raw, raw ∈ Re.findall url_re report
                                /\ u = rstrip ".,;:!?)" raw)
  /\ (forall u, u ∈ (extract_sources_from_report report).1 -> rstrip ".,;:!?)" u = u).
Proof.
  unfold extract_sources_from_report. cbn [fst].
  destruct (unique_clean_spec (Re.findall url_re report) ∅) as [Hnd Hiff].
  split; [exact Hnd |]. split.
  - intros u. rewrite Hiff. split.
    + intros (_ & H). exact H.
    + intros H. split; [apply not_elem_of_empty | exact H].
  - intros u Hu. apply Hiff in Hu as (_ & raw & _ & ->). apply rstrip_idem.
Qed.

(** A URL that is cited twice, once before a full stop, is listed once. *)
Example repeated_url_listed_once :
  (extract_sources_from_report
     "See http://a.example/x. Again http://a.example/x and (http://b.example).").1
  = ["http://a.example/x"; "http://b.example"].
Proof. vm_compute. reflexivity. Qed.

End ExtractedSources.

(** ** Recommendations *)

Section Recommendations.
Import Py Dataclasses Evaluator Evaluation.

Variable sv : Services.

Lemma gt_false (x y : Q) : gt x y = false <-> (x <= y)%Q.
Proof.
  unfold gt. rewrite negb_false_iff. apply Qle_bool_iff.
Qed.

Lemma lt_false (x y : Q) : lt x y = false <-> (y <= x)%Q.
Proof.
  unfold lt. rewrite negb_false_iff. apply Qle_bool_iff.
Qed.

Lemma positive_length_false {A} (l : list A) : (0 <? length l)%nat = false <-> l = [].
Proof.
  rewrite Nat.ltb_ge. destruct l; simpl; split; intros H;
    try reflexivity; try discriminate; lia.
Qed.

Lemma bias_recommendations_spec (bias : BiasMetrics) :
  Forall (fun s => is_warning s = true) (bias_recommendations sv bias)
  /\ (length (bias_recommendations sv bias) <= 3)%nat
  /\ (bias_recommendations sv bias = []
      <-> (one_sided_score bias <= 0.6)%Q
          /\ (0.5 <= source_diversity_score bias)%Q
          /\ (0.3 <= quantitative_ratio bias)%Q).
Proof.
  unfold bias_recommendations.
  rewrite <- gt_false, <- !lt_false.
  destruct (gt (one_sided_score bias) 0.6), (lt (source_diversity_score bias) 0.5),
    (lt (quantitative_ratio bias) 0.3);
    (split; [repeat constructor | split; [simpl; lia |]]);
    simpl; split; try discriminate; try tauto; intros (H1 & H2 & H3); discriminate.
Qed.

Lemma source_recommendations_spec (sources : SourceQualityMetrics) :
  Forall (fun s => is_warning s = true) (source_recommendations sources)
  /\ (length (source_recommendations sources) <= 1)%nat
  /\ (source_recommendations sources = []
      <-> (0.6 <= source_credibility_score sources)%Q).
Proof.
  unfold source_recommendations. rewrite <- lt_false.
  destruct (lt (source_credibility_score sources) 0.6);
    (split; [repeat constructor | split; [simpl; lia |]]);
    split; try discriminate; tauto.
Qed.

Lemma claim_recommendations_spec (claims : gmap string (list string))
    (cc : ClaimSourceConsistency) :
  Forall (fun s => is_warning s = true) (claim_recommendations sv claims cc)
  /\ (length (claim_recommendations sv claims cc) <= 5)%nat
  /\ (claim_recommendations sv claims cc = []
      <-> claims_get claims "unsupported" = []
          /\ claims_get claims "missing_counter_evidence" = []
          /\ numerical_inconsistencies cc = []
          /\ contextual_mismatches cc = []
          /\ (0.8 <= consistency_score cc)%Q).
Proof.
  unfold claim_recommendations. cbn zeta.
  rewrite <- lt_false, <- !positive_length_false.
  destruct (0 <? length (claims_get claims "unsupported"))%nat,
    (0 <? length (claims_get claims "missing_counter_evidence"))%nat,
    (0 <? length (numerical_inconsistencies cc))%nat,
    (0 <? length (contextual_mismatches cc))%nat,
    (lt (consistency_score cc) 0.8);
    (split; [repeat constructor | split; [simpl; lia |]]);
    simpl; split; try discriminate; try tauto;
    intros (H1 & H2 & H3 & H4 & H5); discriminate.
Qed.

(** The warnings collected before the final test of
    [_generate_recommendations]. *)
Lemma collected_warnings_spec (bias : BiasMetrics) (sources : SourceQualityMetrics)
    (claims : gmap string (list string)) (cc : ClaimSourceConsistency) :
  exists raw,
    _generate_recommendations sv bias sources claims cc
    = match raw with [] => [positive_confirmation] | _ => raw end
    /\ Forall (fun s => is_warning s = true) raw
    /\ (length raw <= 9)%nat
    /\ (raw = [] <-> all_clear bias sources claims cc).
Proof.
  exists ((bias_recommendations sv bias ++ source_recommendations sources)
          ++ claim_recommendations sv claims cc).
  destruct (bias_recommendations_spec bias) as (Wb & Lb & Nb).
  destruct (source_recommendations_spec sources) as (Ws & Ls & Ns).
  destruct (claim_recommendations_spec claims cc) as (Wc & Lc & Nc).
  split; [reflexivity |]. split; [| split].
  - apply Forall_app. split; [apply Forall_app; split |]; assumption.
  - rewrite !List.length_app. lia.
  - unfold all_clear. split.
    + intros H. apply app_eq_nil in H as [H Hc]. apply app_eq_nil in H as [Hb Hs].
      apply Nb in Hb. apply Ns in Hs. apply Nc in Hc. tauto.
    + intros (H1 & H2 & H3 & H4 & H5).
      assert (Hb : bias_recommendations sv bias = []) by (apply Nb; tauto).
      assert (Hs : source_recommendations sources = []) by (apply Ns; tauto).
      assert (Hc : claim_recommendations sv claims cc = []) by (apply Nc; tauto).
      rewrite Hb, Hs, Hc. reflexivity.
Qed.

Lemma positive_not_among_warnings (l : list string) :
  Forall (fun s => is_warning s = true) l -> ~ In positive_confirmation l.
Proof.
  intros Hw Hin. rewrite List.Forall_forall in Hw. apply Hw in Hin.
  vm_compute in Hin. discriminate.
Qed.

(** X7. The recommendation list is never empty and has at most nine
    entries.  When no rule fires (every threshold is met and nothing was
    flagged) it is the single positive confirmation; otherwise every entry
    is a warning and the positive confirmation is absent. *)
Theorem recommendations_rule_set (bias : BiasMetrics) (sources : SourceQualityMetrics)
    (claims : gmap string (list string)) (cc : ClaimSourceConsistency) :
  _generate_recommendations sv bias sources claims cc <> []
  /\ (length (_generate_recommendations sv bias sources claims cc) <= 9)%nat
  /\ (all_clear bias sources claims cc ->
      _generate_recommendations sv bias sources claims cc = [positive_confirmation])
  /\ (~ all_clear bias sources claims cc ->
      Forall (fun s => is_warning s = true)
             (_generate_recommendations sv bias sources claims cc)
      /\ ~ In positive_confirmation (_generate_recommendations sv bias sources claims cc)).
Proof.
  destruct (collected_warnings_spec bias sources claims cc) as (raw & -> & Hw & Hl & Hn).
  destruct raw as [| r0 raw'].
  - split; [discriminate |]. split; [simpl; lia |]. split; [reflexivity |].
    intros Hno. exfalso. apply Hno, Hn. reflexivity.
  - split; [discriminate |]. split; [exact Hl |]. split.
    + intros Hc. apply Hn in Hc. discriminate.
    + intros _. split; [exact Hw | now apply positive_not_among_warnings].
Qed.

End Recommendations.

(** ** Fetched source content and the whole evaluation *)

Section EvaluationPipeline.
Import Py Dataclasses Evaluator Evaluation.

Variable w : World.
Variable sv : Services.

Lemma length_str (l : list ascii) : String.length (str l) = length l.
Proof. induction l as [| a l IH]; simpl; [reflexivity | now rewrite IH]. Qed.

Lemma length_prefix (n : nat) (s : string) : (String.length (prefix n s) <= n)%nat.
Proof. unfold prefix. rewrite length_str, length_take. apply Nat.le_min_l. Qed.

Lemma fetch_source_content_some (url c : string) :
  fetch_source_content sv url = Some c
  <-> exists text, fetch_get sv url = HttpResponse 200 (Ok text)
                   /\ c = prefix 50000 (clean_page text).
Proof.
  unfold fetch_source_content.
  destruct (fetch_get sv url) as [status [text | e] | | |].
  - destruct (Z.eqb_spec status 200) as [-> | Hne].
    + split; [intros [= <-]; eauto | intros (t & [= <-] & ->); reflexivity].
    + split; [discriminate | intros (t & [= Hs _] & _); contradiction].
  - split; [discriminate | intros (t & H & _); discriminate].
  - split; [discriminate | intros (t & H & _); discriminate].
  - split; [discriminate | intros (t & H & _); discriminate].
  - split; [discriminate | intros (t & H & _); discriminate].
Qed.

(** X8. The content map has an entry for a citation exactly when the
    citation's URL answered its single request with status 200 and a
    readable body whose cleaned text is not empty; the entry is that text
    cut to 50000 characters.  A failed, timed-out or non-200 fetch leaves
    no entry. *)
Theorem fetched_content_entries (source_map : gmap Z string) (n : Z) (c : string) :
  (_fetch_source_content_map sv source_map !! n = Some c
   <-> exists url text,
         source_map !! n = Some url
         /\ fetch_get sv url = HttpResponse 200 (Ok text)
         /\ c = prefix 50000 (clean_page text)
         /\ c <> "")
  /\ (_fetch_source_content_map sv source_map !! n = Some c ->
      (String.length c <= 50000)%nat).
Proof.
  assert (Hiff : _fetch_source_content_map sv source_map !! n = Some c
                 <-> exists url text,
                       source_map !! n = Some url
                       /\ fetch_get sv url = HttpResponse 200 (Ok text)
                       /\ c = prefix 50000 (clean_page text)
                       /\ c <> "").
  { unfold _fetch_source_content_map. rewrite lookup_omap_Some. split.
    - intros (url & Hf & Hu).
      destruct (fetch_source_content sv url) as [c' |] eqn:E; [| discriminate].
      destruct (String.eqb_spec c' "") as [-> | Hne]; [discriminate |].
      injection Hf as ->. apply fetch_source_content_some in E as (text & Hg & ->).
      exists url, text. auto.
    - intros (url & text & Hu & Hg & -> & Hne). exists url. split; [| exact Hu].
      assert (E : fetch_source_content sv url = Some (prefix 50000 (clean_page text)))
        by (apply fetch_source_content_some; eauto).
      rewrite E. apply String.eqb_neq in Hne. rewrite Hne. reflexivity. }
  split; [exact Hiff |].
  intros H. apply Hiff in H as (url & text & _ & _ & -> & _). apply length_prefix.
Qed.

(** X9. An evaluation that returns has an overall score between 0 and 1
    and at least one recommendation.  When no source content was fetched
    (no citation line in the report, or every fetch failed) the consistency
    audit is skipped: the consistency record is the default one, its score
    of 0 fires the consistency rule, and so the positive confirmation is
    never given. *)
Theorem evaluation_of_report (report research_query : string) (score : ObjectivityScore) :
  evaluate_report w sv report research_query = Ok score ->
  (0 <= overall_score score <= 1)%Q
  /\ recommendations score <> []
  /\ (_fetch_source_content_map sv (Report.extract_sources_from_report report).2 = ∅ ->
      claim_source_consistency score = ClaimSourceConsistency_default
      /\ ~ In positive_confirmation (recommendations score)).
Proof.
  unfold evaluate_report, _run_parallel_evaluations. intros H.
  destruct (Report.extract_sources_from_report report) as [sources source_map].
  destruct (_analyze_bias w report research_query) as [bias |]; cbn [Py.bind] in H;
    [| discriminate].
  destruct (_analyze_sources w report sources) as [src |]; cbn [Py.bind] in H;
    [| discriminate].
  destruct (_verify_claims w report research_query) as [claims |]; cbn [Py.bind] in H;
    [| discriminate].
  destruct (_verify_claim_source_consistency w report _) as [cc |] eqn:Ec;
    cbn [Py.bind] in H; [| discriminate].
  injection H as <-. cbn [overall_score recommendations claim_source_consistency snd].
  destruct (collected_warnings_spec sv bias src claims cc) as (raw & Hr & Hw & _ & Hn).
  split; [apply py_clamp_range |]. split.
  - rewrite Hr. destruct raw; discriminate.
  - intros Hempty. rewrite Hempty in Ec. unfold _verify_claim_source_consistency in Ec.
    rewrite bool_decide_eq_true_2 in Ec by reflexivity. injection Ec as <-.
    split; [reflexivity |].
    rewrite Hr. destruct raw as [| r0 raw'].
    + exfalso. assert (Hc : all_clear bias src claims ClaimSourceConsistency_default)
        by (apply Hn; reflexivity).
      destruct Hc as (_ & _ & _ & _ & _ & _ & _ & _ & Hc). vm_compute in Hc.
      apply Hc. reflexivity.
    + now apply positive_not_among_warnings.
Qed.

End EvaluationPipeline.

Section EvaluationExamples.
Import Py Dataclasses Evaluator Evaluation.

(** An instance: the report with three sources, audited by a model that
    answers in prose. *)
Lemma evaluation_of_report_witness :
  exists score,
    evaluate_report Samples.mute_world Fixtures.plain_services Samples.three_sources "tea"
    = Ok score
    /\ (0 <= overall_score score <= 1)%Q
    /\ recommendations score <> [].
Proof.
  destruct (evaluate_report Samples.mute_world Fixtures.plain_services
              Samples.three_sources "tea") as [score | e] eqn:E;
    [| vm_compute in E; discriminate].
  exists score. split; [reflexivity |].
  destruct (evaluation_of_report Samples.mute_world Fixtures.plain_services
              Samples.three_sources "tea" score E) as (H1 & H2 & _).
  split; assumption.
Defined.

End EvaluationExamples.

Section RecommendationsExamples.
Import Py Dataclasses Evaluator Evaluation.

(** An instance: metrics that meet every threshold. *)
Lemma recommendations_rule_set_witness :
  all_clear Fixtures.balanced_bias Fixtures.trusted_sources ∅ Fixtures.consistent_claims
  /\ _generate_recommendations Fixtures.plain_services Fixtures.balanced_bias
       Fixtures.trusted_sources ∅ Fixtures.consistent_claims
     = [positive_confirmation].
Proof.
  assert (H : all_clear Fixtures.balanced_bias Fixtures.trusted_sources ∅
                Fixtures.consistent_claims).
  { unfold all_clear. repeat split; try reflexivity; unfold Qle; cbn; lia. }
  split; [exact H |].
  destruct (recommendations_rule_set Fixtures.plain_services Fixtures.balanced_bias
              Fixtures.trusted_sources ∅ Fixtures.consistent_claims) as (_ & _ & Hclear & _).
  exact (Hclear H).
Defined.

End RecommendationsExamples.

(** ** Tool results of the supervisor and the shape of its runs *)

Section SupervisorRuns.
Import Py Graph Supervisor Shapes.

Variable w : World.

Lemma mapM_length {A B} (f : A -> result B) (l : list A) (bs : list B) :
  mapM f l = Ok bs -> length bs = length l.
Proof.
  revert bs. induction l as [| a l IH]; intros bs H; simpl in H.
  - injection H as <-. reflexivity.
  - destruct (f a); [| discriminate].
    destruct (mapM f l) as [bs' |]; [| discriminate].
    injection H as <-. simpl. now rewrite (IH bs').
Qed.

Lemma mapM_raise {A B} (f : A -> result B) (l : list A) (e : exn) :
  Forall (fun a => is_Some (match f a with Ok b => Some b | Raise _ => None end)
                   \/ f a = Raise e) l ->
  Exists (fun a => f a = Raise e) l ->
  mapM f l = Raise e.
Proof.
  induction l as [| a l IH]; intros Hall Hex; [inversion Hex |].
  inversion Hall as [| ? ? Ha Hl]; subst. simpl.
  destruct (f a) as [b | e'] eqn:E.
  - inversion Hex as [? ? Hx | ? ? Hx]; subst; [congruence |].
    rewrite (IH Hl Hx). reflexivity.
  - destruct Ha as [[x Hx] | Ha]; [discriminate | congruence].
Qed.

Lemma think_tools_answers (calls : list tool_call) (ms : list message) :
  _execute_think_tools w calls = Ok ms -> map answered ms = map expected calls.
Proof.
  unfold _execute_think_tools. revert ms.
  induction calls as [| tc calls IH]; intros ms H; simpl in H.
  - injection H as <-. reflexivity.
  - destruct (think_tool w (args tc)); simpl in H; [| discriminate].
    destruct (mapM _ calls) as [ms' |]; [| discriminate].
    injection H as <-. simpl. now rewrite (IH ms').
Qed.

Lemma zip_answers {R} (f : R -> string) (calls : list tool_call) :
  forall rs : list R,
    length rs = length calls ->
    map answered (map (fun rt : R * tool_call => ToolMessage (f rt.1) (name rt.2) (id rt.2))
                      (zip rs calls))
    = map expected calls.
Proof.
  induction calls as [| tc calls IH]; intros rs Hlen.
  - destruct rs; reflexivity.
  - destruct rs as [| r rs]; [discriminate |]. simpl. rewrite IH; [reflexivity |].
    simpl in Hlen. lia.
Qed.

Lemma research_calls_answers (calls : list tool_call) (ms : list message)
    (raw : list string) :
  _execute_research_calls w calls = Ok (ms, raw) ->
  map answered ms = map expected calls /\ length raw = length calls.
Proof.
  unfold _execute_research_calls. intros H.
  destruct calls as [| tc calls]; [injection H as <- <-; split; reflexivity |].
  destruct (mapM _ (tc :: calls)) as [topics |] eqn:Et; cbn [Py.bind] in H; [| discriminate].
  destruct (mapM (researcher_agent w) topics) as [rs |] eqn:Er; cbn [Py.bind] in H;
    [| discriminate].
  injection H as <- <-.
  apply mapM_length in Et. apply mapM_length in Er.
  split.
  - apply (zip_answers
             (fun r => get (compressed_research r) "Error synthesizing research report")).
    congruence.
  - rewrite List.length_map. congruence.
Qed.

Lemma same_content_answers (d : string) (calls : list tool_call) :
  map answered (map (fun tc => ToolMessage d (name tc) (id tc)) calls)
  = map expected calls.
Proof. induction calls as [| x l IHl]; simpl; [reflexivity | now rewrite IHl]. Qed.

Lemma same_content_all (d : string) (calls : list tool_call) :
  Forall (fun m => content_of m = d)
         (map (fun tc => ToolMessage d (name tc) (id tc)) calls).
Proof. induction calls as [| x l IHl]; simpl; constructor; auto. Qed.

Lemma refine_report_answers (calls : list tool_call) (msgs : list message)
    (st : SupervisorState) (ms : list message) (d : string) :
  _execute_refine_report w calls msgs st = Ok (ms, d) ->
  map answered ms = map expected calls
  /\ Forall (fun m => content_of m = d) ms
  /\ (calls <> [] ->
      refine_draft_report w (get (research_brief st) "")
        (join_lines (get_notes_from_tool_calls msgs)) (get (draft_report st) "") = Ok d).
Proof.
  unfold _execute_refine_report. intros H.
  destruct calls as [| tc calls].
  - injection H as <- <-. split; [reflexivity |]. split; [constructor | congruence].
  - destruct (refine_draft_report w _ _ _) as [d' |]; cbn [Py.bind] in H; [| discriminate].
    injection H as <- <-. split; [| split; [| reflexivity]].
    + apply (same_content_answers d' (tc :: calls)).
    + apply (same_content_all d' (tc :: calls)).
Qed.

(** A dispatch that succeeds goes back to the decision step and leaves the
    notes and the brief alone. *)
Lemma dispatch_goes_back (st : SupervisorState) (msgs : list message) (c : string)
    (tcs : list tool_call) (cmd : Command) :
  dispatch w st msgs (AIMessage c tcs) = Ok cmd ->
  goto cmd = N_supervisor
  /\ upd_notes (update cmd) = []
  /\ upd_research_brief (update cmd) = None.
Proof.
  unfold dispatch. cbn [tool_calls_of Py.bind _categorize_tool_calls]. intros H.
  destruct (_execute_think_tools w _) as [tm |]; cbn [Py.bind] in H; [| discriminate].
  destruct (_execute_research_calls w _) as [[rm rn] |]; cbn [Py.bind] in H;
    [| discriminate].
  destruct (_execute_refine_report w _ _ _) as [[fm fd] |]; cbn [Py.bind] in H;
    [| discriminate].
  injection H as <-. repeat split.
Qed.

(** X10. When the dispatch of a decision succeeds, its tool messages
    answer, by name and call id and in this order, the reflection calls,
    the delegations and the refine calls of the decision, one message each;
    a call under any other name gets no answer.  One raw-notes entry is
    returned per delegation, and the loop goes back to the decision step
    without touching the notes, the brief or the iteration count. *)
Theorem dispatch_answers_calls (st : SupervisorState) (msgs : list message) (c : string)
    (tcs : list tool_call) (cmd : Command) :
  dispatch w st msgs (AIMessage c tcs) = Ok cmd ->
  map answered (upd_supervisor_messages (update cmd))
  = map expected (named "think_tool" tcs ++ named "ConductResearch" tcs
                  ++ named "refine_draft_report" tcs)
  /\ length (upd_raw_notes (update cmd)) = length (named "ConductResearch" tcs)
  /\ goto cmd = N_supervisor
  /\ upd_notes (update cmd) = []
  /\ upd_research_brief (update cmd) = None
  /\ upd_research_iterations (update cmd) = None.
Proof.
  unfold dispatch. cbn [tool_calls_of Py.bind _categorize_tool_calls]. intros H.
  destruct (_execute_think_tools w _) as [tm |] eqn:Et; cbn [Py.bind] in H; [| discriminate].
  destruct (_execute_research_calls w _) as [[rm rn] |] eqn:Er; cbn [Py.bind] in H;
    [| discriminate].
  destruct (_execute_refine_report w _ _ _) as [[fm fd] |] eqn:Ef; cbn [Py.bind] in H;
    [| discriminate].
  injection H as <-. cbn [update goto upd_supervisor_messages upd_raw_notes upd_notes
                          upd_research_brief upd_research_iterations].
  apply think_tools_answers in Et. apply research_calls_answers in Er as [Er Hn].
  apply refine_report_answers in Ef as (Ef & _).
  rewrite !List.map_app, Et, Er, Ef, <- List.app_assoc.
  repeat split; assumption.
Qed.

(** X11. The draft report changes exactly when the decision contains a
    refine call: the draft is then the single answer of the refine tool to
    the brief, the newline-joined notes of the history and the old draft,
    and every refine tool message carries it; without a refine call the
    draft of the state stays as it is. *)
Theorem dispatch_refines_draft (st : SupervisorState) (c : string)
    (tcs : list tool_call) (cmd : Command) :
  dispatch w st (supervisor_messages st) (AIMessage c tcs) = Ok cmd ->
  match named "refine_draft_report" tcs with
  | [] => draft_report (apply_update st (update cmd)) = draft_report st
  | _ :: _ =>
      exists d,
        refine_draft_report w (get (research_brief st) "")
          (join_lines (get_notes_from_tool_calls (supervisor_messages st)))
          (get (draft_report st) "") = Ok d
        /\ draft_report (apply_update st (update cmd)) = Some d
        /\ Forall (fun m => forall i, answered m = Some ("refine_draft_report", i) ->
                                      content_of m = d)
                  (upd_supervisor_messages (update cmd))
  end.
Proof.
  unfold dispatch. cbn [tool_calls_of Py.bind _categorize_tool_calls]. intros H.
  destruct (_execute_think_tools w _) as [tm |] eqn:Et; cbn [Py.bind] in H; [| discriminate].
  destruct (_execute_research_calls w _) as [[rm rn] |] eqn:Er; cbn [Py.bind] in H;
    [| discriminate].
  destruct (_execute_refine_report w _ _ _) as [[fm fd] |] eqn:Ef; cbn [Py.bind] in H;
    [| discriminate].
  injection H as <-.
  apply refine_report_answers in Ef as (_ & Hall & Hd).
  destruct (named "refine_draft_report" tcs) as [| rc rcs] eqn:En.
  - reflexivity.
  - exists fd. split; [apply Hd; discriminate |]. split; [reflexivity |].
    cbn [update upd_supervisor_messages].
    apply think_tools_answers in Et. apply research_calls_answers in Er as [Er _].
    apply Forall_app. split; [apply Forall_app; split |].
    + apply List.Forall_forall. intros m Hm i Hi.
      apply (List.in_map answered) in Hm. rewrite Et in Hm.
      apply List.in_map_iff in Hm as (tc & Htc & Hin).
      apply List.filter_In in Hin as [_ Hname]. apply String.eqb_eq in Hname.
      unfold expected in Htc. rewrite Hname, Hi in Htc. discriminate.
    + apply List.Forall_forall. intros m Hm i Hi.
      apply (List.in_map answered) in Hm. rewrite Er in Hm.
      apply List.in_map_iff in Hm as (tc & Htc & Hin).
      apply List.filter_In in Hin as [_ Hname]. apply String.eqb_eq in Hname.
      unfold expected in Htc. rewrite Hname, Hi in Htc. discriminate.
    + eapply List.Forall_impl; [| exact Hall]. intros m Hm i _. exact Hm.
Qed.

(** X12. A delegation whose arguments lack the research topic makes the
    delegation step raise [KeyError] while the delegations are being built,
    whatever the sub-researchers would have done. *)
Theorem delegation_without_topic (calls : list tool_call) :
  Exists (fun tc => args tc !! "research_topic" = None) calls ->
  _execute_research_calls w calls = Raise (KeyError "research_topic").
Proof.
  intros Hex. unfold _execute_research_calls.
  destruct calls as [| tc calls]; [inversion Hex |].
  rewrite (mapM_raise _ (tc :: calls) (KeyError "research_topic")); [reflexivity | |].
  - apply List.Forall_forall. intros tc' _. unfold getitem.
    destruct (args tc' !! "research_topic"); [left; eauto | now right].
  - eapply List.Exists_impl; [| exact Hex]. intros tc' H. unfold getitem. now rewrite H.
Qed.

Lemma supervisor_keeps_notes (st : SupervisorState) (cmd : Command) :
  supervisor w st = Ok cmd ->
  notes (apply_update st (update cmd)) = notes st
  /\ research_brief (apply_update st (update cmd)) = research_brief st
  /\ supervisor_messages st `prefix_of` supervisor_messages (apply_update st (update cmd)).
Proof.
  unfold supervisor. intros H.
  destruct (try_except _ _) as [[c tcs] |]; cbn [Py.bind] in H; [| discriminate].
  injection H as <-. simpl. rewrite List.app_nil_r.
  repeat split. now apply prefix_app_r.
Qed.

(** The two ways in which the tool step returns. *)
Lemma supervisor_tools_returns (st : SupervisorState) (cmd : Command) :
  supervisor_tools w st = Ok cmd ->
  (cmd = exit_command (supervisor_messages st) st)
  \/ (exists c tcs, dispatch w st (supervisor_messages st) (AIMessage c tcs) = Ok cmd).
Proof.
  intros H.
  destruct (last (supervisor_messages st)) as [m |] eqn:Hlast.
  2:{ unfold supervisor_tools, last_message in H. rewrite Hlast in H. discriminate. }
  destruct m as [? | ? | c tcs | ? ? ?];
    try (unfold supervisor_tools, last_message in H; rewrite Hlast in H; discriminate).
  destruct (supervisor_tools_cases w st c tcs Hlast)
    as [[_ E] | [(_ & _ & E) | (_ & cmd' & Hd & _ & _ & E)]];
    rewrite E in H; injection H as <-; [now left | now left | right; eauto].
Qed.

Lemma supervisor_tools_total (st : SupervisorState) :
  ends_with_decision (supervisor_messages st) ->
  exists cmd, supervisor_tools w st = Ok cmd.
Proof.
  intros (c & tcs & Hlast).
  destruct (supervisor_tools_cases w st c tcs Hlast)
    as [[_ E] | [(_ & _ & E) | (_ & cmd' & _ & _ & _ & E)]]; eauto.
Qed.

(** What a run does from each node: where it can crash, and what holds of
    the state and the trace when it finishes. *)
Lemma run_outcome (fuel : nat) :
  forall (n : node) (st : SupervisorState) (trace : list node),
    n <> N_END ->
    (n = N_supervisor_tools -> ends_with_decision (supervisor_messages st)) ->
    match (run (step w) is_end fuel n st trace).1 with
    | Finished final =>
        notes final = notes st ++ get_notes_from_tool_calls (supervisor_messages final)
        /\ research_brief final = Some (get (research_brief st) "")
        /\ exists k,
             (run (step w) is_end fuel n st trace).2
             = trace ++ match n with
                        | N_supervisor_tools => [N_supervisor_tools]
                        | _ => []
                        end ++ rounds k
             /\ (n = N_supervisor -> (1 <= k)%nat)
    | Crashed e at_node st' => at_node = N_supervisor /\ supervisor w st' = Raise e
    | OutOfFuel _ _ => True
    end.
Proof.
  induction fuel as [| fuel IH]; intros n st trace Hn Hdec.
  - destruct n; simpl; [exact I | exact I | congruence].
  - destruct n; [| | congruence]; cbn [run is_end].
    + change (step w N_supervisor st)
        with (Py.bind (supervisor w st) (fun c => Ok (goto c, apply_update st (update c)))).
      destruct (supervisor w st) as [cmd | e] eqn:E; cbn [Py.bind fst]; [| now split].
      destruct (supervisor_step w st cmd E) as (Hg & _ & Hlast).
      destruct (supervisor_keeps_notes st cmd E) as (Hnotes & Hbrief & _).
      rewrite Hg.
      specialize (IH N_supervisor_tools (apply_update st (update cmd))
                    (trace ++ [N_supervisor])).
      destruct (run (step w) is_end fuel N_supervisor_tools _ _) as [o tr].
      cbn [fst snd] in *.
      assert (Hne : N_supervisor_tools <> N_END) by discriminate.
      specialize (IH Hne (fun _ => Hlast)).
      destruct o as [final | e at_node st' |]; [| exact IH | exact I].
      destruct IH as (H1 & H2 & k & Htr & _).
      rewrite Hnotes in H1. rewrite Hbrief in H2.
      split; [exact H1 |]. split; [exact H2 |].
      exists (S k). split; [| intros _; lia].
      rewrite Htr, <- List.app_assoc. reflexivity.
    + change (step w N_supervisor_tools st)
        with (Py.bind (supervisor_tools w st)
                      (fun c => Ok (goto c, apply_update st (update c)))).
      destruct (supervisor_tools_total st (Hdec eq_refl)) as [cmd E].
      rewrite E. cbn [Py.bind].
      destruct (supervisor_tools_returns st cmd E) as [-> | (c & tcs & Hd)].
      * cbn [goto exit_command]. destruct fuel; cbn [run is_end fst snd].
        -- split; [simpl; now rewrite List.app_nil_r |]. split; [reflexivity |].
           exists 0%nat. split; [reflexivity | discriminate].
        -- split; [simpl; now rewrite List.app_nil_r |]. split; [reflexivity |].
           exists 0%nat. split; [reflexivity | discriminate].
      * destruct (dispatch_goes_back st _ c tcs cmd Hd) as (Hg & Hnotes & Hb).
        rewrite Hg.
        specialize (IH N_supervisor (apply_update st (update cmd))
                      (trace ++ [N_supervisor_tools])).
        destruct (run (step w) is_end fuel N_supervisor _ _) as [o tr].
        cbn [fst snd] in *.
        assert (Hne : N_supervisor <> N_END) by discriminate.
        assert (Hno : N_supervisor = N_supervisor_tools ->
                      ends_with_decision (supervisor_messages (apply_update st (update cmd))))
          by discriminate.
        specialize (IH Hne Hno).
        destruct o as [final | e at_node st' |]; [| exact IH | exact I].
        destruct IH as (H1 & H2 & k & Htr & _).
        unfold apply_update in H1, H2. cbn [notes research_brief] in H1, H2.
        rewrite Hnotes, List.app_nil_r in H1. rewrite Hb in H2. cbn [replace] in H2.
        split; [exact H1 |]. split; [exact H2 |].
        exists k. split; [| discriminate].
        rewrite Htr, <- List.app_assoc. reflexivity.
Qed.

(** X13. A supervisor run that finishes has made at least one decision,
    each followed by one tool step; its notes are those of the input
    followed by the contents of all tool messages of the final history, and
    its research brief is that of the input (empty when there was none). *)
Theorem finished_run_notes (fuel : nat) (input final : SupervisorState)
    (trace : list node) :
  supervisor_agent w fuel input = (Finished final, trace) ->
  notes final = notes input ++ get_notes_from_tool_calls (supervisor_messages final)
  /\ research_brief final = Some (get (research_brief input) "")
  /\ exists k, trace = rounds k /\ (1 <= k)%nat.
Proof.
  unfold supervisor_agent. intros H.
  assert (Hne : N_supervisor <> N_END) by discriminate.
  assert (Hno : N_supervisor = N_supervisor_tools ->
                ends_with_decision (supervisor_messages input)) by discriminate.
  pose proof (run_outcome fuel N_supervisor input [] Hne Hno) as Hrun.
  rewrite H in Hrun. cbn [fst snd] in Hrun.
  destruct Hrun as (H1 & H2 & k & Htr & Hk).
  split; [exact H1 |]. split; [exact H2 |].
  exists k. split; [exact Htr | now apply Hk].
Qed.

(** X14. A supervisor run can only be broken off by an exception in the
    decision step, when neither the model with tools nor the plain model
    answers: the tool step never raises in a run, whatever the tools and the
    sub-researchers do. *)
Theorem run_crashes_only_in_decision (fuel : nat) (input st : SupervisorState)
    (e : exn) (at_node : node) (trace : list node) :
  supervisor_agent w fuel input = (Crashed e at_node st, trace) ->
  at_node = N_supervisor
  /\ supervisor w st = Raise e
  /\ (exists e', supervisor_model_with_tools w
                   (SystemMessage (system_message w) :: supervisor_messages st) = Raise e')
  /\ supervisor_model w (SystemMessage (system_message w) :: supervisor_messages st)
     = Raise e.
Proof.
  unfold supervisor_agent. intros H.
  assert (Hne : N_supervisor <> N_END) by discriminate.
  assert (Hno : N_supervisor = N_supervisor_tools ->
                ends_with_decision (supervisor_messages input)) by discriminate.
  pose proof (run_outcome fuel N_supervisor input [] Hne Hno) as Hrun.
  rewrite H in Hrun. cbn [fst] in Hrun. destruct Hrun as [-> Hs].
  split; [reflexivity |]. split; [exact Hs |].
  unfold supervisor in Hs.
  destruct (supervisor_model_with_tools w _) as [r | e'] eqn:E1; cbn [try_except] in Hs.
  - discriminate.
  - split; [eauto |].
    destruct (supervisor_model w _) as [r | e''] eqn:E2; cbn [Py.bind] in Hs;
      [discriminate | congruence].
Qed.

(** The tool messages of a dispatch that succeeds. *)
Lemma dispatch_messages (st : SupervisorState) (msgs : list message) (c : string)
    (tcs : list tool_call) (cmd : Command) :
  dispatch w st msgs (AIMessage c tcs) = Ok cmd ->
  answered_in_full (c, tcs, upd_supervisor_messages (update cmd)).
Proof.
  unfold dispatch, answered_in_full.
  cbn [tool_calls_of Py.bind _categorize_tool_calls fst snd]. intros H.
  destruct (_execute_think_tools w _) as [tm |] eqn:Et; cbn [Py.bind] in H; [| discriminate].
  destruct (_execute_research_calls w _) as [[rm rn] |] eqn:Er; cbn [Py.bind] in H;
    [| discriminate].
  destruct (_execute_refine_report w _ _ _) as [[fm fd] |] eqn:Ef; cbn [Py.bind] in H;
    [| discriminate].
  injection H as <-. cbn [update upd_supervisor_messages].
  apply think_tools_answers in Et. apply research_calls_answers in Er as [Er _].
  apply refine_report_answers in Ef as (Ef & _).
  now rewrite !List.map_app, Et, Er, Ef, <- List.app_assoc.
Qed.

Lemma supervisor_appends_decision (st : SupervisorState) (cmd : Command) :
  supervisor w st = Ok cmd ->
  goto cmd = N_supervisor_tools
  /\ exists c tcs,
       supervisor_messages (apply_update st (update cmd))
       = supervisor_messages st ++ [AIMessage c tcs].
Proof.
  unfold supervisor. intros H.
  destruct (try_except _ _) as [[c tcs] |]; cbn [Py.bind] in H; [| discriminate].
  injection H as <-. split; [reflexivity |]. exists c, tcs. reflexivity.
Qed.

(** The history that a run builds from each node.  At the tool step the
    latest decision opens a round which the step closes, with answers or,
    when it ends the run, without. *)
Lemma history_from (fuel : nat) :
  forall (n : node) (st : SupervisorState) (trace : list node),
    match n with
    | N_supervisor_tools =>
        forall base c tcs,
          supervisor_messages st = base ++ [AIMessage c tcs] ->
          exists ms rounds,
            supervisor_messages (final_state (run (step w) is_end fuel n st trace).1)
            = base ++ concat (map round_messages ((c, tcs, ms) :: rounds))
            /\ (ms = [] \/ answered_in_full (c, tcs, ms))
            /\ (rounds <> [] -> answered_in_full (c, tcs, ms))
            /\ Forall answered_in_full (removelast rounds)
            /\ Forall (fun r => r.2 = [] \/ answered_in_full r) rounds
    | _ =>
        exists rounds,
          supervisor_messages (final_state (run (step w) is_end fuel n st trace).1)
          = supervisor_messages st ++ concat (map round_messages rounds)
          /\ Forall answered_in_full (removelast rounds)
          /\ Forall (fun r => r.2 = [] \/ answered_in_full r) rounds
    end.
Proof.
  induction fuel as [| fuel IH]; intros n st trace.
  - destruct n; cbn [run is_end fst final_state].
    + exists []. cbn. rewrite ?List.app_nil_r. repeat split; constructor.
    + intros base c tcs Hm. exists [], []. cbn. rewrite ?List.app_nil_r.
      split; [exact Hm |]. split; [now left |]. split; [congruence |].
      split; constructor.
    + exists []. cbn. rewrite ?List.app_nil_r. repeat split; constructor.
  - destruct n; cbn [run is_end].
    + change (step w N_supervisor st)
        with (Py.bind (supervisor w st) (fun c => Ok (goto c, apply_update st (update c)))).
      destruct (supervisor w st) as [cmd | e] eqn:E; cbn [Py.bind fst final_state].
      2:{ exists []. cbn. rewrite ?List.app_nil_r. repeat split; constructor. }
      destruct (supervisor_appends_decision st cmd E) as (Hg & c & tcs & Hm).
      rewrite Hg.
      destruct (IH N_supervisor_tools (apply_update st (update cmd)) (trace ++ [N_supervisor])
                  (supervisor_messages st) c tcs Hm)
        as (ms & rounds & Hfin & Hp & Hfull & Hinit & Hall).
      exists ((c, tcs, ms) :: rounds). split; [exact Hfin |]. split.
      * destruct rounds as [| r rounds]; [constructor |].
        change (removelast ((c, tcs, ms) :: r :: rounds))
          with ((c, tcs, ms) :: removelast (r :: rounds)).
        constructor; [apply Hfull; discriminate | exact Hinit].
      * constructor; [exact Hp | exact Hall].
    + intros base c tcs Hm.
      assert (Hlast : last (supervisor_messages st) = Some (AIMessage c tcs))
        by (rewrite Hm; apply last_snoc).
      change (step w N_supervisor_tools st)
        with (Py.bind (supervisor_tools w st)
                      (fun c => Ok (goto c, apply_update st (update c)))).
      destruct (supervisor_tools_cases w st c tcs Hlast)
        as [[_ E] | [(_ & _ & E) | (_ & cmd & Hd & Hg & _ & E)]]; rewrite E; cbn [Py.bind].
      * exists [], []. cbn [goto exit_command].
        replace (run (step w) is_end fuel N_END _ _).1
          with (Finished (node := node)
                  (apply_update st (update (exit_command (supervisor_messages st) st))))
          by (destruct fuel; reflexivity).
        cbn. rewrite ?List.app_nil_r.
        split; [exact Hm |]. split; [now left |]. split; [congruence |]. split; constructor.
      * exists [], []. cbn [goto exit_command].
        replace (run (step w) is_end fuel N_END _ _).1
          with (Finished (node := node)
                  (apply_update st (update (exit_command (supervisor_messages st) st))))
          by (destruct fuel; reflexivity).
        cbn. rewrite ?List.app_nil_r.
        split; [exact Hm |]. split; [now left |]. split; [congruence |]. split; constructor.
      * rewrite Hg.
        destruct (IH N_supervisor (apply_update st (update cmd))
                    (trace ++ [N_supervisor_tools])) as (rounds & Hfin & Hinit & Hall).
        pose proof (dispatch_messages st _ c tcs cmd Hd) as Hfull.
        exists (upd_supervisor_messages (update cmd)), rounds.
        split.
        { rewrite Hfin. cbn [apply_update supervisor_messages]. rewrite Hm.
          cbn [map concat round_messages fst snd]. rewrite <- !List.app_assoc. reflexivity. }
        split; [now right |]. split; [intros _; exact Hfull |].
        split; [exact Hinit | exact Hall].
    + exists []. cbn. rewrite ?List.app_nil_r. repeat split; constructor.
Qed.

(** X15. However a supervisor run stops, the history it stops with is the
    history of the input followed by whole rounds: each round is one
    decision of the model followed by its tool messages, which answer the
    reflection, delegation and refinement calls of that decision by name
    and call id, in that order and with nothing in between.  Only the last
    round can be without answers (the run ended or stopped at it), so no
    tool message is ever separated from the decision it answers. *)
Theorem history_is_paired_rounds (fuel : nat) (input : SupervisorState) :
  exists rounds : list round,
    supervisor_messages (final_state (supervisor_agent w fuel input).1)
    = supervisor_messages input ++ concat (map round_messages rounds)
    /\ Forall answered_in_full (removelast rounds)
    /\ Forall (fun r => r.2 = [] \/ answered_in_full r) rounds.
Proof.
  unfold supervisor_agent. exact (history_from fuel N_supervisor input []).
Qed.

End SupervisorRuns.

Section SupervisorExamples.
Import Py Graph Supervisor Shapes.

(** An instance: the delegation is answered after the reflection, although
    the decision lists it first. *)
Lemma dispatch_answers_calls_witness :
  exists cmd,
    dispatch Fixtures.orderly_world Samples.fresh_state
      (supervisor_messages Samples.fresh_state)
      (AIMessage "" [Samples.research_call; Samples.think_call])
    = Ok cmd
    /\ map answered (upd_supervisor_messages (update cmd))
       = [Some ("think_tool", "call_think"); Some ("ConductResearch", "call_research")]
    /\ length (upd_raw_notes (update cmd)) = 1%nat.
Proof.
  destruct (dispatch Fixtures.orderly_world Samples.fresh_state
              (supervisor_messages Samples.fresh_state)
              (AIMessage "" [Samples.research_call; Samples.think_call])) as [cmd | e] eqn:E;
    [| vm_compute in E; discriminate].
  exists cmd. split; [reflexivity |].
  destruct (dispatch_answers_calls Fixtures.orderly_world Samples.fresh_state _ _ _ cmd E)
    as (H1 & H2 & _).
  split; [exact H1 | exact H2].
Defined.

(** An instance: a decision that reflects and refines replaces the draft. *)
Lemma dispatch_refines_draft_witness :
  exists cmd,
    dispatch Fixtures.orderly_world Samples.fresh_state
      (supervisor_messages Samples.fresh_state)
      (AIMessage "" [Samples.think_call; Fixtures.refine_call])
    = Ok cmd
    /\ exists d,
         draft_report (apply_update Samples.fresh_state (update cmd)) = Some d
         /\ Forall (fun m => forall i, answered m = Some ("refine_draft_report", i) ->
                                       content_of m = d)
                   (upd_supervisor_messages (update cmd)).
Proof.
  destruct (dispatch Fixtures.orderly_world Samples.fresh_state
              (supervisor_messages Samples.fresh_state)
              (AIMessage "" [Samples.think_call; Fixtures.refine_call])) as [cmd | e] eqn:E;
    [| vm_compute in E; discriminate].
  exists cmd. split; [reflexivity |].
  destruct (dispatch_refines_draft Fixtures.orderly_world Samples.fresh_state _ _ cmd E)
    as (d & _ & H1 & H2).
  exists d. split; [exact H1 | exact H2].
Defined.

(** An instance: one delegation of two lacks its topic. *)
Lemma delegation_without_topic_witness :
  Exists (fun tc => args tc !! "research_topic" = None)
    [Samples.research_call; Fixtures.topicless_call]
  /\ _execute_research_calls Fixtures.orderly_world
       [Samples.research_call; Fixtures.topicless_call]
     = Raise (KeyError "research_topic").
Proof.
  assert (H : Exists (fun tc => args tc !! "research_topic" = None)
                [Samples.research_call; Fixtures.topicless_call])
    by (apply Exists_cons_tl, Exists_cons_hd; reflexivity).
  split; [exact H |].
  exact (delegation_without_topic Fixtures.orderly_world _ H).
Defined.

(** An instance: the orderly supervisor finishes after three rounds. *)
Lemma finished_run_notes_witness :
  exists final trace,
    supervisor_agent Fixtures.orderly_world 10 Samples.fresh_state = (Finished final, trace)
    /\ notes final
       = notes Samples.fresh_state ++ get_notes_from_tool_calls (supervisor_messages final)
    /\ research_brief final = Some "Research brief: tea"
    /\ exists k, trace = rounds k /\ (1 <= k)%nat.
Proof.
  destruct (supervisor_agent Fixtures.orderly_world 10 Samples.fresh_state)
    as [[final | e n st |] trace] eqn:E;
    [| vm_compute in E; discriminate | vm_compute in E; discriminate].
  exists final, trace. split; [reflexivity |].
  exact (finished_run_notes Fixtures.orderly_world 10 Samples.fresh_state final trace E).
Defined.

(** An instance: a supervisor whose model cannot be reached. *)
Lemma run_crashes_only_in_decision_witness :
  exists e at_node st trace,
    supervisor_agent Fixtures.unreachable_world 10 Samples.fresh_state
    = (Crashed e at_node st, trace)
    /\ at_node = N_supervisor
    /\ supervisor Fixtures.unreachable_world st = Raise e.
Proof.
  destruct (supervisor_agent Fixtures.unreachable_world 10 Samples.fresh_state)
    as [[final | e n st |] trace] eqn:E;
    [vm_compute in E; discriminate | | vm_compute in E; discriminate].
  exists e, n, st, trace. split; [reflexivity |].
  destruct (run_crashes_only_in_decision Fixtures.unreachable_world 10
              Samples.fresh_state st e n trace E) as (H1 & H2 & _).
  split; [exact H1 | exact H2].
Defined.

End SupervisorExamples.

(** ** The tool step of a sub-researcher and the shape of its runs *)

Section ResearcherTools.
Import Py Graph Researcher Shapes.

Variable w : World.

(** The books of the loop: what it has invoked, skipped and observed. *)
Lemma loop_books (tcs : list tool_call) :
  forall ls ls',
    loop w ls tcs = Ok ls' ->
    exists new,
      invoked ls' = invoked ls ++ new
      /\ sublist new tcs
      /\ List.filter (fun tc => negb (is_search tc)) new
         = List.filter (fun tc => negb (is_search tc)) tcs
      /\ skipped_searches ls' = skipped_searches ls + searches tcs - searches new
      /\ length (observations ls') = (length (observations ls) + length tcs)%nat
      /\ (skipped_searches ls < skipped_searches ls' -> MAX_TAVILY_SEARCHES w <= count ls').
Proof.
  induction tcs as [| tc rest IH]; intros ls ls' H; cbn [loop] in H.
  - injection H as <-. exists []. rewrite List.app_nil_r.
    repeat split; [constructor | unfold searches; simpl; lia | simpl; lia | lia].
  - destruct (loop_body w ls tc) as [ls1 |] eqn:E; cbn [Py.bind] in H; [| discriminate].
    pose proof (loop_count w rest ls1 ls' H) as (Hmono & _ & _).
    destruct (IH ls1 ls' H) as (new & Hinv & Hsub & Hfil & Hskip & Hlen & Hmax).
    destruct (loop_body_returns w ls ls1 tc E)
      as [(Es & Hq & ->) | (Hlt & tool & o & _ & _ & ->)];
      cbn [invoked skipped_searches observations count] in *.
    + exists new. split; [exact Hinv |]. split; [now apply sublist_cons |].
      split; [simpl; now rewrite Es |].
      split; [rewrite searches_cons, Es; lia |].
      split; [rewrite Hlen, length_app; simpl; lia |].
      intros _. lia.
    + exists (tc :: new). split; [now rewrite Hinv, <- List.app_assoc |].
      split; [now apply sublist_skip |].
      split; [simpl; destruct (is_search tc); simpl; now rewrite Hfil |].
      split; [rewrite !searches_cons; lia |].
      split; [rewrite Hlen, length_app; simpl; lia |].
      exact Hmax.
Qed.

Lemma zip_outputs (tcs : list tool_call) :
  forall obs : list string,
    length obs = length tcs ->
    map answered (map (fun oc : string * tool_call => ToolMessage oc.1 (name oc.2) (id oc.2))
                      (zip obs tcs))
    = map expected tcs.
Proof.
  induction tcs as [| tc rest IH]; intros [| o obs] Hlen; simpl in *; try discriminate.
  - reflexivity.
  - f_equal. apply IH. lia.
Qed.

(** X16. The tool step of a sub-researcher answers every call of the
    latest reply, skipped or not: its tool messages carry, in the order of
    the calls, the name and the id of one call each, so that pairing the
    observations with the calls drops none of them. *)
Theorem tool_node_answers_every_call (st : ResearcherState) (c : string)
    (tcs : list tool_call) (u : Update) :
  last (researcher_messages st) = Some (AIMessage c tcs) ->
  tool_node w st = Ok u ->
  map answered (upd_researcher_messages u) = map expected tcs
  /\ upd_compressed_research u = None
  /\ upd_raw_notes u = [].
Proof.
  unfold tool_node, tool_node_loop, last_message. intros -> H.
  cbn [Py.bind tool_calls_of] in H.
  destruct (loop w _ tcs) as [ls |] eqn:E; cbn [Py.bind] in H; [| discriminate].
  injection H as <-. cbn [upd_researcher_messages upd_compressed_research upd_raw_notes].
  destruct (loop_books tcs _ ls E) as (_ & _ & _ & _ & _ & Hlen & _).
  split; [| split; reflexivity].
  apply zip_outputs. exact Hlen.
Qed.

(** X17. The books of the tool step: the calls handed to a tool are a
    subsequence of the calls of the reply that contains every call that is
    not a search; the skipped searches are the searches that were not
    handed on, one observation is recorded per call, and a search is only
    skipped when the counter has reached the quota. *)
Theorem tool_node_books (st : ResearcherState) (tcs : list tool_call) (ls : loop_state) :
  tool_node_loop w st = Ok (tcs, ls) ->
  sublist (invoked ls) tcs
  /\ List.filter (fun tc => negb (is_search tc)) (invoked ls)
     = List.filter (fun tc => negb (is_search tc)) tcs
  /\ skipped_searches ls = searches tcs - searches (invoked ls)
  /\ length (observations ls) = length tcs
  /\ (0 < skipped_searches ls -> MAX_TAVILY_SEARCHES w <= count ls).
Proof.
  unfold tool_node_loop. intros H.
  destruct (last_message _) as [m |]; cbn [Py.bind] in H; [| discriminate].
  destruct (tool_calls_of m) as [tcs' |]; cbn [Py.bind] in H; [| discriminate].
  destruct (loop w _ tcs') as [ls' |] eqn:E; cbn [Py.bind] in H; [| discriminate].
  injection H as <- <-.
  destruct (loop_books tcs' _ ls' E) as (new & Hinv & Hsub & Hfil & Hskip & Hlen & Hmax).
  cbn [invoked skipped_searches observations app length] in *. subst new.
  split; [exact Hsub |]. split; [exact Hfil |]. split; [lia |].
  split; [exact Hlen | exact Hmax].
Qed.

Lemma loop_all_skipped (tcs : list tool_call) :
  forall ls,
    MAX_TAVILY_SEARCHES w <= count ls ->
    Forall (fun tc => is_search tc = true) tcs ->
    loop w ls tcs
    = Ok {| observations := observations ls ++ map (fun _ => limit_message w (count ls)) tcs;
            skipped_searches := skipped_searches ls + Z.of_nat (length tcs);
            count := count ls;
            invoked := invoked ls |}.
Proof.
  induction tcs as [| tc rest IH]; intros ls Hq Hall.
  - destruct ls. cbn. now rewrite List.app_nil_r, Z.add_0_r.
  - apply Forall_cons in Hall as [Es Hall]. cbn [loop].
    rewrite (loop_body_skip w ls tc Es Hq). cbn [Py.bind].
    rewrite IH by assumption. cbn [observations skipped_searches count invoked map length].
    rewrite <- List.app_assoc. f_equal. f_equal. rewrite Nat2Z.inj_succ. lia.
Qed.

(** X18. Once the counter has reached the quota, a reply that only asks
    for searches is answered without any tool being invoked and without an
    exception: every call gets the limit message, which quotes the counter,
    and the counter stays as it is. *)
Theorem exhausted_quota_batch (st : ResearcherState) (c : string) (tcs : list tool_call) :
  last (researcher_messages st) = Some (AIMessage c tcs) ->
  MAX_TAVILY_SEARCHES w <= get (tavily_search_count st) 0 ->
  Forall (fun tc => name tc = "tavily_search") tcs ->
  (exists ls, tool_node_loop w st = Ok (tcs, ls)
              /\ invoked ls = []
              /\ skipped_searches ls = Z.of_nat (length tcs))
  /\ tool_node w st
     = Ok {| upd_researcher_messages :=
               map (fun tc => ToolMessage (limit_message w (get (tavily_search_count st) 0))
                                          "tavily_search" (id tc)) tcs;
             upd_tavily_search_count := Some (get (tavily_search_count st) 0);
             upd_compressed_research := None;
             upd_raw_notes := [] |}.
Proof.
  intros Hlast Hq Hall.
  assert (Hs : Forall (fun tc => is_search tc = true) tcs).
  { eapply List.Forall_impl; [| exact Hall]. intros tc Hn. unfold is_search. now rewrite Hn. }
  assert (E : tool_node_loop w st
              = Ok (tcs, {| observations :=
                              map (fun _ => limit_message w (get (tavily_search_count st) 0)) tcs;
                            skipped_searches := Z.of_nat (length tcs);
                            count := get (tavily_search_count st) 0;
                            invoked := [] |})).
  { unfold tool_node_loop, last_message. rewrite Hlast. cbn [Py.bind tool_calls_of].
    rewrite loop_all_skipped by assumption. reflexivity. }
  split; [eexists; split; [exact E | split; reflexivity] |].
  unfold tool_node. rewrite E. cbn [Py.bind observations count]. do 2 f_equal.
  clear E Hlast Hs. induction tcs as [| tc rest IH]; [reflexivity |].
  apply Forall_cons in Hall as [Hn Hall]. cbn. rewrite Hn. f_equal. now apply IH.
Qed.

Lemma loop_app (pre post : list tool_call) (ls : loop_state) :
  loop w ls (pre ++ post) = (let* ls1 := loop w ls pre in loop w ls1 post).
Proof.
  revert ls. induction pre as [| tc pre IH]; intros ls; [reflexivity |].
  cbn [loop app]. destruct (loop_body w ls tc) as [ls1 |]; cbn [Py.bind]; [apply IH | reflexivity].
Qed.

(** X19. A call under a name that is neither of the two tools makes the
    tool step raise [KeyError] with that name as soon as the calls before
    it have been carried out; the calls after it are not looked at, and no
    tool message is produced for the batch. *)
Theorem unknown_tool_raises (st : ResearcherState) (c : string)
    (pre post : list tool_call) (tc : tool_call) (ls : loop_state) :
  last (researcher_messages st) = Some (AIMessage c (pre ++ tc :: post)) ->
  loop w {| observations := []; skipped_searches := 0;
            count := get (tavily_search_count st) 0; invoked := [] |} pre = Ok ls ->
  name tc <> "tavily_search" ->
  name tc <> "think_tool" ->
  tool_node w st = Raise (KeyError (name tc)).
Proof.
  intros Hlast Hpre H1 H2.
  unfold tool_node, tool_node_loop, last_message. rewrite Hlast.
  cbn [Py.bind tool_calls_of]. rewrite loop_app, Hpre. cbn [Py.bind loop].
  apply String.eqb_neq in H1, H2.
  unfold loop_body, execute_tool, tools_by_name. rewrite H1, H2. reflexivity.
Qed.

End ResearcherTools.

Section ResearcherRuns.
Import Py Graph Researcher Shapes.

Variable w : World.

(** The model call and the routing after it. *)
Lemma llm_call_step (st st' : ResearcherState) (n' : node) :
  step w N_llm_call st = Ok (n', st') ->
  exists c tcs,
    model_with_tools w (SystemMessage (formatted_prompt w) :: researcher_messages st)
    = Ok (c, tcs)
    /\ st' = apply_update st {| upd_researcher_messages := [AIMessage c tcs];
                                upd_tavily_search_count := None;
                                upd_compressed_research := None;
                                upd_raw_notes := [] |}
    /\ n' = match tcs with [] => N_compress_research | _ => N_tool_node end.
Proof.
  cbn [step]. unfold llm_call. intros H.
  destruct (model_with_tools w _) as [[c tcs] |] eqn:E; cbn [Py.bind] in H; [| discriminate].
  exists c, tcs. split; [reflexivity |].
  unfold should_continue, last_message in H.
  cbn [apply_update researcher_messages upd_researcher_messages fst snd] in H.
  rewrite last_snoc in H. cbn [Py.bind tool_calls_of] in H.
  destruct tcs; cbn [Py.bind] in H; injection H as <- <-; split; reflexivity.
Qed.

Lemma tool_node_step (st st' : ResearcherState) (n' : node) :
  step w N_tool_node st = Ok (n', st') ->
  n' = N_llm_call
  /\ raw_notes st' = raw_notes st
  /\ research_topic st' = research_topic st
  /\ researcher_messages st `prefix_of` researcher_messages st'.
Proof.
  cbn [step]. intros H.
  destruct (tool_node w st) as [u |] eqn:E; cbn [Py.bind] in H; [| discriminate].
  injection H as <- <-. split; [reflexivity |].
  unfold tool_node in E.
  destruct (tool_node_loop w st) as [[tcs ls] |]; cbn [Py.bind] in E; [| discriminate].
  injection E as <-. cbn. rewrite List.app_nil_r.
  split; [reflexivity |]. split; [reflexivity |]. now apply prefix_app_r.
Qed.

Lemma compress_step (st st' : ResearcherState) (n' : node) :
  step w N_compress_research st = Ok (n', st') ->
  n' = N_END
  /\ researcher_messages st' = researcher_messages st
  /\ research_topic st' = research_topic st
  /\ raw_notes st'
     = raw_notes st
       ++ [join_lines
             (map content_of
                  (List.filter (fun m => is_tool_message m || is_ai_message m)
                     (researcher_messages st)))]
  /\ exists r,
       compress_model w (SystemMessage (compress_system_message w)
                         :: researcher_messages st
                         ++ [HumanMessage (compress_human_message w)]) = Ok r
       /\ compressed_research st' = Some r.
Proof.
  cbn [step]. unfold compress_research. intros H.
  destruct (compress_model w _) as [r |] eqn:E; cbn [Py.bind] in H; [| discriminate].
  injection H as <- <-. cbn. rewrite List.app_nil_r.
  split; [reflexivity |]. split; [reflexivity |]. split; [reflexivity |].
  split; [reflexivity |]. exists r. split; reflexivity.
Qed.

(** What holds of a run that finishes, from each node. *)
Lemma finished_from (fuel : nat) :
  forall (n : node) (st final : ResearcherState) (trace tr : list node),
    run (step w) is_end fuel n st trace = (Finished final, tr) ->
    n <> N_END ->
    (n = N_compress_research ->
     exists c, last (researcher_messages st) = Some (AIMessage c [])) ->
    (raw_notes final
     = raw_notes st
       ++ [join_lines
             (map content_of
                  (List.filter (fun m => is_tool_message m || is_ai_message m)
                     (researcher_messages final)))])
    /\ (exists r,
          compress_model w (SystemMessage (compress_system_message w)
                            :: researcher_messages final
                            ++ [HumanMessage (compress_human_message w)]) = Ok r
          /\ compressed_research final = Some r)
    /\ (exists c, last (researcher_messages final) = Some (AIMessage c []))
    /\ research_topic final = research_topic st
    /\ exists k,
         tr = trace ++ match n with
                       | N_llm_call => turns k
                       | N_tool_node => N_tool_node :: turns k
                       | N_compress_research => [N_compress_research]
                       | N_END => []
                       end.
Proof.
  induction fuel as [| fuel IH]; intros n st final trace tr H Hn Hlast.
  - destruct n; cbn in H; congruence.
  - destruct n; [| | | congruence]; cbn [run is_end] in H.
    + destruct (step w N_llm_call st) as [[n' st'] |] eqn:E; [| discriminate].
      destruct (llm_call_step st st' n' E) as (c & tcs & _ & Hst & Hn').
      assert (Hr : raw_notes st' = raw_notes st)
        by (rewrite Hst; cbn; now rewrite List.app_nil_r).
      assert (Ht : research_topic st' = research_topic st) by now rewrite Hst.
      assert (Hl : last (researcher_messages st') = Some (AIMessage c tcs))
        by (rewrite Hst; cbn; apply last_snoc).
      destruct tcs as [| tc tcs]; subst n'.
      * destruct (IH _ _ _ _ _ H) as (H1 & H2 & H3 & H4 & k & H5);
          [discriminate | intros _; eauto |].
        rewrite Hr in H1. rewrite Ht in H4. repeat (split; [assumption |]).
        exists 0%nat. rewrite H5, <- List.app_assoc. reflexivity.
      * destruct (IH _ _ _ _ _ H) as (H1 & H2 & H3 & H4 & k & H5);
          [discriminate | discriminate |].
        rewrite Hr in H1. rewrite Ht in H4. repeat (split; [assumption |]).
        exists (S k). rewrite H5, <- List.app_assoc. reflexivity.
    + destruct (step w N_tool_node st) as [[n' st'] |] eqn:E; [| discriminate].
      destruct (tool_node_step st st' n' E) as (-> & Hr & Ht & _).
      destruct (IH _ _ _ _ _ H) as (H1 & H2 & H3 & H4 & k & H5);
        [discriminate | discriminate |].
      rewrite Hr in H1. rewrite Ht in H4. repeat (split; [assumption |]).
      exists k. rewrite H5, <- List.app_assoc. reflexivity.
    + destruct (step w N_compress_research st) as [[n' st'] |] eqn:E; [| discriminate].
      destruct (compress_step st st' n' E) as (-> & Hm & Ht & Hr & r & Hc & Hs).
      assert (Hfin : final = st' /\ tr = trace ++ [N_compress_research])
        by (destruct fuel; cbn in H; injection H as <- <-; split; reflexivity).
      destruct Hfin as [-> ->]. rewrite Hm.
      split; [exact Hr |]. split; [eauto |]. split; [now apply Hlast |].
      split; [exact Ht |]. exists 0%nat. reflexivity.
Qed.

(** X20. A sub-researcher run that finishes ends with a model reply that
    asks for no tool, followed by the compression: the compressed research
    is the reply of the compression model to the whole history, exactly one
    raw note is added, the newline-joined contents of the tool and model
    messages of that history, and the nodes ran in rounds of a model call
    and a tool step. *)
Theorem finished_research_output (fuel : nat) (input final : ResearcherState)
    (trace : list node) :
  researcher_agent w fuel input = (Finished final, trace) ->
  (raw_notes final
   = raw_notes input
     ++ [join_lines
           (map content_of
                (List.filter (fun m => is_tool_message m || is_ai_message m)
                   (researcher_messages final)))])
  /\ (exists r,
        compress_model w (SystemMessage (compress_system_message w)
                          :: researcher_messages final
                          ++ [HumanMessage (compress_human_message w)]) = Ok r
        /\ compressed_research final = Some r)
  /\ (exists c, last (researcher_messages final) = Some (AIMessage c []))
  /\ research_topic final = research_topic input
  /\ exists k, trace = turns k.
Proof.
  unfold researcher_agent. intros H.
  apply (finished_from fuel N_llm_call input final [] trace H); discriminate.
Qed.

Lemma loop_succeeds (tcs : list tool_call) :
  (forall a, exists o, tavily_search w a = Ok o) ->
  (forall a, exists o, think_tool w a = Ok o) ->
  Forall (fun tc => name tc = "tavily_search" \/ name tc = "think_tool") tcs ->
  forall ls, exists ls', loop w ls tcs = Ok ls'.
Proof.
  intros Hs Ht. induction 1 as [| tc rest Hn _ IH]; intros ls; [eexists; reflexivity |].
  cbn [loop].
  assert (Hb : exists ls1, loop_body w ls tc = Ok ls1).
  { unfold loop_body, execute_tool, tools_by_name.
    destruct Hn as [-> | ->]; cbn.
    - destruct (MAX_TAVILY_SEARCHES w <=? count ls); [eauto |].
      destruct (Hs (args tc)) as [o ->]. cbn. eauto.
    - destruct (Ht (args tc)) as [o ->]. cbn. eauto. }
  destruct Hb as [ls1 ->]. cbn [Py.bind]. apply IH.
Qed.

Lemma busy_from (Hbusy : always_busy w) (fuel : nat) :
  forall (n : node) (st : ResearcherState) (trace : list node),
    n = N_llm_call
    \/ (n = N_tool_node
        /\ exists c tcs,
             last (researcher_messages st) = Some (AIMessage c tcs)
             /\ Forall (fun tc => name tc = "tavily_search" \/ name tc = "think_tool") tcs) ->
    out_of_fuel (run (step w) is_end fuel n st trace).1 = true.
Proof.
  destruct Hbusy as (Hm & Hs & Ht).
  induction fuel as [| fuel IH]; intros n st trace Hn.
  - destruct Hn as [-> | [-> _]]; reflexivity.
  - destruct Hn as [-> | [-> (c & tcs & Hlast & Hall)]]; cbn [run is_end].
    + destruct (Hm (SystemMessage (formatted_prompt w) :: researcher_messages st))
        as (c & tcs & E & Hne & Hall).
      assert (Hstep : step w N_llm_call st
                      = Ok (N_tool_node,
                            apply_update st {| upd_researcher_messages := [AIMessage c tcs];
                                               upd_tavily_search_count := None;
                                               upd_compressed_research := None;
                                               upd_raw_notes := [] |})).
      { cbn [step]. unfold llm_call. rewrite E. cbn [Py.bind fst snd].
        unfold should_continue, last_message.
        cbn [apply_update researcher_messages upd_researcher_messages].
        rewrite last_snoc. cbn [Py.bind tool_calls_of].
        destruct tcs; [congruence | reflexivity]. }
      rewrite Hstep. apply IH. right. split; [reflexivity |].
      exists c, tcs. split; [| exact Hall]. cbn. apply last_snoc.
    + assert (Hstep : exists u, tool_node w st = Ok u).
      { unfold tool_node, tool_node_loop, last_message. rewrite Hlast.
        cbn [Py.bind tool_calls_of].
        destruct (loop_succeeds tcs Hs Ht Hall
                    {| observations := []; skipped_searches := 0;
                       count := get (tavily_search_count st) 0; invoked := [] |})
          as [ls ->].
        cbn [Py.bind]. eauto. }
      destruct Hstep as [u Hu]. cbn [step]. rewrite Hu. cbn [Py.bind].
      apply IH. now left.
Qed.

(** X21. The graph of a sub-researcher has no exit of its own while the
    model keeps asking for its tools: the quota turns searches into limit
    messages but does not end the loop, so that with tools that do not fail
    no number of steps brings the run to its end. *)
Theorem busy_researcher_never_finishes (fuel : nat) (input : ResearcherState) :
  always_busy w ->
  out_of_fuel (researcher_agent w fuel input).1 = true.
Proof.
  intros Hbusy. unfold researcher_agent. apply (busy_from Hbusy). now left.
Qed.

End ResearcherRuns.

Section ResearcherExamples.
Import Py Graph Researcher Shapes.

(** An instance: a batch of which the last search is skipped. *)
Lemma tool_node_answers_every_call_witness :
  exists u,
    tool_node Samples.eager_world Fixtures.mixed_state = Ok u
    /\ map answered (upd_researcher_messages u)
       = [Some ("tavily_search", "call_search_5"); Some ("think_tool", "call_think");
          Some ("tavily_search", "call_search_6")].
Proof.
  destruct (tool_node Samples.eager_world Fixtures.mixed_state) as [u | e] eqn:E;
    [| vm_compute in E; discriminate].
  exists u. split; [reflexivity |].
  destruct (tool_node_answers_every_call Samples.eager_world Fixtures.mixed_state ""
              [Samples.search_call "5"; Samples.think_call; Samples.search_call "6"] u
              eq_refl E) as (H & _).
  exact H.
Defined.

(** An instance: of the same batch two calls are handed on and one search
    is skipped. *)
Lemma tool_node_books_witness :
  exists tcs ls,
    tool_node_loop Samples.eager_world Fixtures.mixed_state = Ok (tcs, ls)
    /\ sublist (invoked ls) tcs
    /\ skipped_searches ls = searches tcs - searches (invoked ls)
    /\ length (observations ls) = length tcs.
Proof.
  destruct (tool_node_loop Samples.eager_world Fixtures.mixed_state) as [[tcs ls] | e] eqn:E;
    [| vm_compute in E; discriminate].
  exists tcs, ls. split; [reflexivity |].
  destruct (tool_node_books Samples.eager_world Fixtures.mixed_state tcs ls E)
    as (H1 & _ & H2 & H3 & _).
  split; [exact H1 |]. split; [exact H2 | exact H3].
Defined.

(** An instance: two searches after the quota of five is used up. *)
Lemma exhausted_quota_batch_witness :
  exists u,
    tool_node Fixtures.tireless_world Fixtures.exhausted_state = Ok u
    /\ map content_of (upd_researcher_messages u)
       = [limit_message Fixtures.tireless_world 5; limit_message Fixtures.tireless_world 5]
    /\ upd_tavily_search_count u = Some 5.
Proof.
  assert (Hq : MAX_TAVILY_SEARCHES Fixtures.tireless_world
               <= get (tavily_search_count Fixtures.exhausted_state) 0) by (cbn; lia).
  assert (Hall : Forall (fun tc => name tc = "tavily_search")
                   [Samples.search_call "7"; Samples.search_call "8"])
    by (repeat constructor).
  destruct (exhausted_quota_batch Fixtures.tireless_world Fixtures.exhausted_state ""
              [Samples.search_call "7"; Samples.search_call "8"] eq_refl Hq Hall)
    as (_ & H).
  eexists. split; [exact H |]. split; reflexivity.
Defined.

(** An instance: a batch that names a tool of the supervisor. *)
Lemma unknown_tool_raises_witness :
  tool_node Samples.eager_world Fixtures.stray_state = Raise (KeyError "ResearchComplete").
Proof.
  destruct (loop Samples.eager_world
              {| observations := []; skipped_searches := 0;
                 count := get (tavily_search_count Fixtures.stray_state) 0; invoked := [] |}
              [Samples.search_call "1"]) as [ls | e] eqn:E;
    [| vm_compute in E; discriminate].
  assert (H1 : name Fixtures.complete_call <> "tavily_search") by discriminate.
  assert (H2 : name Fixtures.complete_call <> "think_tool") by discriminate.
  exact (unknown_tool_raises Samples.eager_world Fixtures.stray_state ""
           [Samples.search_call "1"] [Samples.think_call] Fixtures.complete_call ls
           eq_refl E H1 H2).
Defined.

(** An instance: the eager sub-researcher finishes after one round of
    tools. *)
Lemma finished_research_output_witness :
  exists final trace,
    researcher_agent Samples.eager_world 10 Samples.topic_state = (Finished final, trace)
    /\ compressed_research final <> None
    /\ length (raw_notes final) = 1%nat
    /\ exists k, trace = turns k.
Proof.
  destruct (researcher_agent Samples.eager_world 10 Samples.topic_state)
    as [[final | e n st |] trace] eqn:E;
    [| vm_compute in E; discriminate | vm_compute in E; discriminate].
  exists final, trace. split; [reflexivity |].
  destruct (finished_research_output Samples.eager_world 10 Samples.topic_state final trace E)
    as (H1 & (r & _ & H2) & _ & _ & H3).
  split; [rewrite H2; discriminate |]. split; [rewrite H1; reflexivity | exact H3].
Defined.

(** An instance: a model that asks for a search in every turn. *)
Lemma busy_researcher_never_finishes_witness :
  always_busy Fixtures.tireless_world
  /\ out_of_fuel (researcher_agent Fixtures.tireless_world 100 Samples.topic_state).1 = true.
Proof.
  assert (H : always_busy Fixtures.tireless_world).
  { split; [| split]; intros; cbn.
    - exists "", [Samples.search_call "1"]. split; [reflexivity |].
      split; [discriminate |]. repeat constructor.
    - eauto.
    - eauto. }
  split; [exact H |].
  exact (busy_researcher_never_finishes Fixtures.tireless_world 100 Samples.topic_state H).
Defined.

End ResearcherExamples.

(** ** The line limit of the summary *)

Section SummaryLimit.
Import Py Summary.

Lemma join_chars_app (sep : ascii) (l1 l2 : list (list ascii)) :
  l1 <> [] -> l2 <> [] ->
  join_chars sep (l1 ++ l2) = join_chars sep l1 ++ sep :: join_chars sep l2.
Proof.
  intros H1 H2. induction l1 as [| x [| y l1] IH]; [congruence | |].
  - destruct l2; [congruence | reflexivity].
  - change (join_chars sep ((x :: y :: l1) ++ l2))
      with (x ++ sep :: join_chars sep ((y :: l1) ++ l2)).
    rewrite IH by discriminate.
    change (join_chars sep (x :: y :: l1)) with (x ++ sep :: join_chars sep (y :: l1)).
    now rewrite <- List.app_assoc.
Qed.

(** The truncated text with its note is the join of the kept lines, an
    empty line and the note. *)
Lemma join_lines_note (kept : list string) :
  kept <> [] ->
  join_lines kept +:+ nl +:+ nl +:+ truncation_note
  = join_lines (kept ++ [""; truncation_note]).
Proof.
  intros Hne. rewrite <- (str_chars (join_lines kept +:+ _)).
  unfold join_lines at 2. f_equal.
  rewrite !chars_append. unfold join_lines. rewrite chars_str, List.map_app.
  rewrite join_chars_app; [reflexivity | | discriminate].
  destruct kept; [congruence | discriminate].
Qed.

Lemma cut_at_blank_spec (truncated : list string) (indices : list Z) :
  Forall (fun i => 0 <= i < len truncated) indices ->
  exists k,
    cut_at_blank truncated indices = Ok (take k truncated)
    /\ ((k = length truncated /\ Forall (fun i => exists line, truncated !! Z.to_nat i = Some line /\ is_blank line = false) indices)
        \/ exists pre i post,
             indices = pre ++ i :: post
             /\ Forall (fun j => exists line, truncated !! Z.to_nat j = Some line /\ is_blank line = false) pre
             /\ k = Z.to_nat (i + 1)
             /\ exists line, truncated !! Z.to_nat i = Some line /\ is_blank line = true).
Proof.
  induction 1 as [| i rest Hi _ IH].
  - exists (length truncated). split; [cbn; now rewrite firstn_all | left; auto].
  - cbn [cut_at_blank]. unfold item, len in *.
    destruct (truncated !! Z.to_nat i) as [line |] eqn:El.
    2:{ apply lookup_ge_None in El. lia. }
    cbn [Py.bind]. destruct (is_blank line) eqn:Eb.
    + exists (Z.to_nat (i + 1)). split; [reflexivity |]. right.
      exists [], i, rest. repeat split; [constructor |]. eauto.
    + destruct IH as (k & Hk & [[-> Hall] | (pre & j & post & -> & Hpre & -> & Hline)]).
      * exists (length truncated). split; [exact Hk |]. left. split; [reflexivity |].
        constructor; eauto.
      * exists (Z.to_nat (j + 1)). split; [exact Hk |]. right.
        exists (i :: pre), j, post. repeat split; [constructor; eauto |]. exact Hline.
Qed.

Lemma range_down_bounds (start stop : Z) :
  Forall (fun i => stop < i <= start) (range_down start stop).
Proof.
  unfold range_down. apply List.Forall_forall. intros i Hi.
  apply List.in_map_iff in Hi as (k & <- & Hk). apply List.in_seq in Hk. lia.
Qed.

(** The indices before a given one in a descending range. *)
Lemma range_down_split (start stop i : Z) (pre post : list Z) :
  range_down start stop = pre ++ i :: post ->
  forall j, i < j <= start -> In j pre.
Proof.
  unfold range_down. intros H j Hj.
  assert (Hlen : (length pre < Z.to_nat (start - stop))%nat).
  { apply (f_equal (@length Z)) in H.
    rewrite length_map, length_seq, length_app in H. simpl in H. lia. }
  assert (Hi : i = start - Z.of_nat (length pre)).
  { apply (f_equal (fun l => l !! length pre)) in H.
    rewrite list_lookup_fmap, lookup_seq_lt in H by exact Hlen.
    rewrite lookup_app_r, Nat.sub_diag in H by lia. cbn in H. congruence. }
  assert (Hpre : pre = map (fun k => start - Z.of_nat k) (seq 0 (length pre))).
  { apply (f_equal (take (length pre))) in H.
    rewrite take_app_length, <- fmap_take, take_seq in H.
    rewrite Nat.min_l in H by lia. now symmetry. }
  assert (Hin : In j (map (fun k => start - Z.of_nat k) (seq 0 (length pre)))).
  { apply List.in_map_iff. exists (Z.to_nat (start - j)).
    split; [lia |]. apply List.in_seq. lia. }
  now rewrite <- Hpre in Hin.
Qed.

(** The cut of a reply of more than 250 lines. *)
Lemma limit_lines_cut (summary : string) :
  250 < len (split_lines summary) ->
  exists k : nat,
    (242 <= k <= 250)%nat
    /\ limit_lines summary
       = Ok (join_lines (take k (split_lines summary) ++ [""; truncation_note]))
    /\ split_lines (join_lines (take k (split_lines summary) ++ [""; truncation_note]))
       = take k (split_lines summary) ++ [""; truncation_note]
    /\ ((k < 250)%nat ->
        exists line, split_lines summary !! (k - 1)%nat = Some line
                     /\ is_blank line = true)
    /\ forall j : nat, (241 <= j < 250)%nat -> (k <= j)%nat ->
         exists line, split_lines summary !! j = Some line /\ is_blank line = false.
Proof.
  unfold limit_lines. set (lines := split_lines summary).
  intros H. pose proof H as Hlt. apply Z.ltb_lt in Hlt. rewrite Hlt. clear Hlt.
  unfold len in H.
  assert (Hlen : length (take 250 lines) = 250%nat) by (rewrite length_take; lia).
  assert (Hidx : range_down (len (take 250 lines) - 1) (Z.max 0 (len (take 250 lines) - 10))
                 = range_down 249 240).
  { unfold len. rewrite Hlen. reflexivity. }
  rewrite Hidx.
  destruct (cut_at_blank_spec (take 250 lines) (range_down 249 240)) as (k & Hk & Hcase).
  { eapply List.Forall_impl; [| apply range_down_bounds].
    intros i Hi. unfold len. rewrite Hlen. cbn beta in Hi. lia. }
  rewrite Hk. cbn [Py.bind].
  assert (Hsplit : forall k', (1 <= k')%nat ->
            split_lines (join_lines (take k' lines ++ [""; truncation_note]))
            = take k' lines ++ [""; truncation_note]).
  { intros k' Hk'. apply split_join_lines.
    - destruct (take k' lines); discriminate.
    - apply Forall_app. split.
      + apply Forall_take. apply split_lines_no_newline.
      + repeat constructor; vm_compute; intuition discriminate. }
  assert (Hnb : forall i, 0 <= i < 250 ->
            (exists line, take 250 lines !! Z.to_nat i = Some line /\ is_blank line = false) ->
            exists line, lines !! Z.to_nat i = Some line /\ is_blank line = false).
  { intros i Hi (line & Hl & Hb). exists line. split; [| exact Hb].
    apply lookup_take_Some in Hl. tauto. }
  destruct Hcase as [[-> Hall] | (pre & i & post & Hidx' & Hpre & -> & line & Hl & Hb)].
  + exists 250%nat. rewrite Hlen, take_take, Nat.min_id.
    split; [lia |]. split; [rewrite join_lines_note; [reflexivity |] |].
    { destruct lines; [simpl in H; lia | discriminate]. }
    split; [apply Hsplit; lia |]. split; [lia |].
    intros j Hj _. rewrite List.Forall_forall in Hall.
    replace j with (Z.to_nat (Z.of_nat j)) by lia.
    apply Hnb; [lia |]. apply Hall.
    unfold range_down. apply List.in_map_iff. exists (249 - j)%nat.
    split; [lia |]. apply List.in_seq. lia.
  + assert (Hi : 240 < i <= 249).
    { pose proof (range_down_bounds 249 240) as Hb'. rewrite Hidx' in Hb'.
      apply Forall_app in Hb' as [_ Hb']. apply Forall_cons in Hb' as [Hb' _]. exact Hb'. }
    exists (Z.to_nat (i + 1)). rewrite take_take.
    replace (Z.to_nat (i + 1) `min` 250)%nat with (Z.to_nat (i + 1)) by lia.
    split; [lia |]. split; [rewrite join_lines_note; [reflexivity |] |].
    { destruct lines; [simpl in H; lia |].
      replace (Z.to_nat (i + 1)) with (S (Z.to_nat i)) by lia. discriminate. }
    split; [apply Hsplit; lia |]. split.
    * intros _. exists line. split; [| exact Hb].
      replace (Z.to_nat (i + 1) - 1)%nat with (Z.to_nat i) by lia.
      apply lookup_take_Some in Hl. tauto.
    * intros j Hj Hkj. rewrite List.Forall_forall in Hpre.
      replace j with (Z.to_nat (Z.of_nat j)) by lia.
      apply Hnb; [lia |]. apply Hpre.
      apply (range_down_split 249 240 i pre post Hidx'). lia.
Qed.


(** X23. Whatever the arguments, the summarization model is asked with a
    report of at most 50000 characters and with a red-team report and a
    query of at most 20000 characters that are never empty; an exception of
    the model is passed on, and otherwise a summary of at most 252 lines
    comes back, which is the reply itself when that has at most 250
    lines. *)
Theorem create_summary_bounds (model : Model) (main_report red_team_report user_query : string) :
  exists p,
    (String.length (Summary.main_report p) <= 50000)%nat
    /\ (0 < String.length (Summary.red_team_report p) <= 20000)%nat
    /\ (0 < String.length (Summary.user_query p) <= 20000)%nat
    /\ match model p with
       | Raise e => create_summary model main_report red_team_report user_query = Raise e
       | Ok reply =>
           exists r,
             create_summary model main_report red_team_report user_query = Ok r
             /\ (length (split_lines r) <= 252)%nat
             /\ (len (split_lines reply) <= 250 -> r = reply)
       end.
Proof.
  unfold create_summary.
  exists {| Summary.main_report := prefix 50000 main_report;
            Summary.red_team_report :=
              prefix 20000 (if String.eqb red_team_report ""
                            then "No red team evaluation available."
                            else red_team_report);
            Summary.user_query :=
              prefix 20000
                (if String.eqb user_query ""
                 then "Summarize the key findings and conclusions from the research report."
                 else user_query) |}.
  cbn [Summary.main_report Summary.red_team_report Summary.user_query].
  split; [apply length_prefix |].
  split.
  { split; [| apply length_prefix].
    destruct (String.eqb red_team_report "") eqn:E; [vm_compute; lia |].
    apply String.eqb_neq in E. destruct red_team_report; [congruence |].
    unfold prefix. rewrite length_str. cbn. lia. }
  split.
  { split; [| apply length_prefix].
    destruct (String.eqb user_query "") eqn:E; [vm_compute; lia |].
    apply String.eqb_neq in E. destruct user_query; [congruence |].
    unfold prefix. rewrite length_str. cbn. lia. }
  destruct (model _) as [reply | e]; cbn [Py.bind]; [| reflexivity].
  destruct (Z_le_gt_dec (len (split_lines reply)) 250) as [Hle | Hgt].
  - exists reply. unfold limit_lines. pose proof Hle as Hb. apply Z.ltb_ge in Hb. rewrite Hb.
    split; [reflexivity |]. split; [unfold len in Hle; lia | auto].
  - destruct (limit_lines_cut reply) as (k & Hk & Hr & Hs & _); [lia |].
    eexists. split; [exact Hr |]. split; [| lia].
    rewrite Hs, length_app, length_take. simpl. lia.
Qed.

End SummaryLimit.

Section SummaryExamples.
Import Py Summary.


End SummaryExamples.

(** ** The usage statistics *)

Section UsageBooks.
Import Py Usage.

Lemma sum_of_insert (f : Tokens -> Z) (m : gmap string Tokens) (n : string) (t : Tokens) :
  sum_of f (<[n := t]> m)
  = f t + sum_of f m - match m !! n with Some old => f old | None => 0 end.
Proof.
  unfold sum_of.
  assert (Hfresh : forall (m' : gmap string Tokens) (x : Tokens),
            m' !! n = None ->
            map_fold (fun _ t acc => f t + acc) 0 (<[n := x]> m')
            = f x + map_fold (fun _ t acc => f t + acc) 0 m').
  { intros m' x Hn. apply (map_fold_insert_L (fun _ t acc => f t + acc)); [| exact Hn].
    intros. lia. }
  destruct (m !! n) as [old |] eqn:E.
  - rewrite <- (insert_delete_id m n old E) at 2.
    rewrite <- insert_delete_eq.
    rewrite !Hfresh by apply lookup_delete_eq. lia.
  - rewrite Hfresh by exact E. lia.
Qed.

(** What one call does to the books. *)
Lemma apply_call_books (s : UsageStats) (c : call) :
  (openai_total_tokens s = openai_prompt_tokens s + openai_completion_tokens s ->
   openai_total_tokens (apply_call s c)
   = openai_prompt_tokens (apply_call s c) + openai_completion_tokens (apply_call s c))
  /\ ((forall n t, model_usage s !! n = Some t ->
                   total_tokens t = prompt_tokens t + completion_tokens t) ->
      forall n t, model_usage (apply_call s c) !! n = Some t ->
                  total_tokens t = prompt_tokens t + completion_tokens t)
  /\ (forall n, is_Some (model_usage s !! n) -> is_Some (model_usage (apply_call s c) !! n)).
Proof.
  destruct c as [p k name |]; cbn [apply_call].
  - unfold add_openai_usage. cbn. split; [lia |].
    destruct (named name) as [n' |]; [| auto]. split.
    + intros Hall n t. destruct (decide (n = n')) as [-> | Hne].
      * rewrite lookup_insert_eq. intros [= <-]. unfold add_tokens. cbn.
        destruct (model_usage s !! n') as [old |] eqn:E; [| cbn; lia].
        specialize (Hall n' old E). lia.
      * rewrite lookup_insert_ne by congruence. apply Hall.
    + intros n Hn. destruct (decide (n = n')) as [-> | Hne].
      * rewrite lookup_insert_eq. eauto.
      * now rewrite lookup_insert_ne by congruence.
  - cbn. auto.
Qed.

Lemma fold_books (calls : list call) :
  forall s,
    openai_total_tokens s = openai_prompt_tokens s + openai_completion_tokens s ->
    (forall n t, model_usage s !! n = Some t ->
                 total_tokens t = prompt_tokens t + completion_tokens t) ->
    openai_total_tokens (fold_left apply_call calls s)
    = openai_prompt_tokens (fold_left apply_call calls s)
      + openai_completion_tokens (fold_left apply_call calls s)
    /\ (forall n t, model_usage (fold_left apply_call calls s) !! n = Some t ->
                    total_tokens t = prompt_tokens t + completion_tokens t)
    /\ (forall n, is_Some (model_usage s !! n) ->
                  is_Some (model_usage (fold_left apply_call calls s) !! n)).
Proof.
  induction calls as [| c rest IH]; intros s H1 H2; cbn [fold_left]; [auto |].
  destruct (apply_call_books s c) as (Ha & Hb & Hc).
  destruct (IH (apply_call s c) (Ha H1) (Hb H2)) as (I1 & I2 & I3).
  split; [exact I1 |]. split; [exact I2 |]. intros n Hn. apply I3, Hc, Hn.
Qed.

Lemma fold_tavily_calls (calls : list call) :
  forall s,
    tavily_api_calls (fold_left apply_call calls s)
    = tavily_api_calls s
      + Z.of_nat (length (List.filter (fun c => match c with AddTavily => true | _ => false end)
                            calls)).
Proof.
  induction calls as [| c rest IH]; intros s.
  - cbn. lia.
  - destruct c; cbn [fold_left List.filter]; rewrite IH; cbn; lia.
Qed.

(** X24. After any sequence of calls on fresh statistics the books add
    up: the aggregated total is the sum of the aggregated prompt and
    completion tokens, every entry of the per-model table has a total that
    is the sum of its two parts, the three models of the default table are
    still listed, and the search counter is the number of search calls. *)
Theorem usage_books_add_up (calls : list call) :
  openai_total_tokens (after calls)
  = openai_prompt_tokens (after calls) + openai_completion_tokens (after calls)
  /\ (forall n t, model_usage (after calls) !! n = Some t ->
                  total_tokens t = prompt_tokens t + completion_tokens t)
  /\ (forall n, In n ["summarization_model"; "writer_model"; "evaluator_model"] ->
                is_Some (model_usage (after calls) !! n))
  /\ tavily_api_calls (after calls)
     = Z.of_nat (length (List.filter (fun c => match c with AddTavily => true | _ => false end)
                           calls)).
Proof.
  unfold after.
  assert (H0 : forall n t, model_usage UsageStats_default !! n = Some t ->
                           total_tokens t = prompt_tokens t + completion_tokens t).
  { intros n t. unfold UsageStats_default. cbn [model_usage].
    rewrite !lookup_insert_Some, lookup_empty.
    intros [[_ <-] | [_ [[_ <-] | [_ [[_ <-] | [_ ?]]]]]]; [reflexivity .. | discriminate]. }
  destruct (fold_books calls UsageStats_default eq_refl H0) as (H1 & H2 & H3).
  split; [exact H1 |]. split; [exact H2 |]. split.
  - intros n Hn. apply H3. cbn in Hn.
    destruct Hn as [<- | [<- | [<- | []]]]; vm_compute; eauto.
  - rewrite fold_tavily_calls. cbn [tavily_api_calls UsageStats_default]. lia.
Qed.

Lemma fold_sums (calls : list call) :
  all_named calls ->
  forall s,
    openai_prompt_tokens s = sum_of prompt_tokens (model_usage s) ->
    openai_completion_tokens s = sum_of completion_tokens (model_usage s) ->
    openai_prompt_tokens (fold_left apply_call calls s)
    = sum_of prompt_tokens (model_usage (fold_left apply_call calls s))
    /\ openai_completion_tokens (fold_left apply_call calls s)
       = sum_of completion_tokens (model_usage (fold_left apply_call calls s)).
Proof.
  induction 1 as [| c rest Hc _ IH]; intros s H1 H2; cbn [fold_left]; [auto |].
  apply IH; destruct c as [p k name |]; cbn [apply_call]; try assumption;
    unfold add_openai_usage; cbn [openai_prompt_tokens openai_completion_tokens model_usage];
    (destruct (named name) as [n |]; [| congruence]);
    rewrite sum_of_insert; destruct (model_usage s !! n); cbn; lia.
Qed.

(** X25. As long as every call names its model, the aggregated prompt
    and completion tokens are the sums of the per-model table.  A call
    without a model name is counted in the aggregate only: it leaves the
    table as it is. *)
Theorem usage_aggregate_is_sum_of_models (calls : list call) :
  all_named calls ->
  openai_prompt_tokens (after calls) = sum_of prompt_tokens (model_usage (after calls))
  /\ openai_completion_tokens (after calls)
     = sum_of completion_tokens (model_usage (after calls))
  /\ forall prompt completion model_name,
       named model_name = None ->
       model_usage (add_openai_usage (after calls) prompt completion model_name)
       = model_usage (after calls)
       /\ openai_prompt_tokens (add_openai_usage (after calls) prompt completion model_name)
          = sum_of prompt_tokens
              (model_usage (add_openai_usage (after calls) prompt completion model_name))
            + prompt
       /\ openai_completion_tokens
            (add_openai_usage (after calls) prompt completion model_name)
          = sum_of completion_tokens
              (model_usage (add_openai_usage (after calls) prompt completion model_name))
            + completion.
Proof.
  intros H. unfold after.
  destruct (fold_sums calls H UsageStats_default) as [H1 H2];
    [vm_compute; reflexivity | vm_compute; reflexivity |].
  split; [exact H1 |]. split; [exact H2 |].
  intros prompt completion model_name Hn. unfold add_openai_usage.
  cbn [model_usage openai_prompt_tokens openai_completion_tokens]. rewrite Hn.
  split; [reflexivity |]. split; [now rewrite H1 | now rewrite H2].
Qed.

End UsageBooks.

Section UsageExamples.
Import Py Usage.

(** An instance: two models, one of them new to the table, and a search. *)
Lemma usage_aggregate_is_sum_of_models_witness :
  all_named [AddOpenAI 120 30 (Some "writer_model"); AddTavily;
             AddOpenAI 50 5 (Some "planner_model")]
  /\ sum_of prompt_tokens
       (model_usage (after [AddOpenAI 120 30 (Some "writer_model"); AddTavily;
                            AddOpenAI 50 5 (Some "planner_model")])) = 170.
Proof.
  assert (H : all_named [AddOpenAI 120 30 (Some "writer_model"); AddTavily;
                         AddOpenAI 50 5 (Some "planner_model")])
    by (repeat constructor; discriminate).
  split; [exact H |].
  destruct (usage_aggregate_is_sum_of_models _ H) as (H1 & _ & _).
  rewrite <- H1. reflexivity.
Defined.

(** Without a model name the aggregate runs ahead of the table. *)
Example unnamed_call_is_not_in_table :
  openai_prompt_tokens (after [AddOpenAI 120 30 None]) = 120
  /\ model_usage (after [AddOpenAI 120 30 None]) = model_usage UsageStats_default.
Proof. split; reflexivity. Qed.

End UsageExamples.
